(** * Server-side opnum dispatch stubs of go-msrpc

    Every [server.go] of the repository is a generated stub with the same
    three functions: [RegisterXxxServer], [NewXxxServerHandle] and
    [XxxServerHandle].  The last one switches on the operation number,
    decodes the request with [UnmarshalNDR], calls the method of the
    user-supplied server and converts the response with [xxx_ToOp].

    The NDR codec, the transport ([dcerpc.Conn]), the request and response
    structures with their [UnmarshalNDR] and [xxx_ToOp] methods, the syntax
    identifiers and the base-interface dispatchers live outside the stubs.
    They are taken here as a [Runtime] the stubs are parameterised by, and
    the calls a stub makes into them are kept as the nodes of a small
    program type [Prog], so that what a stub calls, in which order and how
    often can be read off and executed against any implementation. *)

From Stdlib Require Import ZArith List Bool Lia.
Import ListNotations.
Open Scope Z_scope.

Set Implicit Arguments.

(** ** The runtime the stubs are generated against *)

Class Runtime : Type := {
  Context : Type;    (* context.Context *)
  Reader : Type;     (* ndr.Reader *)
  Server : Type;     (* the object behind an XxxServer interface value *)
  Request : Type;    (* a request structure, *XxxRequest *)
  Response : Type;   (* a response structure behind a non-nil *XxxResponse *)
  Err : Type;        (* a non-nil error *)
  Op : Type;         (* a non-nil dcerpc.Operation *)
  SyntaxID : Type;   (* *dcerpc.SyntaxID *)
  Option : Type;     (* dcerpc.Option *)
  WithAbstractSyntax : SyntaxID -> Option   (* dcerpc.WithAbstractSyntax *)
}.

(** Go's [error] and [dcerpc.Operation] are interface types: a value is
    [nil] or a non-nil value. *)
Definition error {rt : Runtime} : Type := option Err.
Definition Operation {rt : Runtime} : Type := option Op.

(** The dispatchers of base interfaces a derived stub hands low opnums to;
    their packages are imported by the stubs, not defined in them. *)
Inductive BaseServerHandle : Set :=
| iunknown_UnknownServerHandle
| ifsrmfilescreenbase_FileScreenBaseServerHandle
| idatafactory2_DataFactory2ServerHandle.

(** ** Stub programs

    [RT] names the request structures of an interface and [M] its methods.
    A stub is a tree of the calls it makes into its environment; each call
    continues with whatever the callee returned. *)
Section Programs.
Context {rt : Runtime}.
Variables RT M : Type.

Inductive Prog (R : Type) : Type :=
| Return (x : R)
  (* in := &T{}; err := in.UnmarshalNDR(ctx, r) *)
| UnmarshalNDR (T : RT) (ctx : Context) (r : Reader)
               (k : Request -> error -> Prog R)
  (* resp, err := o.m(ctx, in) *)
| Call (o : Server) (m : M) (ctx : Context) (in_ : Request)
       (k : option Response -> error -> Prog R)
  (* op, err := pkg.BaseServerHandle(ctx, o, opNum, r) *)
| Delegate (b : BaseServerHandle) (ctx : Context) (o : Server) (opNum : Z)
           (r : Reader) (k : Operation -> error -> Prog R).

(** dcerpc.ServerHandle *)
Definition ServerHandle : Type :=
  Context -> Z -> Reader -> Prog (Operation * error).

(** What a stub did, in order. *)
Inductive Event : Type :=
| EvUnmarshalNDR (T : RT) (ctx : Context) (r : Reader)
| EvCall (o : Server) (m : M) (ctx : Context) (in_ : Request)
| EvDelegate (b : BaseServerHandle) (ctx : Context) (o : Server)
             (opNum : Z) (r : Reader).

(** An implementation of the environment over a world [W]: the contents
    of the readers, the state of the servers and everything else the
    callees may touch. *)
Record Env (W : Type) : Type := {
  unmarshal : RT -> Context -> Reader -> W -> Request * error * W;
  invoke : Server -> M -> Context -> Request -> W ->
           option Response * error * W;
  base_handle : BaseServerHandle -> Context -> Server -> Z -> Reader -> W ->
                Operation * error * W
}.

Record Outcome (W R : Type) : Type := {
  result : R;
  world : W;
  trace : list Event
}.

Definition logged (W R : Type) (ev : Event) (out : Outcome W R)
  : Outcome W R :=
  {| result := result out; world := world out; trace := ev :: trace out |}.

Fixpoint run (W R : Type) (env : Env W) (p : Prog R) (w : W)
  : Outcome W R :=
  match p with
  | Return x => {| result := x; world := w; trace := [] |}
  | UnmarshalNDR T ctx r k =>
      let '(in_, err, w1) := unmarshal env T ctx r w in
      logged (EvUnmarshalNDR T ctx r) (run env (k in_ err) w1)
  | Call o m ctx in_ k =>
      let '(resp, err, w1) := invoke env o m ctx in_ w in
      logged (EvCall o m ctx in_) (run env (k resp err) w1)
  | Delegate b ctx o opNum r k =>
      let '(op, err, w1) := base_handle env b ctx o opNum r w in
      logged (EvDelegate b ctx o opNum r) (run env (k op err) w1)
  end.

(** The world after one traced call, and after a whole trace. *)
Definition after (W : Type) (env : Env W) (w : W) (ev : Event) : W :=
  match ev with
  | EvUnmarshalNDR T ctx r => snd (unmarshal env T ctx r w)
  | EvCall o m ctx in_ => snd (invoke env o m ctx in_ w)
  | EvDelegate b ctx o opNum r => snd (base_handle env b ctx o opNum r w)
  end.

Definition replay (W : Type) (env : Env W) (tr : list Event) (w : W) : W :=
  fold_left (after env) tr w.

(** The handler calls, the decodings and the delegations of a trace. *)
Definition handler_calls (tr : list Event) : list (Server * M * Request) :=
  flat_map (fun ev => match ev with
                      | EvCall o m _ in_ => [(o, m, in_)]
                      | _ => []
                      end) tr.

Definition decodings (tr : list Event) : list RT :=
  flat_map (fun ev => match ev with
                      | EvUnmarshalNDR T _ _ => [T]
                      | _ => []
                      end) tr.

Definition delegations (tr : list Event) : list (BaseServerHandle * Z) :=
  flat_map (fun ev => match ev with
                      | EvDelegate b _ _ opNum _ => [(b, opNum)]
                      | _ => []
                      end) tr.

(** ** The dispatcher of the specification

    "Switch on integer opnum, decode struct, call method, encode
    result": a lookup table from opnums to a request structure and a
    method, below an optional bound under which the base interface's
    dispatcher is called instead. *)
Variable xxx_ToOp : M -> option Response -> Context -> Operation.

Definition decode_call_convert (T : RT) (m : M) (ctx : Context)
           (o : Server) (r : Reader) : Prog (Operation * error) :=
  UnmarshalNDR T ctx r (fun in_ err =>
    match err with
    | Some _ => Return (None, err)
    | None =>
        Call o m ctx in_ (fun resp err0 =>
          Return (xxx_ToOp m resp ctx, err0))
    end).

Definition delegate_to (b : BaseServerHandle) (ctx : Context) (o : Server)
           (opNum : Z) (r : Reader) : Prog (Operation * error) :=
  Delegate b ctx o opNum r (fun op err => Return (op, err)).

Fixpoint lookup (A : Type) (opNum : Z) (t : list (Z * A)) : option A :=
  match t with
  | [] => None
  | (n, a) :: t' => if opNum =? n then Some a else lookup opNum t'
  end.

Definition delegated (base : option (BaseServerHandle * Z)) (opNum : Z)
  : bool :=
  match base with
  | Some (_, n) => opNum <? n
  | None => false
  end.

Definition dispatch (base : option (BaseServerHandle * Z))
           (table : list (Z * (RT * M)))
           (ctx : Context) (o : Server) (opNum : Z) (r : Reader)
  : Prog (Operation * error) :=
  match base with
  | Some (b, n) =>
      if opNum <? n then delegate_to b ctx o opNum r
      else match lookup opNum table with
           | Some (T, m) => decode_call_convert T m ctx o r
           | None => Return (None, None)
           end
  | None =>
      match lookup opNum table with
      | Some (T, m) => decode_call_convert T m ctx o r
      | None => Return (None, None)
      end
  end.
End Programs.

Arguments Return {rt RT M R} x.
Arguments UnmarshalNDR {rt RT M R} T ctx r k.
Arguments Call {rt RT M R} o m ctx in_ k.
Arguments Delegate {rt RT M R} b ctx o opNum r k.
Arguments EvUnmarshalNDR {rt RT M} T ctx r.
Arguments EvCall {rt RT M} o m ctx in_.
Arguments EvDelegate {rt RT M} b ctx o opNum r.
Arguments delegate_to {rt RT M} b ctx o opNum r.

(** dcerpc.Conn, as far as the stubs use it: [conn.RegisterServer(handle,
    opts...)] changes the connection [C] in a way the stub does not see. *)
Record Conn {rt : Runtime} (C : Type) : Type := {
  RegisterServer :
    forall RT M : Type, ServerHandle RT M -> list Option -> C -> C
}.
Arguments RegisterServer {rt C} c {RT M} h opts.

(** ** Package [windowsshutdown]:
    the WindowsShutdown server stub
    (src/msrpc/rsp/windowsshutdown/v1/server.go) *)
Module windowsshutdown.

(** The request structures the stub decodes. *)
Inductive RequestType : Set :=
| InitiateShutdownRequest | AbortShutdownRequest.

(** The methods of [WindowsShutdownServer]. *)
Inductive Method : Set :=
| InitiateShutdown | AbortShutdown.

(** The interface declaration: the request structure a method takes. *)
Definition request_of (m : Method) : RequestType :=
  match m with
  | InitiateShutdown => InitiateShutdownRequest
  | AbortShutdown => AbortShutdownRequest
  end.

(** The opnum the switch dispatches to each method under. *)
Definition opnum_of (m : Method) : Z :=
  match m with
  | InitiateShutdown => 0
  | AbortShutdown => 1
  end.

Section Stub.
Context {rt : Runtime}.
(* resp.xxx_ToOp(ctx), for the response structure of each method *)
Variable xxx_ToOp : Method -> option Response -> Context -> Operation.
Variable WindowsShutdownSyntaxV1_0 : SyntaxID.

Definition WindowsShutdownServerHandle
           (ctx : Context) (o : Server) (opNum : Z) (r : Reader)
  : Prog RequestType Method (Operation * error) :=
  match opNum with
  | 0 => (* WsdrInitiateShutdown *)
      UnmarshalNDR InitiateShutdownRequest ctx r (fun in_ err =>
      match err with
      | Some _ => Return (None, err)
      | None =>
          Call o InitiateShutdown ctx in_ (fun resp err0 =>
          Return (xxx_ToOp InitiateShutdown resp ctx, err0))
      end)
  | 1 => (* WsdrAbortShutdown *)
      UnmarshalNDR AbortShutdownRequest ctx r (fun in_ err =>
      match err with
      | Some _ => Return (None, err)
      | None =>
          Call o AbortShutdown ctx in_ (fun resp err0 =>
          Return (xxx_ToOp AbortShutdown resp ctx, err0))
      end)
  | _ => Return (None, None)
  end.

Definition NewWindowsShutdownServerHandle (o : Server)
  : ServerHandle RequestType Method :=
  fun ctx opNum r => WindowsShutdownServerHandle ctx o opNum r.

Definition RegisterWindowsShutdownServer
           (C : Type) (conn : Conn C) (o : Server) (opts : list Option)
  : C -> C :=
  RegisterServer conn (NewWindowsShutdownServerHandle o)
    (opts ++ [WithAbstractSyntax WindowsShutdownSyntaxV1_0]).
End Stub.

(** The case labels of the switch, in order. *)
Definition case_labels : list Z :=
  [0; 1].

(** The cases that decode a request: opnum, request structure, method. *)
Definition table : list (Z * (RequestType * Method)) :=
  [(0, (InitiateShutdownRequest, InitiateShutdown));
   (1, (AbortShutdownRequest, AbortShutdown))].

(** The bound under which the base dispatcher is called. *)
Definition base : option (BaseServerHandle * Z) := None.
End windowsshutdown.

(** ** Package [ivdsservicesan]:
    the ServiceSAN server stub
    (src/msrpc/dcom/vds/ivdsservicesan/v0/server.go) *)
Module ivdsservicesan.

(** The request structures the stub decodes. *)
Inductive RequestType : Set :=
| GetSANPolicyRequest | SetSANPolicyRequest.

(** The methods of [ServiceSANServer], beside those of the
    embedded [iunknown.UnknownServer]. *)
Inductive Method : Set :=
| GetSANPolicy | SetSANPolicy.

(** The interface declaration: the request structure a method takes. *)
Definition request_of (m : Method) : RequestType :=
  match m with
  | GetSANPolicy => GetSANPolicyRequest
  | SetSANPolicy => SetSANPolicyRequest
  end.

(** The opnum the switch dispatches to each method under. *)
Definition opnum_of (m : Method) : Z :=
  match m with
  | GetSANPolicy => 3
  | SetSANPolicy => 4
  end.

Section Stub.
Context {rt : Runtime}.
(* resp.xxx_ToOp(ctx), for the response structure of each method *)
Variable xxx_ToOp : Method -> option Response -> Context -> Operation.
Variable ServiceSANSyntaxV0_0 : SyntaxID.

Definition ServiceSANServerHandle
           (ctx : Context) (o : Server) (opNum : Z) (r : Reader)
  : Prog RequestType Method (Operation * error) :=
  if opNum <? 3 then
    (* IUnknown base method. *)
    Delegate iunknown_UnknownServerHandle ctx o opNum r
             (fun op err => Return (op, err))
  else
  match opNum with
  | 3 => (* GetSANPolicy *)
      UnmarshalNDR GetSANPolicyRequest ctx r (fun in_ err =>
      match err with
      | Some _ => Return (None, err)
      | None =>
          Call o GetSANPolicy ctx in_ (fun resp err0 =>
          Return (xxx_ToOp GetSANPolicy resp ctx, err0))
      end)
  | 4 => (* SetSANPolicy *)
      UnmarshalNDR SetSANPolicyRequest ctx r (fun in_ err =>
      match err with
      | Some _ => Return (None, err)
      | None =>
          Call o SetSANPolicy ctx in_ (fun resp err0 =>
          Return (xxx_ToOp SetSANPolicy resp ctx, err0))
      end)
  | _ => Return (None, None)
  end.

Definition NewServiceSANServerHandle (o : Server)
  : ServerHandle RequestType Method :=
  fun ctx opNum r => ServiceSANServerHandle ctx o opNum r.

Definition RegisterServiceSANServer
           (C : Type) (conn : Conn C) (o : Server) (opts : list Option)
  : C -> C :=
  RegisterServer conn (NewServiceSANServerHandle o)
    (opts ++ [WithAbstractSyntax ServiceSANSyntaxV0_0]).
End Stub.

(** The case labels of the switch, in order. *)
Definition case_labels : list Z :=
  [3; 4].

(** The cases that decode a request: opnum, request structure, method. *)
Definition table : list (Z * (RequestType * Method)) :=
  [(3, (GetSANPolicyRequest, GetSANPolicy));
   (4, (SetSANPolicyRequest, SetSANPolicy))].

(** The bound under which the base dispatcher is called. *)
Definition base : option (BaseServerHandle * Z) :=
  Some (iunknown_UnknownServerHandle, 3).
End ivdsservicesan.

(** ** Package [ivdsvdprovider]:
    the VDiskProvider server stub
    (src/msrpc/dcom/vds/ivdsvdprovider/v0/server.go) *)
Module ivdsvdprovider.

(** The request structures the stub decodes. *)
Inductive RequestType : Set :=
| QueryVDisksRequest | CreateVDiskRequest | AddVDiskRequest
| GetDiskFromVDiskRequest | GetVDiskFromDiskRequest.

(** The methods of [VDiskProviderServer], beside those of the
    embedded [iunknown.UnknownServer]. *)
Inductive Method : Set :=
| QueryVDisks | CreateVDisk | AddVDisk | GetDiskFromVDisk
| GetVDiskFromDisk.

(** The interface declaration: the request structure a method takes. *)
Definition request_of (m : Method) : RequestType :=
  match m with
  | QueryVDisks => QueryVDisksRequest
  | CreateVDisk => CreateVDiskRequest
  | AddVDisk => AddVDiskRequest
  | GetDiskFromVDisk => GetDiskFromVDiskRequest
  | GetVDiskFromDisk => GetVDiskFromDiskRequest
  end.

(** The opnum the switch dispatches to each method under. *)
Definition opnum_of (m : Method) : Z :=
  match m with
  | QueryVDisks => 3
  | CreateVDisk => 4
  | AddVDisk => 5
  | GetDiskFromVDisk => 6
  | GetVDiskFromDisk => 7
  end.

Section Stub.
Context {rt : Runtime}.
(* resp.xxx_ToOp(ctx), for the response structure of each method *)
Variable xxx_ToOp : Method -> option Response -> Context -> Operation.
Variable VDiskProviderSyntaxV0_0 : SyntaxID.

Definition VDiskProviderServerHandle
           (ctx : Context) (o : Server) (opNum : Z) (r : Reader)
  : Prog RequestType Method (Operation * error) :=
  if opNum <? 3 then
    (* IUnknown base method. *)
    Delegate iunknown_UnknownServerHandle ctx o opNum r
             (fun op err => Return (op, err))
  else
  match opNum with
  | 3 => (* QueryVDisks *)
      UnmarshalNDR QueryVDisksRequest ctx r (fun in_ err =>
      match err with
      | Some _ => Return (None, err)
      | None =>
          Call o QueryVDisks ctx in_ (fun resp err0 =>
          Return (xxx_ToOp QueryVDisks resp ctx, err0))
      end)
  | 4 => (* CreateVDisk *)
      UnmarshalNDR CreateVDiskRequest ctx r (fun in_ err =>
      match err with
      | Some _ => Return (None, err)
      | None =>
          Call o CreateVDisk ctx in_ (fun resp err0 =>
          Return (xxx_ToOp CreateVDisk resp ctx, err0))
      end)
  | 5 => (* AddVDisk *)
      UnmarshalNDR AddVDiskRequest ctx r (fun in_ err =>
      match err with
      | Some _ => Return (None, err)
      | None =>
          Call o AddVDisk ctx in_ (fun resp err0 =>
          Return (xxx_ToOp AddVDisk resp ctx, err0))
      end)
  | 6 => (* GetDiskFromVDisk *)
      UnmarshalNDR GetDiskFromVDiskRequest ctx r (fun in_ err =>
      match err with
      | Some _ => Return (None, err)
      | None =>
          Call o GetDiskFromVDisk ctx in_ (fun resp err0 =>
          Return (xxx_ToOp GetDiskFromVDisk resp ctx, err0))
      end)
  | 7 => (* GetVDiskFromDisk *)
      UnmarshalNDR GetVDiskFromDiskRequest ctx r (fun in_ err =>
      match err with
      | Some _ => Return (None, err)
      | None =>
          Call o GetVDiskFromDisk ctx in_ (fun resp err0 =>
          Return (xxx_ToOp GetVDiskFromDisk resp ctx, err0))
      end)
  | _ => Return (None, None)
  end.

Definition NewVDiskProviderServerHandle (o : Server)
  : ServerHandle RequestType Method :=
  fun ctx opNum r => VDiskProviderServerHandle ctx o opNum r.

Definition RegisterVDiskProviderServer
           (C : Type) (conn : Conn C) (o : Server) (opts : list Option)
  : C -> C :=
  RegisterServer conn (NewVDiskProviderServerHandle o)
    (opts ++ [WithAbstractSyntax VDiskProviderSyntaxV0_0]).
End Stub.

(** The case labels of the switch, in order. *)
Definition case_labels : list Z :=
  [3; 4; 5; 6; 7].

(** The cases that decode a request: opnum, request structure, method. *)
Definition table : list (Z * (RequestType * Method)) :=
  [(3, (QueryVDisksRequest, QueryVDisks));
   (4, (CreateVDiskRequest, CreateVDisk));
   (5, (AddVDiskRequest, AddVDisk));
   (6, (GetDiskFromVDiskRequest, GetDiskFromVDisk));
   (7, (GetVDiskFromDiskRequest, GetVDiskFromDisk))].

(** The bound under which the base dispatcher is called. *)
Definition base : option (BaseServerHandle * Z) :=
  Some (iunknown_UnknownServerHandle, 3).
End ivdsvdprovider.

(** ** Package [ifsrmfilescreentemplate]:
    the FileScreenTemplate server stub
    (src/msrpc/dcom/fsrm/ifsrmfilescreentemplate/v0/server.go) *)
Module ifsrmfilescreentemplate.

(** The request structures the stub decodes. *)
Inductive RequestType : Set :=
| GetNameRequest | SetNameRequest | CopyTemplateRequest
| CommitAndUpdateDerivedRequest.

(** The methods of [FileScreenTemplateServer], beside those of the
    embedded [ifsrmfilescreenbase.FileScreenBaseServer]. *)
Inductive Method : Set :=
| GetName | SetName | CopyTemplate | CommitAndUpdateDerived.

(** The interface declaration: the request structure a method takes. *)
Definition request_of (m : Method) : RequestType :=
  match m with
  | GetName => GetNameRequest
  | SetName => SetNameRequest
  | CopyTemplate => CopyTemplateRequest
  | CommitAndUpdateDerived => CommitAndUpdateDerivedRequest
  end.

(** The opnum the switch dispatches to each method under. *)
Definition opnum_of (m : Method) : Z :=
  match m with
  | GetName => 18
  | SetName => 19
  | CopyTemplate => 20
  | CommitAndUpdateDerived => 21
  end.

Section Stub.
Context {rt : Runtime}.
(* resp.xxx_ToOp(ctx), for the response structure of each method *)
Variable xxx_ToOp : Method -> option Response -> Context -> Operation.
Variable FileScreenTemplateSyntaxV0_0 : SyntaxID.

Definition FileScreenTemplateServerHandle
           (ctx : Context) (o : Server) (opNum : Z) (r : Reader)
  : Prog RequestType Method (Operation * error) :=
  if opNum <? 18 then
    (* IFsrmFileScreenBase base method. *)
    Delegate ifsrmfilescreenbase_FileScreenBaseServerHandle ctx o opNum r
             (fun op err => Return (op, err))
  else
  match opNum with
  | 18 => (* Name *)
      UnmarshalNDR GetNameRequest ctx r (fun in_ err =>
      match err with
      | Some _ => Return (None, err)
      | None =>
          Call o GetName ctx in_ (fun resp err0 =>
          Return (xxx_ToOp GetName resp ctx, err0))
      end)
  | 19 => (* Name *)
      UnmarshalNDR SetNameRequest ctx r (fun in_ err =>
      match err with
      | Some _ => Return (None, err)
      | None =>
          Call o SetName ctx in_ (fun resp err0 =>
          Return (xxx_ToOp SetName resp ctx, err0))
      end)
  | 20 => (* CopyTemplate *)
      UnmarshalNDR CopyTemplateRequest ctx r (fun in_ err =>
      match err with
      | Some _ => Return (None, err)
      | None =>
          Call o CopyTemplate ctx in_ (fun resp err0 =>
          Return (xxx_ToOp CopyTemplate resp ctx, err0))
      end)
  | 21 => (* CommitAndUpdateDerived *)
      UnmarshalNDR CommitAndUpdateDerivedRequest ctx r (fun in_ err =>
      match err with
      | Some _ => Return (None, err)
      | None =>
          Call o CommitAndUpdateDerived ctx in_ (fun resp err0 =>
          Return (xxx_ToOp CommitAndUpdateDerived resp ctx, err0))
      end)
  | _ => Return (None, None)
  end.

Definition NewFileScreenTemplateServerHandle (o : Server)
  : ServerHandle RequestType Method :=
  fun ctx opNum r => FileScreenTemplateServerHandle ctx o opNum r.

Definition RegisterFileScreenTemplateServer
           (C : Type) (conn : Conn C) (o : Server) (opts : list Option)
  : C -> C :=
  RegisterServer conn (NewFileScreenTemplateServerHandle o)
    (opts ++ [WithAbstractSyntax FileScreenTemplateSyntaxV0_0]).
End Stub.

(** The case labels of the switch, in order. *)
Definition case_labels : list Z :=
  [18; 19; 20; 21].

(** The cases that decode a request: opnum, request structure, method. *)
Definition table : list (Z * (RequestType * Method)) :=
  [(18, (GetNameRequest, GetName));
   (19, (SetNameRequest, SetName));
   (20, (CopyTemplateRequest, CopyTemplate));
   (21, (CommitAndUpdateDerivedRequest, CommitAndUpdateDerived))].

(** The bound under which the base dispatcher is called. *)
Definition base : option (BaseServerHandle * Z) :=
  Some (ifsrmfilescreenbase_FileScreenBaseServerHandle, 18).
End ifsrmfilescreentemplate.

(** ** Package [iapphostpropertycollection]:
    the AppHostPropertyCollection server stub
    (src/msrpc/dcom/iisa/iapphostpropertycollection/v0/server.go) *)
Module iapphostpropertycollection.

(** The request structures the stub decodes. *)
Inductive RequestType : Set :=
| GetCountRequest | GetItemRequest.

(** The methods of [AppHostPropertyCollectionServer], beside those of the
    embedded [iunknown.UnknownServer]. *)
Inductive Method : Set :=
| GetCount | GetItem.

(** The interface declaration: the request structure a method takes. *)
Definition request_of (m : Method) : RequestType :=
  match m with
  | GetCount => GetCountRequest
  | GetItem => GetItemRequest
  end.

(** The opnum the switch dispatches to each method under. *)
Definition opnum_of (m : Method) : Z :=
  match m with
  | GetCount => 3
  | GetItem => 4
  end.

Section Stub.
Context {rt : Runtime}.
(* resp.xxx_ToOp(ctx), for the response structure of each method *)
Variable xxx_ToOp : Method -> option Response -> Context -> Operation.
Variable AppHostPropertyCollectionSyntaxV0_0 : SyntaxID.

Definition AppHostPropertyCollectionServerHandle
           (ctx : Context) (o : Server) (opNum : Z) (r : Reader)
  : Prog RequestType Method (Operation * error) :=
  if opNum <? 3 then
    (* IUnknown base method. *)
    Delegate iunknown_UnknownServerHandle ctx o opNum r
             (fun op err => Return (op, err))
  else
  match opNum with
  | 3 => (* Count *)
      UnmarshalNDR GetCountRequest ctx r (fun in_ err =>
      match err with
      | Some _ => Return (None, err)
      | None =>
          Call o GetCount ctx in_ (fun resp err0 =>
          Return (xxx_ToOp GetCount resp ctx, err0))
      end)
  | 4 => (* Item *)
      UnmarshalNDR GetItemRequest ctx r (fun in_ err =>
      match err with
      | Some _ => Return (None, err)
      | None =>
          Call o GetItem ctx in_ (fun resp err0 =>
          Return (xxx_ToOp GetItem resp ctx, err0))
      end)
  | _ => Return (None, None)
  end.

Definition NewAppHostPropertyCollectionServerHandle (o : Server)
  : ServerHandle RequestType Method :=
  fun ctx opNum r => AppHostPropertyCollectionServerHandle ctx o opNum r.

Definition RegisterAppHostPropertyCollectionServer
           (C : Type) (conn : Conn C) (o : Server) (opts : list Option)
  : C -> C :=
  RegisterServer conn (NewAppHostPropertyCollectionServerHandle o)
    (opts ++ [WithAbstractSyntax AppHostPropertyCollectionSyntaxV0_0]).
End Stub.

(** The case labels of the switch, in order. *)
Definition case_labels : list Z :=
  [3; 4].

(** The cases that decode a request: opnum, request structure, method. *)
Definition table : list (Z * (RequestType * Method)) :=
  [(3, (GetCountRequest, GetCount));
   (4, (GetItemRequest, GetItem))].

(** The bound under which the base dispatcher is called. *)
Definition base : option (BaseServerHandle * Z) :=
  Some (iunknown_UnknownServerHandle, 3).
End iapphostpropertycollection.

(** ** Package [icatalogutils2]:
    the CatalogUtils2 server stub
    (src/msrpc/dcom/coma/icatalogutils2/v0/server.go) *)
Module icatalogutils2.

(** The request structures the stub decodes. *)
Inductive RequestType : Set :=
| CopyConglomerationsRequest | CopyComponentConfigurationRequest
| AliasComponentRequest | MoveComponentConfigurationRequest
| GetEventClassesForIid2Request | IsSafeToDeleteRequest
| FlushPartitionCacheRequest | EnumerateSRPLevelsRequest
| GetComponentVersionsRequest.

(** The methods of [CatalogUtils2Server], beside those of the
    embedded [iunknown.UnknownServer]. *)
Inductive Method : Set :=
| CopyConglomerations | CopyComponentConfiguration | AliasComponent
| MoveComponentConfiguration | GetEventClassesForIid2 | IsSafeToDelete
| FlushPartitionCache | EnumerateSRPLevels | GetComponentVersions.

(** The interface declaration: the request structure a method takes. *)
Definition request_of (m : Method) : RequestType :=
  match m with
  | CopyConglomerations => CopyConglomerationsRequest
  | CopyComponentConfiguration => CopyComponentConfigurationRequest
  | AliasComponent => AliasComponentRequest
  | MoveComponentConfiguration => MoveComponentConfigurationRequest
  | GetEventClassesForIid2 => GetEventClassesForIid2Request
  | IsSafeToDelete => IsSafeToDeleteRequest
  | FlushPartitionCache => FlushPartitionCacheRequest
  | EnumerateSRPLevels => EnumerateSRPLevelsRequest
  | GetComponentVersions => GetComponentVersionsRequest
  end.

(** The opnum the switch dispatches to each method under. *)
Definition opnum_of (m : Method) : Z :=
  match m with
  | CopyConglomerations => 3
  | CopyComponentConfiguration => 4
  | AliasComponent => 5
  | MoveComponentConfiguration => 6
  | GetEventClassesForIid2 => 7
  | IsSafeToDelete => 8
  | FlushPartitionCache => 9
  | EnumerateSRPLevels => 10
  | GetComponentVersions => 11
  end.

Section Stub.
Context {rt : Runtime}.
(* resp.xxx_ToOp(ctx), for the response structure of each method *)
Variable xxx_ToOp : Method -> option Response -> Context -> Operation.
Variable CatalogUtils2SyntaxV0_0 : SyntaxID.

Definition CatalogUtils2ServerHandle
           (ctx : Context) (o : Server) (opNum : Z) (r : Reader)
  : Prog RequestType Method (Operation * error) :=
  if opNum <? 3 then
    (* IUnknown base method. *)
    Delegate iunknown_UnknownServerHandle ctx o opNum r
             (fun op err => Return (op, err))
  else
  match opNum with
  | 3 => (* CopyConglomerations *)
      UnmarshalNDR CopyConglomerationsRequest ctx r (fun in_ err =>
      match err with
      | Some _ => Return (None, err)
      | None =>
          Call o CopyConglomerations ctx in_ (fun resp err0 =>
          Return (xxx_ToOp CopyConglomerations resp ctx, err0))
      end)
  | 4 => (* CopyComponentConfiguration *)
      UnmarshalNDR CopyComponentConfigurationRequest ctx r (fun in_ err =>
      match err with
      | Some _ => Return (None, err)
      | None =>
          Call o CopyComponentConfiguration ctx in_ (fun resp err0 =>
          Return (xxx_ToOp CopyComponentConfiguration resp ctx, err0))
      end)
  | 5 => (* AliasComponent *)
      UnmarshalNDR AliasComponentRequest ctx r (fun in_ err =>
      match err with
      | Some _ => Return (None, err)
      | None =>
          Call o AliasComponent ctx in_ (fun resp err0 =>
          Return (xxx_ToOp AliasComponent resp ctx, err0))
      end)
  | 6 => (* MoveComponentConfiguration *)
      UnmarshalNDR MoveComponentConfigurationRequest ctx r (fun in_ err =>
      match err with
      | Some _ => Return (None, err)
      | None =>
          Call o MoveComponentConfiguration ctx in_ (fun resp err0 =>
          Return (xxx_ToOp MoveComponentConfiguration resp ctx, err0))
      end)
  | 7 => (* GetEventClassesForIID2 *)
      UnmarshalNDR GetEventClassesForIid2Request ctx r (fun in_ err =>
      match err with
      | Some _ => Return (None, err)
      | None =>
          Call o GetEventClassesForIid2 ctx in_ (fun resp err0 =>
          Return (xxx_ToOp GetEventClassesForIid2 resp ctx, err0))
      end)
  | 8 => (* IsSafeToDelete *)
      UnmarshalNDR IsSafeToDeleteRequest ctx r (fun in_ err =>
      match err with
      | Some _ => Return (None, err)
      | None =>
          Call o IsSafeToDelete ctx in_ (fun resp err0 =>
          Return (xxx_ToOp IsSafeToDelete resp ctx, err0))
      end)
  | 9 => (* FlushPartitionCache *)
      UnmarshalNDR FlushPartitionCacheRequest ctx r (fun in_ err =>
      match err with
      | Some _ => Return (None, err)
      | None =>
          Call o FlushPartitionCache ctx in_ (fun resp err0 =>
          Return (xxx_ToOp FlushPartitionCache resp ctx, err0))
      end)
  | 10 => (* EnumerateSRPLevels *)
      UnmarshalNDR EnumerateSRPLevelsRequest ctx r (fun in_ err =>
      match err with
      | Some _ => Return (None, err)
      | None =>
          Call o EnumerateSRPLevels ctx in_ (fun resp err0 =>
          Return (xxx_ToOp EnumerateSRPLevels resp ctx, err0))
      end)
  | 11 => (* GetComponentVersions *)
      UnmarshalNDR GetComponentVersionsRequest ctx r (fun in_ err =>
      match err with
      | Some _ => Return (None, err)
      | None =>
          Call o GetComponentVersions ctx in_ (fun resp err0 =>
          Return (xxx_ToOp GetComponentVersions resp ctx, err0))
      end)
  | _ => Return (None, None)
  end.

Definition NewCatalogUtils2ServerHandle (o : Server)
  : ServerHandle RequestType Method :=
  fun ctx opNum r => CatalogUtils2ServerHandle ctx o opNum r.

Definition RegisterCatalogUtils2Server
           (C : Type) (conn : Conn C) (o : Server) (opts : list Option)
  : C -> C :=
  RegisterServer conn (NewCatalogUtils2ServerHandle o)
    (opts ++ [WithAbstractSyntax CatalogUtils2SyntaxV0_0]).
End Stub.

(** The case labels of the switch, in order. *)
Definition case_labels : list Z :=
  [3; 4; 5; 6; 7; 8; 9; 10; 11].

(** The cases that decode a request: opnum, request structure, method. *)
Definition table : list (Z * (RequestType * Method)) :=
  [(3, (CopyConglomerationsRequest, CopyConglomerations));
   (4, (CopyComponentConfigurationRequest, CopyComponentConfiguration));
   (5, (AliasComponentRequest, AliasComponent));
   (6, (MoveComponentConfigurationRequest, MoveComponentConfiguration));
   (7, (GetEventClassesForIid2Request, GetEventClassesForIid2));
   (8, (IsSafeToDeleteRequest, IsSafeToDelete));
   (9, (FlushPartitionCacheRequest, FlushPartitionCache));
   (10, (EnumerateSRPLevelsRequest, EnumerateSRPLevels));
   (11, (GetComponentVersionsRequest, GetComponentVersions))].

(** The bound under which the base dispatcher is called. *)
Definition base : option (BaseServerHandle * Z) :=
  Some (iunknown_UnknownServerHandle, 3).
End icatalogutils2.

(** ** Package [nspi]:
    the Nspi server stub
    (src/msrpc/nspi/nspi/v56/server.go) *)
Module nspi.

(** The request structures the stub decodes. *)
Inductive RequestType : Set :=
| BindRequest | UnbindRequest | UpdateStatRequest | QueryRowsRequest
| SeekEntriesRequest | GetMatchesRequest | ResortRestrictionRequest
| DNToMIDRequest | GetPropertyListRequest | GetPropertiesRequest
| CompareMIDsRequest | ModifyPropertiesRequest | GetSpecialTableRequest
| GetTemplateInfoRequest | ModifyLinkAttributeRequest | QueryColumnsRequest
| GetNamesFromIDsRequest | GetIDsFromNamesRequest | ResolveNamesRequest
| ResolveNamesWRequest.

(** The methods of [NspiServer]. *)
Inductive Method : Set :=
| Bind | Unbind | UpdateStat | QueryRows | SeekEntries | GetMatches
| ResortRestriction | DNToMID | GetPropertyList | GetProperties
| CompareMIDs | ModifyProperties | GetSpecialTable | GetTemplateInfo
| ModifyLinkAttribute | QueryColumns | GetNamesFromIDs | GetIDsFromNames
| ResolveNames | ResolveNamesW.

(** The interface declaration: the request structure a method takes. *)
Definition request_of (m : Method) : RequestType :=
  match m with
  | Bind => BindRequest
  | Unbind => UnbindRequest
  | UpdateStat => UpdateStatRequest
  | QueryRows => QueryRowsRequest
  | SeekEntries => SeekEntriesRequest
  | GetMatches => GetMatchesRequest
  | ResortRestriction => ResortRestrictionRequest
  | DNToMID => DNToMIDRequest
  | GetPropertyList => GetPropertyListRequest
  | GetProperties => GetPropertiesRequest
  | CompareMIDs => CompareMIDsRequest
  | ModifyProperties => ModifyPropertiesRequest
  | GetSpecialTable => GetSpecialTableRequest
  | GetTemplateInfo => GetTemplateInfoRequest
  | ModifyLinkAttribute => ModifyLinkAttributeRequest
  | QueryColumns => QueryColumnsRequest
  | GetNamesFromIDs => GetNamesFromIDsRequest
  | GetIDsFromNames => GetIDsFromNamesRequest
  | ResolveNames => ResolveNamesRequest
  | ResolveNamesW => ResolveNamesWRequest
  end.

(** The opnum the switch dispatches to each method under. *)
Definition opnum_of (m : Method) : Z :=
  match m with
  | Bind => 0
  | Unbind => 1
  | UpdateStat => 2
  | QueryRows => 3
  | SeekEntries => 4
  | GetMatches => 5
  | ResortRestriction => 6
  | DNToMID => 7
  | GetPropertyList => 8
  | GetProperties => 9
  | CompareMIDs => 10
  | ModifyProperties => 11
  | GetSpecialTable => 12
  | GetTemplateInfo => 13
  | ModifyLinkAttribute => 14
  | QueryColumns => 16
  | GetNamesFromIDs => 17
  | GetIDsFromNames => 18
  | ResolveNames => 19
  | ResolveNamesW => 20
  end.

Section Stub.
Context {rt : Runtime}.
(* resp.xxx_ToOp(ctx), for the response structure of each method *)
Variable xxx_ToOp : Method -> option Response -> Context -> Operation.
Variable NspiSyntaxV56_0 : SyntaxID.

Definition NspiServerHandle
           (ctx : Context) (o : Server) (opNum : Z) (r : Reader)
  : Prog RequestType Method (Operation * error) :=
  match opNum with
  | 0 => (* NspiBind *)
      UnmarshalNDR BindRequest ctx r (fun in_ err =>
      match err with
      | Some _ => Return (None, err)
      | None =>
          Call o Bind ctx in_ (fun resp err0 =>
          Return (xxx_ToOp Bind resp ctx, err0))
      end)
  | 1 => (* NspiUnbind *)
      UnmarshalNDR UnbindRequest ctx r (fun in_ err =>
      match err with
      | Some _ => Return (None, err)
      | None =>
          Call o Unbind ctx in_ (fun resp err0 =>
          Return (xxx_ToOp Unbind resp ctx, err0))
      end)
  | 2 => (* NspiUpdateStat *)
      UnmarshalNDR UpdateStatRequest ctx r (fun in_ err =>
      match err with
      | Some _ => Return (None, err)
      | None =>
          Call o UpdateStat ctx in_ (fun resp err0 =>
          Return (xxx_ToOp UpdateStat resp ctx, err0))
      end)
  | 3 => (* NspiQueryRows *)
      UnmarshalNDR QueryRowsRequest ctx r (fun in_ err =>
      match err with
      | Some _ => Return (None, err)
      | None =>
          Call o QueryRows ctx in_ (fun resp err0 =>
          Return (xxx_ToOp QueryRows resp ctx, err0))
      end)
  | 4 => (* NspiSeekEntries *)
      UnmarshalNDR SeekEntriesRequest ctx r (fun in_ err =>
      match err with
      | Some _ => Return (None, err)
      | None =>
          Call o SeekEntries ctx in_ (fun resp err0 =>
          Return (xxx_ToOp SeekEntries resp ctx, err0))
      end)
  | 5 => (* NspiGetMatches *)
      UnmarshalNDR GetMatchesRequest ctx r (fun in_ err =>
      match err with
      | Some _ => Return (None, err)
      | None =>
          Call o GetMatches ctx in_ (fun resp err0 =>
          Return (xxx_ToOp GetMatches resp ctx, err0))
      end)
  | 6 => (* NspiResortRestriction *)
      UnmarshalNDR ResortRestrictionRequest ctx r (fun in_ err =>
      match err with
      | Some _ => Return (None, err)
      | None =>
          Call o ResortRestriction ctx in_ (fun resp err0 =>
          Return (xxx_ToOp ResortRestriction resp ctx, err0))
      end)
  | 7 => (* NspiDNToMId *)
      UnmarshalNDR DNToMIDRequest ctx r (fun in_ err =>
      match err with
      | Some _ => Return (None, err)
      | None =>
          Call o DNToMID ctx in_ (fun resp err0 =>
          Return (xxx_ToOp DNToMID resp ctx, err0))
      end)
  | 8 => (* NspiGetPropList *)
      UnmarshalNDR GetPropertyListRequest ctx r (fun in_ err =>
      match err with
      | Some _ => Return (None, err)
      | None =>
          Call o GetPropertyList ctx in_ (fun resp err0 =>
          Return (xxx_ToOp GetPropertyList resp ctx, err0))
      end)
  | 9 => (* NspiGetProps *)
      UnmarshalNDR GetPropertiesRequest ctx r (fun in_ err =>
      match err with
      | Some _ => Return (None, err)
      | None =>
          Call o GetProperties ctx in_ (fun resp err0 =>
          Return (xxx_ToOp GetProperties resp ctx, err0))
      end)
  | 10 => (* NspiCompareMIds *)
      UnmarshalNDR CompareMIDsRequest ctx r (fun in_ err =>
      match err with
      | Some _ => Return (None, err)
      | None =>
          Call o CompareMIDs ctx in_ (fun resp err0 =>
          Return (xxx_ToOp CompareMIDs resp ctx, err0))
      end)
  | 11 => (* NspiModProps *)
      UnmarshalNDR ModifyPropertiesRequest ctx r (fun in_ err =>
      match err with
      | Some _ => Return (None, err)
      | None =>
          Call o ModifyProperties ctx in_ (fun resp err0 =>
          Return (xxx_ToOp ModifyProperties resp ctx, err0))
      end)
  | 12 => (* NspiGetSpecialTable *)
      UnmarshalNDR GetSpecialTableRequest ctx r (fun in_ err =>
      match err with
      | Some _ => Return (None, err)
      | None =>
          Call o GetSpecialTable ctx in_ (fun resp err0 =>
          Return (xxx_ToOp GetSpecialTable resp ctx, err0))
      end)
  | 13 => (* NspiGetTemplateInfo *)
      UnmarshalNDR GetTemplateInfoRequest ctx r (fun in_ err =>
      match err with
      | Some _ => Return (None, err)
      | None =>
          Call o GetTemplateInfo ctx in_ (fun resp err0 =>
          Return (xxx_ToOp GetTemplateInfo resp ctx, err0))
      end)
  | 14 => (* NspiModLinkAtt *)
      UnmarshalNDR ModifyLinkAttributeRequest ctx r (fun in_ err =>
      match err with
      | Some _ => Return (None, err)
      | None =>
          Call o ModifyLinkAttribute ctx in_ (fun resp err0 =>
          Return (xxx_ToOp ModifyLinkAttribute resp ctx, err0))
      end)
  | 15 => (* Opnum15NotUsedOnWire *)
      Return (None, None)
  | 16 => (* NspiQueryColumns *)
      UnmarshalNDR QueryColumnsRequest ctx r (fun in_ err =>
      match err with
      | Some _ => Return (None, err)
      | None =>
          Call o QueryColumns ctx in_ (fun resp err0 =>
          Return (xxx_ToOp QueryColumns resp ctx, err0))
      end)
  | 17 => (* NspiGetNamesFromIDs *)
      UnmarshalNDR GetNamesFromIDsRequest ctx r (fun in_ err =>
      match err with
      | Some _ => Return (None, err)
      | None =>
          Call o GetNamesFromIDs ctx in_ (fun resp err0 =>
          Return (xxx_ToOp GetNamesFromIDs resp ctx, err0))
      end)
  | 18 => (* NspiGetIDsFromNames *)
      UnmarshalNDR GetIDsFromNamesRequest ctx r (fun in_ err =>
      match err with
      | Some _ => Return (None, err)
      | None =>
          Call o GetIDsFromNames ctx in_ (fun resp err0 =>
          Return (xxx_ToOp GetIDsFromNames resp ctx, err0))
      end)
  | 19 => (* NspiResolveNames *)
      UnmarshalNDR ResolveNamesRequest ctx r (fun in_ err =>
      match err with
      | Some _ => Return (None, err)
      | None =>
          Call o ResolveNames ctx in_ (fun resp err0 =>
          Return (xxx_ToOp ResolveNames resp ctx, err0))
      end)
  | 20 => (* NspiResolveNamesW *)
      UnmarshalNDR ResolveNamesWRequest ctx r (fun in_ err =>
      match err with
      | Some _ => Return (None, err)
      | None =>
          Call o ResolveNamesW ctx in_ (fun resp err0 =>
          Return (xxx_ToOp ResolveNamesW resp ctx, err0))
      end)
  | _ => Return (None, None)
  end.

Definition NewNspiServerHandle (o : Server)
  : ServerHandle RequestType Method :=
  fun ctx opNum r => NspiServerHandle ctx o opNum r.

Definition RegisterNspiServer
           (C : Type) (conn : Conn C) (o : Server) (opts : list Option)
  : C -> C :=
  RegisterServer conn (NewNspiServerHandle o)
    (opts ++ [WithAbstractSyntax NspiSyntaxV56_0]).
End Stub.

(** The case labels of the switch, in order. *)
Definition case_labels : list Z :=
  [0; 1; 2; 3; 4; 5; 6; 7; 8; 9; 10; 11; 12; 13; 14; 15; 16; 17; 18; 19;
  20].

(** The cases that decode a request: opnum, request structure, method. *)
Definition table : list (Z * (RequestType * Method)) :=
  [(0, (BindRequest, Bind));
   (1, (UnbindRequest, Unbind));
   (2, (UpdateStatRequest, UpdateStat));
   (3, (QueryRowsRequest, QueryRows));
   (4, (SeekEntriesRequest, SeekEntries));
   (5, (GetMatchesRequest, GetMatches));
   (6, (ResortRestrictionRequest, ResortRestriction));
   (7, (DNToMIDRequest, DNToMID));
   (8, (GetPropertyListRequest, GetPropertyList));
   (9, (GetPropertiesRequest, GetProperties));
   (10, (CompareMIDsRequest, CompareMIDs));
   (11, (ModifyPropertiesRequest, ModifyProperties));
   (12, (GetSpecialTableRequest, GetSpecialTable));
   (13, (GetTemplateInfoRequest, GetTemplateInfo));
   (14, (ModifyLinkAttributeRequest, ModifyLinkAttribute));
   (16, (QueryColumnsRequest, QueryColumns));
   (17, (GetNamesFromIDsRequest, GetNamesFromIDs));
   (18, (GetIDsFromNamesRequest, GetIDsFromNames));
   (19, (ResolveNamesRequest, ResolveNames));
   (20, (ResolveNamesWRequest, ResolveNamesW))].

(** The bound under which the base dispatcher is called. *)
Definition base : option (BaseServerHandle * Z) := None.
End nspi.

(** ** Package [dhcpsrv2]:
    the Dhcpsrv2 server stub
    (src/msrpc/dhcpm/dhcpsrv2/v1/server.go) *)
Module dhcpsrv2.

(** The request structures the stub decodes. *)
Inductive RequestType : Set :=
| EnumSubnetClientsV5Request | SetMScopeInfoRequest | GetMScopeInfoRequest
| EnumMScopesRequest | AddMScopeElementRequest | EnumMScopeElementsRequest
| RemoveMScopeElementRequest | DeleteMScopeRequest | ScanMDatabaseRequest
| CreateMClientInfoRequest | SetMClientInfoRequest | GetMClientInfoRequest
| DeleteMClientInfoRequest | EnumMScopeClientsRequest
| CreateOptionV5Request | SetOptionInfoV5Request | GetOptionInfoV5Request
| EnumOptionsV5Request | RemoveOptionV5Request | SetOptionValueV5Request
| SetOptionValuesV5Request | GetOptionValueV5Request
| EnumOptionValuesV5Request | RemoveOptionValueV5Request
| CreateClassRequest | ModifyClassRequest | DeleteClassRequest
| GetClassInfoRequest | EnumClassesRequest | GetAllOptionsRequest
| GetAllOptionValuesRequest | GetMCastMIBInfoRequest
| AuditLogSetParamsRequest | AuditLogGetParamsRequest
| ServerQueryAttributeRequest | ServerQueryAttributesRequest
| ServerRedoAuthorizationRequest | AddSubnetElementV5Request
| EnumSubnetElementsV5Request | RemoveSubnetElementV5Request
| GetServerBindingInfoRequest | SetServerBindingInfoRequest
| QueryDNSRegCredentialsRequest | SetDNSRegCredentialsRequest
| BackupDatabaseRequest | RestoreDatabaseRequest
| GetServerSpecificStringsRequest | CreateOptionV6Request
| SetOptionInfoV6Request | GetOptionInfoV6Request | EnumOptionsV6Request
| RemoveOptionV6Request | SetOptionValueV6Request
| EnumOptionValuesV6Request | RemoveOptionValueV6Request
| GetAllOptionsV6Request | GetAllOptionValuesV6Request
| CreateSubnetV6Request | EnumSubnetsV6Request | AddSubnetElementV6Request
| EnumSubnetElementsV6Request | RemoveSubnetElementV6Request
| DeleteSubnetV6Request | GetSubnetInfoV6Request
| EnumSubnetClientsV6Request | ServerSetConfigV6Request
| ServerGetConfigV6Request | SetSubnetInfoV6Request | GetMIBInfoV6Request
| GetServerBindingInfoV6Request | SetServerBindingInfoV6Request
| SetClientInfoV6Request | GetClientInfoV6Request
| DeleteClientInfoV6Request | CreateClassV6Request | ModifyClassV6Request
| DeleteClassV6Request | EnumClassesV6Request | GetOptionValueV6Request
| SetSubnetDelayOfferRequest | GetSubnetDelayOfferRequest
| GetMIBInfoV5Request | AddFilterV4Request | DeleteFilterV4Request
| SetFilterV4Request | GetFilterV4Request | EnumFilterV4Request
| SetDNSRegCredentialsV5Request | EnumSubnetClientsFilterStatusInfoRequest
| FailoverCreateRelationshipV4Request | FailoverSetRelationshipV4Request
| FailoverDeleteRelationshipV4Request | FailoverGetRelationshipV4Request
| FailoverEnumRelationshipV4Request
| FailoverAddScopeToRelationshipV4Request
| FailoverDeleteScopeFromRelationshipV4Request
| FailoverGetScopeRelationshipV4Request
| FailoverGetScopeStatisticsV4Request | FailoverGetClientInfoV4Request
| FailoverGetSystemTimeV4Request | FailoverTriggerAddrAllocationV4Request
| SetOptionValueV4Request | SetOptionValuesV4Request
| GetOptionValueV4Request | RemoveOptionValueV4Request
| GetAllOptionValuesV4Request | QueryPolicyEnforcementV4Request
| SetPolicyEnforcementV4Request | CreatePolicyV4Request
| GetPolicyV4Request | SetPolicyV4Request | DeletePolicyV4Request
| EnumPoliciesV4Request | AddPolicyRangeV4Request
| RemovePolicyRangeV4Request | EnumSubnetClientsV4Request
| SetStatelessStoreParamsV6Request | GetStatelessStoreParamsV6Request
| GetStatelessStatisticsV6Request | EnumSubnetReservationsV4Request
| GetFreeIPAddressV4Request | GetFreeIPAddressV6Request
| CreateClientInfoV4Request | GetClientInfoV4Request
| CreateClientInfoV6Request | FailoverGetAddressStatusV4Request
| CreatePolicyExV4Request | GetPolicyExV4Request | SetPolicyExV4Request
| EnumPoliciesExV4Request | EnumSubnetClientsExV4Request
| CreateClientInfoExV4Request | GetClientInfoExV4Request.

(** The methods of [Dhcpsrv2Server]. *)
Inductive Method : Set :=
| EnumSubnetClientsV5 | SetMScopeInfo | GetMScopeInfo | EnumMScopes
| AddMScopeElement | EnumMScopeElements | RemoveMScopeElement
| DeleteMScope | ScanMDatabase | CreateMClientInfo | SetMClientInfo
| GetMClientInfo | DeleteMClientInfo | EnumMScopeClients | CreateOptionV5
| SetOptionInfoV5 | GetOptionInfoV5 | EnumOptionsV5 | RemoveOptionV5
| SetOptionValueV5 | SetOptionValuesV5 | GetOptionValueV5
| EnumOptionValuesV5 | RemoveOptionValueV5 | CreateClass | ModifyClass
| DeleteClass | GetClassInfo | EnumClasses | GetAllOptions
| GetAllOptionValues | GetMCastMIBInfo | AuditLogSetParams
| AuditLogGetParams | ServerQueryAttribute | ServerQueryAttributes
| ServerRedoAuthorization | AddSubnetElementV5 | EnumSubnetElementsV5
| RemoveSubnetElementV5 | GetServerBindingInfo | SetServerBindingInfo
| QueryDNSRegCredentials | SetDNSRegCredentials | BackupDatabase
| RestoreDatabase | GetServerSpecificStrings | CreateOptionV6
| SetOptionInfoV6 | GetOptionInfoV6 | EnumOptionsV6 | RemoveOptionV6
| SetOptionValueV6 | EnumOptionValuesV6 | RemoveOptionValueV6
| GetAllOptionsV6 | GetAllOptionValuesV6 | CreateSubnetV6 | EnumSubnetsV6
| AddSubnetElementV6 | EnumSubnetElementsV6 | RemoveSubnetElementV6
| DeleteSubnetV6 | GetSubnetInfoV6 | EnumSubnetClientsV6
| ServerSetConfigV6 | ServerGetConfigV6 | SetSubnetInfoV6 | GetMIBInfoV6
| GetServerBindingInfoV6 | SetServerBindingInfoV6 | SetClientInfoV6
| GetClientInfoV6 | DeleteClientInfoV6 | CreateClassV6 | ModifyClassV6
| DeleteClassV6 | EnumClassesV6 | GetOptionValueV6 | SetSubnetDelayOffer
| GetSubnetDelayOffer | GetMIBInfoV5 | AddFilterV4 | DeleteFilterV4
| SetFilterV4 | GetFilterV4 | EnumFilterV4 | SetDNSRegCredentialsV5
| EnumSubnetClientsFilterStatusInfo | FailoverCreateRelationshipV4
| FailoverSetRelationshipV4 | FailoverDeleteRelationshipV4
| FailoverGetRelationshipV4 | FailoverEnumRelationshipV4
| FailoverAddScopeToRelationshipV4 | FailoverDeleteScopeFromRelationshipV4
| FailoverGetScopeRelationshipV4 | FailoverGetScopeStatisticsV4
| FailoverGetClientInfoV4 | FailoverGetSystemTimeV4
| FailoverTriggerAddrAllocationV4 | SetOptionValueV4 | SetOptionValuesV4
| GetOptionValueV4 | RemoveOptionValueV4 | GetAllOptionValuesV4
| QueryPolicyEnforcementV4 | SetPolicyEnforcementV4 | CreatePolicyV4
| GetPolicyV4 | SetPolicyV4 | DeletePolicyV4 | EnumPoliciesV4
| AddPolicyRangeV4 | RemovePolicyRangeV4 | EnumSubnetClientsV4
| SetStatelessStoreParamsV6 | GetStatelessStoreParamsV6
| GetStatelessStatisticsV6 | EnumSubnetReservationsV4 | GetFreeIPAddressV4
| GetFreeIPAddressV6 | CreateClientInfoV4 | GetClientInfoV4
| CreateClientInfoV6 | FailoverGetAddressStatusV4 | CreatePolicyExV4
| GetPolicyExV4 | SetPolicyExV4 | EnumPoliciesExV4 | EnumSubnetClientsExV4
| CreateClientInfoExV4 | GetClientInfoExV4.

(** The interface declaration: the request structure a method takes. *)
Definition request_of (m : Method) : RequestType :=
  match m with
  | EnumSubnetClientsV5 => EnumSubnetClientsV5Request
  | SetMScopeInfo => SetMScopeInfoRequest
  | GetMScopeInfo => GetMScopeInfoRequest
  | EnumMScopes => EnumMScopesRequest
  | AddMScopeElement => AddMScopeElementRequest
  | EnumMScopeElements => EnumMScopeElementsRequest
  | RemoveMScopeElement => RemoveMScopeElementRequest
  | DeleteMScope => DeleteMScopeRequest
  | ScanMDatabase => ScanMDatabaseRequest
  | CreateMClientInfo => CreateMClientInfoRequest
  | SetMClientInfo => SetMClientInfoRequest
  | GetMClientInfo => GetMClientInfoRequest
  | DeleteMClientInfo => DeleteMClientInfoRequest
  | EnumMScopeClients => EnumMScopeClientsRequest
  | CreateOptionV5 => CreateOptionV5Request
  | SetOptionInfoV5 => SetOptionInfoV5Request
  | GetOptionInfoV5 => GetOptionInfoV5Request
  | EnumOptionsV5 => EnumOptionsV5Request
  | RemoveOptionV5 => RemoveOptionV5Request
  | SetOptionValueV5 => SetOptionValueV5Request
  | SetOptionValuesV5 => SetOptionValuesV5Request
  | GetOptionValueV5 => GetOptionValueV5Request
  | EnumOptionValuesV5 => EnumOptionValuesV5Request
  | RemoveOptionValueV5 => RemoveOptionValueV5Request
  | CreateClass => CreateClassRequest
  | ModifyClass => ModifyClassRequest
  | DeleteClass => DeleteClassRequest
  | GetClassInfo => GetClassInfoRequest
  | EnumClasses => EnumClassesRequest
  | GetAllOptions => GetAllOptionsRequest
  | GetAllOptionValues => GetAllOptionValuesRequest
  | GetMCastMIBInfo => GetMCastMIBInfoRequest
  | AuditLogSetParams => AuditLogSetParamsRequest
  | AuditLogGetParams => AuditLogGetParamsRequest
  | ServerQueryAttribute => ServerQueryAttributeRequest
  | ServerQueryAttributes => ServerQueryAttributesRequest
  | ServerRedoAuthorization => ServerRedoAuthorizationRequest
  | AddSubnetElementV5 => AddSubnetElementV5Request
  | EnumSubnetElementsV5 => EnumSubnetElementsV5Request
  | RemoveSubnetElementV5 => RemoveSubnetElementV5Request
  | GetServerBindingInfo => GetServerBindingInfoRequest
  | SetServerBindingInfo => SetServerBindingInfoRequest
  | QueryDNSRegCredentials => QueryDNSRegCredentialsRequest
  | SetDNSRegCredentials => SetDNSRegCredentialsRequest
  | BackupDatabase => BackupDatabaseRequest
  | RestoreDatabase => RestoreDatabaseRequest
  | GetServerSpecificStrings => GetServerSpecificStringsRequest
  | CreateOptionV6 => CreateOptionV6Request
  | SetOptionInfoV6 => SetOptionInfoV6Request
  | GetOptionInfoV6 => GetOptionInfoV6Request
  | EnumOptionsV6 => EnumOptionsV6Request
  | RemoveOptionV6 => RemoveOptionV6Request
  | SetOptionValueV6 => SetOptionValueV6Request
  | EnumOptionValuesV6 => EnumOptionValuesV6Request
  | RemoveOptionValueV6 => RemoveOptionValueV6Request
  | GetAllOptionsV6 => GetAllOptionsV6Request
  | GetAllOptionValuesV6 => GetAllOptionValuesV6Request
  | CreateSubnetV6 => CreateSubnetV6Request
  | EnumSubnetsV6 => EnumSubnetsV6Request
  | AddSubnetElementV6 => AddSubnetElementV6Request
  | EnumSubnetElementsV6 => EnumSubnetElementsV6Request
  | RemoveSubnetElementV6 => RemoveSubnetElementV6Request
  | DeleteSubnetV6 => DeleteSubnetV6Request
  | GetSubnetInfoV6 => GetSubnetInfoV6Request
  | EnumSubnetClientsV6 => EnumSubnetClientsV6Request
  | ServerSetConfigV6 => ServerSetConfigV6Request
  | ServerGetConfigV6 => ServerGetConfigV6Request
  | SetSubnetInfoV6 => SetSubnetInfoV6Request
  | GetMIBInfoV6 => GetMIBInfoV6Request
  | GetServerBindingInfoV6 => GetServerBindingInfoV6Request
  | SetServerBindingInfoV6 => SetServerBindingInfoV6Request
  | SetClientInfoV6 => SetClientInfoV6Request
  | GetClientInfoV6 => GetClientInfoV6Request
  | DeleteClientInfoV6 => DeleteClientInfoV6Request
  | CreateClassV6 => CreateClassV6Request
  | ModifyClassV6 => ModifyClassV6Request
  | DeleteClassV6 => DeleteClassV6Request
  | EnumClassesV6 => EnumClassesV6Request
  | GetOptionValueV6 => GetOptionValueV6Request
  | SetSubnetDelayOffer => SetSubnetDelayOfferRequest
  | GetSubnetDelayOffer => GetSubnetDelayOfferRequest
  | GetMIBInfoV5 => GetMIBInfoV5Request
  | AddFilterV4 => AddFilterV4Request
  | DeleteFilterV4 => DeleteFilterV4Request
  | SetFilterV4 => SetFilterV4Request
  | GetFilterV4 => GetFilterV4Request
  | EnumFilterV4 => EnumFilterV4Request
  | SetDNSRegCredentialsV5 => SetDNSRegCredentialsV5Request
  | EnumSubnetClientsFilterStatusInfo => EnumSubnetClientsFilterStatusInfoRequest
  | FailoverCreateRelationshipV4 => FailoverCreateRelationshipV4Request
  | FailoverSetRelationshipV4 => FailoverSetRelationshipV4Request
  | FailoverDeleteRelationshipV4 => FailoverDeleteRelationshipV4Request
  | FailoverGetRelationshipV4 => FailoverGetRelationshipV4Request
  | FailoverEnumRelationshipV4 => FailoverEnumRelationshipV4Request
  | FailoverAddScopeToRelationshipV4 => FailoverAddScopeToRelationshipV4Request
  | FailoverDeleteScopeFromRelationshipV4 => FailoverDeleteScopeFromRelationshipV4Request
  | FailoverGetScopeRelationshipV4 => FailoverGetScopeRelationshipV4Request
  | FailoverGetScopeStatisticsV4 => FailoverGetScopeStatisticsV4Request
  | FailoverGetClientInfoV4 => FailoverGetClientInfoV4Request
  | FailoverGetSystemTimeV4 => FailoverGetSystemTimeV4Request
  | FailoverTriggerAddrAllocationV4 => FailoverTriggerAddrAllocationV4Request
  | SetOptionValueV4 => SetOptionValueV4Request
  | SetOptionValuesV4 => SetOptionValuesV4Request
  | GetOptionValueV4 => GetOptionValueV4Request
  | RemoveOptionValueV4 => RemoveOptionValueV4Request
  | GetAllOptionValuesV4 => GetAllOptionValuesV4Request
  | QueryPolicyEnforcementV4 => QueryPolicyEnforcementV4Request
  | SetPolicyEnforcementV4 => SetPolicyEnforcementV4Request
  | CreatePolicyV4 => CreatePolicyV4Request
  | GetPolicyV4 => GetPolicyV4Request
  | SetPolicyV4 => SetPolicyV4Request
  | DeletePolicyV4 => DeletePolicyV4Request
  | EnumPoliciesV4 => EnumPoliciesV4Request
  | AddPolicyRangeV4 => AddPolicyRangeV4Request
  | RemovePolicyRangeV4 => RemovePolicyRangeV4Request
  | EnumSubnetClientsV4 => EnumSubnetClientsV4Request
  | SetStatelessStoreParamsV6 => SetStatelessStoreParamsV6Request
  | GetStatelessStoreParamsV6 => GetStatelessStoreParamsV6Request
  | GetStatelessStatisticsV6 => GetStatelessStatisticsV6Request
  | EnumSubnetReservationsV4 => EnumSubnetReservationsV4Request
  | GetFreeIPAddressV4 => GetFreeIPAddressV4Request
  | GetFreeIPAddressV6 => GetFreeIPAddressV6Request
  | CreateClientInfoV4 => CreateClientInfoV4Request
  | GetClientInfoV4 => GetClientInfoV4Request
  | CreateClientInfoV6 => CreateClientInfoV6Request
  | FailoverGetAddressStatusV4 => FailoverGetAddressStatusV4Request
  | CreatePolicyExV4 => CreatePolicyExV4Request
  | GetPolicyExV4 => GetPolicyExV4Request
  | SetPolicyExV4 => SetPolicyExV4Request
  | EnumPoliciesExV4 => EnumPoliciesExV4Request
  | EnumSubnetClientsExV4 => EnumSubnetClientsExV4Request
  | CreateClientInfoExV4 => CreateClientInfoExV4Request
  | GetClientInfoExV4 => GetClientInfoExV4Request
  end.

(** The opnum the switch dispatches to each method under. *)
Definition opnum_of (m : Method) : Z :=
  match m with
  | EnumSubnetClientsV5 => 0
  | SetMScopeInfo => 1
  | GetMScopeInfo => 2
  | EnumMScopes => 3
  | AddMScopeElement => 4
  | EnumMScopeElements => 5
  | RemoveMScopeElement => 6
  | DeleteMScope => 7
  | ScanMDatabase => 8
  | CreateMClientInfo => 9
  | SetMClientInfo => 10
  | GetMClientInfo => 11
  | DeleteMClientInfo => 12
  | EnumMScopeClients => 13
  | CreateOptionV5 => 14
  | SetOptionInfoV5 => 15
  | GetOptionInfoV5 => 16
  | EnumOptionsV5 => 17
  | RemoveOptionV5 => 18
  | SetOptionValueV5 => 19
  | SetOptionValuesV5 => 20
  | GetOptionValueV5 => 21
  | EnumOptionValuesV5 => 22
  | RemoveOptionValueV5 => 23
  | CreateClass => 24
  | ModifyClass => 25
  | DeleteClass => 26
  | GetClassInfo => 27
  | EnumClasses => 28
  | GetAllOptions => 29
  | GetAllOptionValues => 30
  | GetMCastMIBInfo => 31
  | AuditLogSetParams => 32
  | AuditLogGetParams => 33
  | ServerQueryAttribute => 34
  | ServerQueryAttributes => 35
  | ServerRedoAuthorization => 36
  | AddSubnetElementV5 => 37
  | EnumSubnetElementsV5 => 38
  | RemoveSubnetElementV5 => 39
  | GetServerBindingInfo => 40
  | SetServerBindingInfo => 41
  | QueryDNSRegCredentials => 42
  | SetDNSRegCredentials => 43
  | BackupDatabase => 44
  | RestoreDatabase => 45
  | GetServerSpecificStrings => 46
  | CreateOptionV6 => 47
  | SetOptionInfoV6 => 48
  | GetOptionInfoV6 => 49
  | EnumOptionsV6 => 50
  | RemoveOptionV6 => 51
  | SetOptionValueV6 => 52
  | EnumOptionValuesV6 => 53
  | RemoveOptionValueV6 => 54
  | GetAllOptionsV6 => 55
  | GetAllOptionValuesV6 => 56
  | CreateSubnetV6 => 57
  | EnumSubnetsV6 => 58
  | AddSubnetElementV6 => 59
  | EnumSubnetElementsV6 => 60
  | RemoveSubnetElementV6 => 61
  | DeleteSubnetV6 => 62
  | GetSubnetInfoV6 => 63
  | EnumSubnetClientsV6 => 64
  | ServerSetConfigV6 => 65
  | ServerGetConfigV6 => 66
  | SetSubnetInfoV6 => 67
  | GetMIBInfoV6 => 68
  | GetServerBindingInfoV6 => 69
  | SetServerBindingInfoV6 => 70
  | SetClientInfoV6 => 71
  | GetClientInfoV6 => 72
  | DeleteClientInfoV6 => 73
  | CreateClassV6 => 74
  | ModifyClassV6 => 75
  | DeleteClassV6 => 76
  | EnumClassesV6 => 77
  | GetOptionValueV6 => 78
  | SetSubnetDelayOffer => 79
  | GetSubnetDelayOffer => 80
  | GetMIBInfoV5 => 81
  | AddFilterV4 => 82
  | DeleteFilterV4 => 83
  | SetFilterV4 => 84
  | GetFilterV4 => 85
  | EnumFilterV4 => 86
  | SetDNSRegCredentialsV5 => 87
  | EnumSubnetClientsFilterStatusInfo => 88
  | FailoverCreateRelationshipV4 => 89
  | FailoverSetRelationshipV4 => 90
  | FailoverDeleteRelationshipV4 => 91
  | FailoverGetRelationshipV4 => 92
  | FailoverEnumRelationshipV4 => 93
  | FailoverAddScopeToRelationshipV4 => 94
  | FailoverDeleteScopeFromRelationshipV4 => 95
  | FailoverGetScopeRelationshipV4 => 96
  | FailoverGetScopeStatisticsV4 => 97
  | FailoverGetClientInfoV4 => 98
  | FailoverGetSystemTimeV4 => 99
  | FailoverTriggerAddrAllocationV4 => 100
  | SetOptionValueV4 => 101
  | SetOptionValuesV4 => 102
  | GetOptionValueV4 => 103
  | RemoveOptionValueV4 => 104
  | GetAllOptionValuesV4 => 105
  | QueryPolicyEnforcementV4 => 106
  | SetPolicyEnforcementV4 => 107
  | CreatePolicyV4 => 108
  | GetPolicyV4 => 109
  | SetPolicyV4 => 110
  | DeletePolicyV4 => 111
  | EnumPoliciesV4 => 112
  | AddPolicyRangeV4 => 113
  | RemovePolicyRangeV4 => 114
  | EnumSubnetClientsV4 => 115
  | SetStatelessStoreParamsV6 => 116
  | GetStatelessStoreParamsV6 => 117
  | GetStatelessStatisticsV6 => 118
  | EnumSubnetReservationsV4 => 119
  | GetFreeIPAddressV4 => 120
  | GetFreeIPAddressV6 => 121
  | CreateClientInfoV4 => 122
  | GetClientInfoV4 => 123
  | CreateClientInfoV6 => 124
  | FailoverGetAddressStatusV4 => 125
  | CreatePolicyExV4 => 126
  | GetPolicyExV4 => 127
  | SetPolicyExV4 => 128
  | EnumPoliciesExV4 => 129
  | EnumSubnetClientsExV4 => 130
  | CreateClientInfoExV4 => 131
  | GetClientInfoExV4 => 132
  end.

Section Stub.
Context {rt : Runtime}.
(* resp.xxx_ToOp(ctx), for the response structure of each method *)
Variable xxx_ToOp : Method -> option Response -> Context -> Operation.
Variable Dhcpsrv2SyntaxV1_0 : SyntaxID.

Definition Dhcpsrv2ServerHandle
           (ctx : Context) (o : Server) (opNum : Z) (r : Reader)
  : Prog RequestType Method (Operation * error) :=
  match opNum with
  | 0 => (* R_DhcpEnumSubnetClientsV5 *)
      UnmarshalNDR EnumSubnetClientsV5Request ctx r (fun in_ err =>
      match err with
      | Some _ => Return (None, err)
      | None =>
          Call o EnumSubnetClientsV5 ctx in_ (fun resp err0 =>
          Return (xxx_ToOp EnumSubnetClientsV5 resp ctx, err0))
      end)
  | 1 => (* R_DhcpSetMScopeInfo *)
      UnmarshalNDR SetMScopeInfoRequest ctx r (fun in_ err =>
      match err with
      | Some _ => Return (None, err)
      | None =>
          Call o SetMScopeInfo ctx in_ (fun resp err0 =>
          Return (xxx_ToOp SetMScopeInfo resp ctx, err0))
      end)
  | 2 => (* R_DhcpGetMScopeInfo *)
      UnmarshalNDR GetMScopeInfoRequest ctx r (fun in_ err =>
      match err with
      | Some _ => Return (None, err)
      | None =>
          Call o GetMScopeInfo ctx in_ (fun resp err0 =>
          Return (xxx_ToOp GetMScopeInfo resp ctx, err0))
      end)
  | 3 => (* R_DhcpEnumMScopes *)
      UnmarshalNDR EnumMScopesRequest ctx r (fun in_ err =>
      match err with
      | Some _ => Return (None, err)
      | None =>
          Call o EnumMScopes ctx in_ (fun resp err0 =>
          Return (xxx_ToOp EnumMScopes resp ctx, err0))
      end)
  | 4 => (* R_DhcpAddMScopeElement *)
      UnmarshalNDR AddMScopeElementRequest ctx r (fun in_ err =>
      match err with
      | Some _ => Return (None, err)
      | None =>
          Call o AddMScopeElement ctx in_ (fun resp err0 =>
          Return (xxx_ToOp AddMScopeElement resp ctx, err0))
      end)
  | 5 => (* R_DhcpEnumMScopeElements *)
      UnmarshalNDR EnumMScopeElementsRequest ctx r (fun in_ err =>
      match err with
      | Some _ => Return (None, err)
      | None =>
          Call o EnumMScopeElements ctx in_ (fun resp err0 =>
          Return (xxx_ToOp EnumMScopeElements resp ctx, err0))
      end)
  | 6 => (* R_DhcpRemoveMScopeElement *)
      UnmarshalNDR RemoveMScopeElementRequest ctx r (fun in_ err =>
      match err with
      | Some _ => Return (None, err)
      | None =>
          Call o RemoveMScopeElement ctx in_ (fun resp err0 =>
          Return (xxx_ToOp RemoveMScopeElement resp ctx, err0))
      end)
  | 7 => (* R_DhcpDeleteMScope *)
      UnmarshalNDR DeleteMScopeRequest ctx r (fun in_ err =>
      match err with
      | Some _ => Return (None, err)
      | None =>
          Call o DeleteMScope ctx in_ (fun resp err0 =>
          Return (xxx_ToOp DeleteMScope resp ctx, err0))
      end)
  | 8 => (* R_DhcpScanMDatabase *)
      UnmarshalNDR ScanMDatabaseRequest ctx r (fun in_ err =>
      match err with
      | Some _ => Return (None, err)
      | None =>
          Call o ScanMDatabase ctx in_ (fun resp err0 =>
          Return (xxx_ToOp ScanMDatabase resp ctx, err0))
      end)
  | 9 => (* R_DhcpCreateMClientInfo *)
      UnmarshalNDR CreateMClientInfoRequest ctx r (fun in_ err =>
      match err with
      | Some _ => Return (None, err)
      | None =>
          Call o CreateMClientInfo ctx in_ (fun resp err0 =>
          Return (xxx_ToOp CreateMClientInfo resp ctx, err0))
      end)
  | 10 => (* R_DhcpSetMClientInfo *)
      UnmarshalNDR SetMClientInfoRequest ctx r (fun in_ err =>
      match err with
      | Some _ => Return (None, err)
      | None =>
          Call o SetMClientInfo ctx in_ (fun resp err0 =>
          Return (xxx_ToOp SetMClientInfo resp ctx, err0))
      end)
  | 11 => (* R_DhcpGetMClientInfo *)
      UnmarshalNDR GetMClientInfoRequest ctx r (fun in_ err =>
      match err with
      | Some _ => Return (None, err)
      | None =>
          Call o GetMClientInfo ctx in_ (fun resp err0 =>
          Return (xxx_ToOp GetMClientInfo resp ctx, err0))
      end)
  | 12 => (* R_DhcpDeleteMClientInfo *)
      UnmarshalNDR DeleteMClientInfoRequest ctx r (fun in_ err =>
      match err with
      | Some _ => Return (None, err)
      | None =>
          Call o DeleteMClientInfo ctx in_ (fun resp err0 =>
          Return (xxx_ToOp DeleteMClientInfo resp ctx, err0))
      end)
  | 13 => (* R_DhcpEnumMScopeClients *)
      UnmarshalNDR EnumMScopeClientsRequest ctx r (fun in_ err =>
      match err with
      | Some _ => Return (None, err)
      | None =>
          Call o EnumMScopeClients ctx in_ (fun resp err0 =>
          Return (xxx_ToOp EnumMScopeClients resp ctx, err0))
      end)
  | 14 => (* R_DhcpCreateOptionV5 *)
      UnmarshalNDR CreateOptionV5Request ctx r (fun in_ err =>
      match err with
      | Some _ => Return (None, err)
      | None =>
          Call o CreateOptionV5 ctx in_ (fun resp err0 =>
          Return (xxx_ToOp CreateOptionV5 resp ctx, err0))
      end)
  | 15 => (* R_DhcpSetOptionInfoV5 *)
      UnmarshalNDR SetOptionInfoV5Request ctx r (fun in_ err =>
      match err with
      | Some _ => Return (None, err)
      | None =>
          Call o SetOptionInfoV5 ctx in_ (fun resp err0 =>
          Return (xxx_ToOp SetOptionInfoV5 resp ctx, err0))
      end)
  | 16 => (* R_DhcpGetOptionInfoV5 *)
      UnmarshalNDR GetOptionInfoV5Request ctx r (fun in_ err =>
      match err with
      | Some _ => Return (None, err)
      | None =>
          Call o GetOptionInfoV5 ctx in_ (fun resp err0 =>
          Return (xxx_ToOp GetOptionInfoV5 resp ctx, err0))
      end)
  | 17 => (* R_DhcpEnumOptionsV5 *)
      UnmarshalNDR EnumOptionsV5Request ctx r (fun in_ err =>
      match err with
      | Some _ => Return (None, err)
      | None =>
          Call o EnumOptionsV5 ctx in_ (fun resp err0 =>
          Return (xxx_ToOp EnumOptionsV5 resp ctx, err0))
      end)
  | 18 => (* R_DhcpRemoveOptionV5 *)
      UnmarshalNDR RemoveOptionV5Request ctx r (fun in_ err =>
      match err with
      | Some _ => Return (None, err)
      | None =>
          Call o RemoveOptionV5 ctx in_ (fun resp err0 =>
          Return (xxx_ToOp RemoveOptionV5 resp ctx, err0))
      end)
  | 19 => (* R_DhcpSetOptionValueV5 *)
      UnmarshalNDR SetOptionValueV5Request ctx r (fun in_ err =>
      match err with
      | Some _ => Return (None, err)
      | None =>
          Call o SetOptionValueV5 ctx in_ (fun resp err0 =>
          Return (xxx_ToOp SetOptionValueV5 resp ctx, err0))
      end)
  | 20 => (* R_DhcpSetOptionValuesV5 *)
      UnmarshalNDR SetOptionValuesV5Request ctx r (fun in_ err =>
      match err with
      | Some _ => Return (None, err)
      | None =>
          Call o SetOptionValuesV5 ctx in_ (fun resp err0 =>
          Return (xxx_ToOp SetOptionValuesV5 resp ctx, err0))
      end)
  | 21 => (* R_DhcpGetOptionValueV5 *)
      UnmarshalNDR GetOptionValueV5Request ctx r (fun in_ err =>
      match err with
      | Some _ => Return (None, err)
      | None =>
          Call o GetOptionValueV5 ctx in_ (fun resp err0 =>
          Return (xxx_ToOp GetOptionValueV5 resp ctx, err0))
      end)
  | 22 => (* R_DhcpEnumOptionValuesV5 *)
      UnmarshalNDR EnumOptionValuesV5Request ctx r (fun in_ err =>
      match err with
      | Some _ => Return (None, err)
      | None =>
          Call o EnumOptionValuesV5 ctx in_ (fun resp err0 =>
          Return (xxx_ToOp EnumOptionValuesV5 resp ctx, err0))
      end)
  | 23 => (* R_DhcpRemoveOptionValueV5 *)
      UnmarshalNDR RemoveOptionValueV5Request ctx r (fun in_ err =>
      match err with
      | Some _ => Return (None, err)
      | None =>
          Call o RemoveOptionValueV5 ctx in_ (fun resp err0 =>
          Return (xxx_ToOp RemoveOptionValueV5 resp ctx, err0))
      end)
  | 24 => (* R_DhcpCreateClass *)
      UnmarshalNDR CreateClassRequest ctx r (fun in_ err =>
      match err with
      | Some _ => Return (None, err)
      | None =>
          Call o CreateClass ctx in_ (fun resp err0 =>
          Return (xxx_ToOp CreateClass resp ctx, err0))
      end)
  | 25 => (* R_DhcpModifyClass *)
      UnmarshalNDR ModifyClassRequest ctx r (fun in_ err =>
      match err with
      | Some _ => Return (None, err)
      | None =>
          Call o ModifyClass ctx in_ (fun resp err0 =>
          Return (xxx_ToOp ModifyClass resp ctx, err0))
      end)
  | 26 => (* R_DhcpDeleteClass *)
      UnmarshalNDR DeleteClassRequest ctx r (fun in_ err =>
      match err with
      | Some _ => Return (None, err)
      | None =>
          Call o DeleteClass ctx in_ (fun resp err0 =>
          Return (xxx_ToOp DeleteClass resp ctx, err0))
      end)
  | 27 => (* R_DhcpGetClassInfo *)
      UnmarshalNDR GetClassInfoRequest ctx r (fun in_ err =>
      match err with
      | Some _ => Return (None, err)
      | None =>
          Call o GetClassInfo ctx in_ (fun resp err0 =>
          Return (xxx_ToOp GetClassInfo resp ctx, err0))
      end)
  | 28 => (* R_DhcpEnumClasses *)
      UnmarshalNDR EnumClassesRequest ctx r (fun in_ err =>
      match err with
      | Some _ => Return (None, err)
      | None =>
          Call o EnumClasses ctx in_ (fun resp err0 =>
          Return (xxx_ToOp EnumClasses resp ctx, err0))
      end)
  | 29 => (* R_DhcpGetAllOptions *)
      UnmarshalNDR GetAllOptionsRequest ctx r (fun in_ err =>
      match err with
      | Some _ => Return (None, err)
      | None =>
          Call o GetAllOptions ctx in_ (fun resp err0 =>
          Return (xxx_ToOp GetAllOptions resp ctx, err0))
      end)
  | 30 => (* R_DhcpGetAllOptionValues *)
      UnmarshalNDR GetAllOptionValuesRequest ctx r (fun in_ err =>
      match err with
      | Some _ => Return (None, err)
      | None =>
          Call o GetAllOptionValues ctx in_ (fun resp err0 =>
          Return (xxx_ToOp GetAllOptionValues resp ctx, err0))
      end)
  | 31 => (* R_DhcpGetMCastMibInfo *)
      UnmarshalNDR GetMCastMIBInfoRequest ctx r (fun in_ err =>
      match err with
      | Some _ => Return (None, err)
      | None =>
          Call o GetMCastMIBInfo ctx in_ (fun resp err0 =>
          Return (xxx_ToOp GetMCastMIBInfo resp ctx, err0))
      end)
  | 32 => (* R_DhcpAuditLogSetParams *)
      UnmarshalNDR AuditLogSetParamsRequest ctx r (fun in_ err =>
      match err with
      | Some _ => Return (None, err)
      | None =>
          Call o AuditLogSetParams ctx in_ (fun resp err0 =>
          Return (xxx_ToOp AuditLogSetParams resp ctx, err0))
      end)
  | 33 => (* R_DhcpAuditLogGetParams *)
      UnmarshalNDR AuditLogGetParamsRequest ctx r (fun in_ err =>
      match err with
      | Some _ => Return (None, err)
      | None =>
          Call o AuditLogGetParams ctx in_ (fun resp err0 =>
          Return (xxx_ToOp AuditLogGetParams resp ctx, err0))
      end)
  | 34 => (* R_DhcpServerQueryAttribute *)
      UnmarshalNDR ServerQueryAttributeRequest ctx r (fun in_ err =>
      match err with
      | Some _ => Return (None, err)
      | None =>
          Call o ServerQueryAttribute ctx in_ (fun resp err0 =>
          Return (xxx_ToOp ServerQueryAttribute resp ctx, err0))
      end)
  | 35 => (* R_DhcpServerQueryAttributes *)
      UnmarshalNDR ServerQueryAttributesRequest ctx r (fun in_ err =>
      match err with
      | Some _ => Return (None, err)
      | None =>
          Call o ServerQueryAttributes ctx in_ (fun resp err0 =>
          Return (xxx_ToOp ServerQueryAttributes resp ctx, err0))
      end)
  | 36 => (* R_DhcpServerRedoAuthorization *)
      UnmarshalNDR ServerRedoAuthorizationRequest ctx r (fun in_ err =>
      match err with
      | Some _ => Return (None, err)
      | None =>
          Call o ServerRedoAuthorization ctx in_ (fun resp err0 =>
          Return (xxx_ToOp ServerRedoAuthorization resp ctx, err0))
      end)
  | 37 => (* R_DhcpAddSubnetElementV5 *)
      UnmarshalNDR AddSubnetElementV5Request ctx r (fun in_ err =>
      match err with
      | Some _ => Return (None, err)
      | None =>
          Call o AddSubnetElementV5 ctx in_ (fun resp err0 =>
          Return (xxx_ToOp AddSubnetElementV5 resp ctx, err0))
      end)
  | 38 => (* R_DhcpEnumSubnetElementsV5 *)
      UnmarshalNDR EnumSubnetElementsV5Request ctx r (fun in_ err =>
      match err with
      | Some _ => Return (None, err)
      | None =>
          Call o EnumSubnetElementsV5 ctx in_ (fun resp err0 =>
          Return (xxx_ToOp EnumSubnetElementsV5 resp ctx, err0))
      end)
  | 39 => (* R_DhcpRemoveSubnetElementV5 *)
      UnmarshalNDR RemoveSubnetElementV5Request ctx r (fun in_ err =>
      match err with
      | Some _ => Return (None, err)
      | None =>
          Call o RemoveSubnetElementV5 ctx in_ (fun resp err0 =>
          Return (xxx_ToOp RemoveSubnetElementV5 resp ctx, err0))
      end)
  | 40 => (* R_DhcpGetServerBindingInfo *)
      UnmarshalNDR GetServerBindingInfoRequest ctx r (fun in_ err =>
      match err with
      | Some _ => Return (None, err)
      | None =>
          Call o GetServerBindingInfo ctx in_ (fun resp err0 =>
          Return (xxx_ToOp GetServerBindingInfo resp ctx, err0))
      end)
  | 41 => (* R_DhcpSetServerBindingInfo *)
      UnmarshalNDR SetServerBindingInfoRequest ctx r (fun in_ err =>
      match err with
      | Some _ => Return (None, err)
      | None =>
          Call o SetServerBindingInfo ctx in_ (fun resp err0 =>
          Return (xxx_ToOp SetServerBindingInfo resp ctx, err0))
      end)
  | 42 => (* R_DhcpQueryDnsRegCredentials *)
      UnmarshalNDR QueryDNSRegCredentialsRequest ctx r (fun in_ err =>
      match err with
      | Some _ => Return (None, err)
      | None =>
          Call o QueryDNSRegCredentials ctx in_ (fun resp err0 =>
          Return (xxx_ToOp QueryDNSRegCredentials resp ctx, err0))
      end)
  | 43 => (* R_DhcpSetDnsRegCredentials *)
      UnmarshalNDR SetDNSRegCredentialsRequest ctx r (fun in_ err =>
      match err with
      | Some _ => Return (None, err)
      | None =>
          Call o SetDNSRegCredentials ctx in_ (fun resp err0 =>
          Return (xxx_ToOp SetDNSRegCredentials resp ctx, err0))
      end)
  | 44 => (* R_DhcpBackupDatabase *)
      UnmarshalNDR BackupDatabaseRequest ctx r (fun in_ err =>
      match err with
      | Some _ => Return (None, err)
      | None =>
          Call o BackupDatabase ctx in_ (fun resp err0 =>
          Return (xxx_ToOp BackupDatabase resp ctx, err0))
      end)
  | 45 => (* R_DhcpRestoreDatabase *)
      UnmarshalNDR RestoreDatabaseRequest ctx r (fun in_ err =>
      match err with
      | Some _ => Return (None, err)
      | None =>
          Call o RestoreDatabase ctx in_ (fun resp err0 =>
          Return (xxx_ToOp RestoreDatabase resp ctx, err0))
      end)
  | 46 => (* R_DhcpGetServerSpecificStrings *)
      UnmarshalNDR GetServerSpecificStringsRequest ctx r (fun in_ err =>
      match err with
      | Some _ => Return (None, err)
      | None =>
          Call o GetServerSpecificStrings ctx in_ (fun resp err0 =>
          Return (xxx_ToOp GetServerSpecificStrings resp ctx, err0))
      end)
  | 47 => (* R_DhcpCreateOptionV6 *)
      UnmarshalNDR CreateOptionV6Request ctx r (fun in_ err =>
      match err with
      | Some _ => Return (None, err)
      | None =>
          Call o CreateOptionV6 ctx in_ (fun resp err0 =>
          Return (xxx_ToOp CreateOptionV6 resp ctx, err0))
      end)
  | 48 => (* R_DhcpSetOptionInfoV6 *)
      UnmarshalNDR SetOptionInfoV6Request ctx r (fun in_ err =>
      match err with
      | Some _ => Return (None, err)
      | None =>
          Call o SetOptionInfoV6 ctx in_ (fun resp err0 =>
          Return (xxx_ToOp SetOptionInfoV6 resp ctx, err0))
      end)
  | 49 => (* R_DhcpGetOptionInfoV6 *)
      UnmarshalNDR GetOptionInfoV6Request ctx r (fun in_ err =>
      match err with
      | Some _ => Return (None, err)
      | None =>
          Call o GetOptionInfoV6 ctx in_ (fun resp err0 =>
          Return (xxx_ToOp GetOptionInfoV6 resp ctx, err0))
      end)
  | 50 => (* R_DhcpEnumOptionsV6 *)
      UnmarshalNDR EnumOptionsV6Request ctx r (fun in_ err =>
      match err with
      | Some _ => Return (None, err)
      | None =>
          Call o EnumOptionsV6 ctx in_ (fun resp err0 =>
          Return (xxx_ToOp EnumOptionsV6 resp ctx, err0))
      end)
  | 51 => (* R_DhcpRemoveOptionV6 *)
      UnmarshalNDR RemoveOptionV6Request ctx r (fun in_ err =>
      match err with
      | Some _ => Return (None, err)
      | None =>
          Call o RemoveOptionV6 ctx in_ (fun resp err0 =>
          Return (xxx_ToOp RemoveOptionV6 resp ctx, err0))
      end)
  | 52 => (* R_DhcpSetOptionValueV6 *)
      UnmarshalNDR SetOptionValueV6Request ctx r (fun in_ err =>
      match err with
      | Some _ => Return (None, err)
      | None =>
          Call o SetOptionValueV6 ctx in_ (fun resp err0 =>
          Return (xxx_ToOp SetOptionValueV6 resp ctx, err0))
      end)
  | 53 => (* R_DhcpEnumOptionValuesV6 *)
      UnmarshalNDR EnumOptionValuesV6Request ctx r (fun in_ err =>
      match err with
      | Some _ => Return (None, err)
      | None =>
          Call o EnumOptionValuesV6 ctx in_ (fun resp err0 =>
          Return (xxx_ToOp EnumOptionValuesV6 resp ctx, err0))
      end)
  | 54 => (* R_DhcpRemoveOptionValueV6 *)
      UnmarshalNDR RemoveOptionValueV6Request ctx r (fun in_ err =>
      match err with
      | Some _ => Return (None, err)
      | None =>
          Call o RemoveOptionValueV6 ctx in_ (fun resp err0 =>
          Return (xxx_ToOp RemoveOptionValueV6 resp ctx, err0))
      end)
  | 55 => (* R_DhcpGetAllOptionsV6 *)
      UnmarshalNDR GetAllOptionsV6Request ctx r (fun in_ err =>
      match err with
      | Some _ => Return (None, err)
      | None =>
          Call o GetAllOptionsV6 ctx in_ (fun resp err0 =>
          Return (xxx_ToOp GetAllOptionsV6 resp ctx, err0))
      end)
  | 56 => (* R_DhcpGetAllOptionValuesV6 *)
      UnmarshalNDR GetAllOptionValuesV6Request ctx r (fun in_ err =>
      match err with
      | Some _ => Return (None, err)
      | None =>
          Call o GetAllOptionValuesV6 ctx in_ (fun resp err0 =>
          Return (xxx_ToOp GetAllOptionValuesV6 resp ctx, err0))
      end)
  | 57 => (* R_DhcpCreateSubnetV6 *)
      UnmarshalNDR CreateSubnetV6Request ctx r (fun in_ err =>
      match err with
      | Some _ => Return (None, err)
      | None =>
          Call o CreateSubnetV6 ctx in_ (fun resp err0 =>
          Return (xxx_ToOp CreateSubnetV6 resp ctx, err0))
      end)
  | 58 => (* R_DhcpEnumSubnetsV6 *)
      UnmarshalNDR EnumSubnetsV6Request ctx r (fun in_ err =>
      match err with
      | Some _ => Return (None, err)
      | None =>
          Call o EnumSubnetsV6 ctx in_ (fun resp err0 =>
          Return (xxx_ToOp EnumSubnetsV6 resp ctx, err0))
      end)
  | 59 => (* R_DhcpAddSubnetElementV6 *)
      UnmarshalNDR AddSubnetElementV6Request ctx r (fun in_ err =>
      match err with
      | Some _ => Return (None, err)
      | None =>
          Call o AddSubnetElementV6 ctx in_ (fun resp err0 =>
          Return (xxx_ToOp AddSubnetElementV6 resp ctx, err0))
      end)
  | 60 => (* R_DhcpEnumSubnetElementsV6 *)
      UnmarshalNDR EnumSubnetElementsV6Request ctx r (fun in_ err =>
      match err with
      | Some _ => Return (None, err)
      | None =>
          Call o EnumSubnetElementsV6 ctx in_ (fun resp err0 =>
          Return (xxx_ToOp EnumSubnetElementsV6 resp ctx, err0))
      end)
  | 61 => (* R_DhcpRemoveSubnetElementV6 *)
      UnmarshalNDR RemoveSubnetElementV6Request ctx r (fun in_ err =>
      match err with
      | Some _ => Return (None, err)
      | None =>
          Call o RemoveSubnetElementV6 ctx in_ (fun resp err0 =>
          Return (xxx_ToOp RemoveSubnetElementV6 resp ctx, err0))
      end)
  | 62 => (* R_DhcpDeleteSubnetV6 *)
      UnmarshalNDR DeleteSubnetV6Request ctx r (fun in_ err =>
      match err with
      | Some _ => Return (None, err)
      | None =>
          Call o DeleteSubnetV6 ctx in_ (fun resp err0 =>
          Return (xxx_ToOp DeleteSubnetV6 resp ctx, err0))
      end)
  | 63 => (* R_DhcpGetSubnetInfoV6 *)
      UnmarshalNDR GetSubnetInfoV6Request ctx r (fun in_ err =>
      match err with
      | Some _ => Return (None, err)
      | None =>
          Call o GetSubnetInfoV6 ctx in_ (fun resp err0 =>
          Return (xxx_ToOp GetSubnetInfoV6 resp ctx, err0))
      end)
  | 64 => (* R_DhcpEnumSubnetClientsV6 *)
      UnmarshalNDR EnumSubnetClientsV6Request ctx r (fun in_ err =>
      match err with
      | Some _ => Return (None, err)
      | None =>
          Call o EnumSubnetClientsV6 ctx in_ (fun resp err0 =>
          Return (xxx_ToOp EnumSubnetClientsV6 resp ctx, err0))
      end)
  | 65 => (* R_DhcpServerSetConfigV6 *)
      UnmarshalNDR ServerSetConfigV6Request ctx r (fun in_ err =>
      match err with
      | Some _ => Return (None, err)
      | None =>
          Call o ServerSetConfigV6 ctx in_ (fun resp err0 =>
          Return (xxx_ToOp ServerSetConfigV6 resp ctx, err0))
      end)
  | 66 => (* R_DhcpServerGetConfigV6 *)
      UnmarshalNDR ServerGetConfigV6Request ctx r (fun in_ err =>
      match err with
      | Some _ => Return (None, err)
      | None =>
          Call o ServerGetConfigV6 ctx in_ (fun resp err0 =>
          Return (xxx_ToOp ServerGetConfigV6 resp ctx, err0))
      end)
  | 67 => (* R_DhcpSetSubnetInfoV6 *)
      UnmarshalNDR SetSubnetInfoV6Request ctx r (fun in_ err =>
      match err with
      | Some _ => Return (None, err)
      | None =>
          Call o SetSubnetInfoV6 ctx in_ (fun resp err0 =>
          Return (xxx_ToOp SetSubnetInfoV6 resp ctx, err0))
      end)
  | 68 => (* R_DhcpGetMibInfoV6 *)
      UnmarshalNDR GetMIBInfoV6Request ctx r (fun in_ err =>
      match err with
      | Some _ => Return (None, err)
      | None =>
          Call o GetMIBInfoV6 ctx in_ (fun resp err0 =>
          Return (xxx_ToOp GetMIBInfoV6 resp ctx, err0))
      end)
  | 69 => (* R_DhcpGetServerBindingInfoV6 *)
      UnmarshalNDR GetServerBindingInfoV6Request ctx r (fun in_ err =>
      match err with
      | Some _ => Return (None, err)
      | None =>
          Call o GetServerBindingInfoV6 ctx in_ (fun resp err0 =>
          Return (xxx_ToOp GetServerBindingInfoV6 resp ctx, err0))
      end)
  | 70 => (* R_DhcpSetServerBindingInfoV6 *)
      UnmarshalNDR SetServerBindingInfoV6Request ctx r (fun in_ err =>
      match err with
      | Some _ => Return (None, err)
      | None =>
          Call o SetServerBindingInfoV6 ctx in_ (fun resp err0 =>
          Return (xxx_ToOp SetServerBindingInfoV6 resp ctx, err0))
      end)
  | 71 => (* R_DhcpSetClientInfoV6 *)
      UnmarshalNDR SetClientInfoV6Request ctx r (fun in_ err =>
      match err with
      | Some _ => Return (None, err)
      | None =>
          Call o SetClientInfoV6 ctx in_ (fun resp err0 =>
          Return (xxx_ToOp SetClientInfoV6 resp ctx, err0))
      end)
  | 72 => (* R_DhcpGetClientInfoV6 *)
      UnmarshalNDR GetClientInfoV6Request ctx r (fun in_ err =>
      match err with
      | Some _ => Return (None, err)
      | None =>
          Call o GetClientInfoV6 ctx in_ (fun resp err0 =>
          Return (xxx_ToOp GetClientInfoV6 resp ctx, err0))
      end)
  | 73 => (* R_DhcpDeleteClientInfoV6 *)
      UnmarshalNDR DeleteClientInfoV6Request ctx r (fun in_ err =>
      match err with
      | Some _ => Return (None, err)
      | None =>
          Call o DeleteClientInfoV6 ctx in_ (fun resp err0 =>
          Return (xxx_ToOp DeleteClientInfoV6 resp ctx, err0))
      end)
  | 74 => (* R_DhcpCreateClassV6 *)
      UnmarshalNDR CreateClassV6Request ctx r (fun in_ err =>
      match err with
      | Some _ => Return (None, err)
      | None =>
          Call o CreateClassV6 ctx in_ (fun resp err0 =>
          Return (xxx_ToOp CreateClassV6 resp ctx, err0))
      end)
  | 75 => (* R_DhcpModifyClassV6 *)
      UnmarshalNDR ModifyClassV6Request ctx r (fun in_ err =>
      match err with
      | Some _ => Return (None, err)
      | None =>
          Call o ModifyClassV6 ctx in_ (fun resp err0 =>
          Return (xxx_ToOp ModifyClassV6 resp ctx, err0))
      end)
  | 76 => (* R_DhcpDeleteClassV6 *)
      UnmarshalNDR DeleteClassV6Request ctx r (fun in_ err =>
      match err with
      | Some _ => Return (None, err)
      | None =>
          Call o DeleteClassV6 ctx in_ (fun resp err0 =>
          Return (xxx_ToOp DeleteClassV6 resp ctx, err0))
      end)
  | 77 => (* R_DhcpEnumClassesV6 *)
      UnmarshalNDR EnumClassesV6Request ctx r (fun in_ err =>
      match err with
      | Some _ => Return (None, err)
      | None =>
          Call o EnumClassesV6 ctx in_ (fun resp err0 =>
          Return (xxx_ToOp EnumClassesV6 resp ctx, err0))
      end)
  | 78 => (* R_DhcpGetOptionValueV6 *)
      UnmarshalNDR GetOptionValueV6Request ctx r (fun in_ err =>
      match err with
      | Some _ => Return (None, err)
      | None =>
          Call o GetOptionValueV6 ctx in_ (fun resp err0 =>
          Return (xxx_ToOp GetOptionValueV6 resp ctx, err0))
      end)
  | 79 => (* R_DhcpSetSubnetDelayOffer *)
      UnmarshalNDR SetSubnetDelayOfferRequest ctx r (fun in_ err =>
      match err with
      | Some _ => Return (None, err)
      | None =>
          Call o SetSubnetDelayOffer ctx in_ (fun resp err0 =>
          Return (xxx_ToOp SetSubnetDelayOffer resp ctx, err0))
      end)
  | 80 => (* R_DhcpGetSubnetDelayOffer *)
      UnmarshalNDR GetSubnetDelayOfferRequest ctx r (fun in_ err =>
      match err with
      | Some _ => Return (None, err)
      | None =>
          Call o GetSubnetDelayOffer ctx in_ (fun resp err0 =>
          Return (xxx_ToOp GetSubnetDelayOffer resp ctx, err0))
      end)
  | 81 => (* R_DhcpGetMibInfoV5 *)
      UnmarshalNDR GetMIBInfoV5Request ctx r (fun in_ err =>
      match err with
      | Some _ => Return (None, err)
      | None =>
          Call o GetMIBInfoV5 ctx in_ (fun resp err0 =>
          Return (xxx_ToOp GetMIBInfoV5 resp ctx, err0))
      end)
  | 82 => (* R_DhcpAddFilterV4 *)
      UnmarshalNDR AddFilterV4Request ctx r (fun in_ err =>
      match err with
      | Some _ => Return (None, err)
      | None =>
          Call o AddFilterV4 ctx in_ (fun resp err0 =>
          Return (xxx_ToOp AddFilterV4 resp ctx, err0))
      end)
  | 83 => (* R_DhcpDeleteFilterV4 *)
      UnmarshalNDR DeleteFilterV4Request ctx r (fun in_ err =>
      match err with
      | Some _ => Return (None, err)
      | None =>
          Call o DeleteFilterV4 ctx in_ (fun resp err0 =>
          Return (xxx_ToOp DeleteFilterV4 resp ctx, err0))
      end)
  | 84 => (* R_DhcpSetFilterV4 *)
      UnmarshalNDR SetFilterV4Request ctx r (fun in_ err =>
      match err with
      | Some _ => Return (None, err)
      | None =>
          Call o SetFilterV4 ctx in_ (fun resp err0 =>
          Return (xxx_ToOp SetFilterV4 resp ctx, err0))
      end)
  | 85 => (* R_DhcpGetFilterV4 *)
      UnmarshalNDR GetFilterV4Request ctx r (fun in_ err =>
      match err with
      | Some _ => Return (None, err)
      | None =>
          Call o GetFilterV4 ctx in_ (fun resp err0 =>
          Return (xxx_ToOp GetFilterV4 resp ctx, err0))
      end)
  | 86 => (* R_DhcpEnumFilterV4 *)
      UnmarshalNDR EnumFilterV4Request ctx r (fun in_ err =>
      match err with
      | Some _ => Return (None, err)
      | None =>
          Call o EnumFilterV4 ctx in_ (fun resp err0 =>
          Return (xxx_ToOp EnumFilterV4 resp ctx, err0))
      end)
  | 87 => (* R_DhcpSetDnsRegCredentialsV5 *)
      UnmarshalNDR SetDNSRegCredentialsV5Request ctx r (fun in_ err =>
      match err with
      | Some _ => Return (None, err)
      | None =>
          Call o SetDNSRegCredentialsV5 ctx in_ (fun resp err0 =>
          Return (xxx_ToOp SetDNSRegCredentialsV5 resp ctx, err0))
      end)
  | 88 => (* R_DhcpEnumSubnetClientsFilterStatusInfo *)
      UnmarshalNDR EnumSubnetClientsFilterStatusInfoRequest ctx r (fun in_ err =>
      match err with
      | Some _ => Return (None, err)
      | None =>
          Call o EnumSubnetClientsFilterStatusInfo ctx in_ (fun resp err0 =>
          Return (xxx_ToOp EnumSubnetClientsFilterStatusInfo resp ctx, err0))
      end)
  | 89 => (* R_DhcpV4FailoverCreateRelationship *)
      UnmarshalNDR FailoverCreateRelationshipV4Request ctx r (fun in_ err =>
      match err with
      | Some _ => Return (None, err)
      | None =>
          Call o FailoverCreateRelationshipV4 ctx in_ (fun resp err0 =>
          Return (xxx_ToOp FailoverCreateRelationshipV4 resp ctx, err0))
      end)
  | 90 => (* R_DhcpV4FailoverSetRelationship *)
      UnmarshalNDR FailoverSetRelationshipV4Request ctx r (fun in_ err =>
      match err with
      | Some _ => Return (None, err)
      | None =>
          Call o FailoverSetRelationshipV4 ctx in_ (fun resp err0 =>
          Return (xxx_ToOp FailoverSetRelationshipV4 resp ctx, err0))
      end)
  | 91 => (* R_DhcpV4FailoverDeleteRelationship *)
      UnmarshalNDR FailoverDeleteRelationshipV4Request ctx r (fun in_ err =>
      match err with
      | Some _ => Return (None, err)
      | None =>
          Call o FailoverDeleteRelationshipV4 ctx in_ (fun resp err0 =>
          Return (xxx_ToOp FailoverDeleteRelationshipV4 resp ctx, err0))
      end)
  | 92 => (* R_DhcpV4FailoverGetRelationship *)
      UnmarshalNDR FailoverGetRelationshipV4Request ctx r (fun in_ err =>
      match err with
      | Some _ => Return (None, err)
      | None =>
          Call o FailoverGetRelationshipV4 ctx in_ (fun resp err0 =>
          Return (xxx_ToOp FailoverGetRelationshipV4 resp ctx, err0))
      end)
  | 93 => (* R_DhcpV4FailoverEnumRelationship *)
      UnmarshalNDR FailoverEnumRelationshipV4Request ctx r (fun in_ err =>
      match err with
      | Some _ => Return (None, err)
      | None =>
          Call o FailoverEnumRelationshipV4 ctx in_ (fun resp err0 =>
          Return (xxx_ToOp FailoverEnumRelationshipV4 resp ctx, err0))
      end)
  | 94 => (* R_DhcpV4FailoverAddScopeToRelationship *)
      UnmarshalNDR FailoverAddScopeToRelationshipV4Request ctx r (fun in_ err =>
      match err with
      | Some _ => Return (None, err)
      | None =>
          Call o FailoverAddScopeToRelationshipV4 ctx in_ (fun resp err0 =>
          Return (xxx_ToOp FailoverAddScopeToRelationshipV4 resp ctx, err0))
      end)
  | 95 => (* R_DhcpV4FailoverDeleteScopeFromRelationship *)
      UnmarshalNDR FailoverDeleteScopeFromRelationshipV4Request ctx r (fun in_ err =>
      match err with
      | Some _ => Return (None, err)
      | None =>
          Call o FailoverDeleteScopeFromRelationshipV4 ctx in_ (fun resp err0 =>
          Return (xxx_ToOp FailoverDeleteScopeFromRelationshipV4 resp ctx, err0))
      end)
  | 96 => (* R_DhcpV4FailoverGetScopeRelationship *)
      UnmarshalNDR FailoverGetScopeRelationshipV4Request ctx r (fun in_ err =>
      match err with
      | Some _ => Return (None, err)
      | None =>
          Call o FailoverGetScopeRelationshipV4 ctx in_ (fun resp err0 =>
          Return (xxx_ToOp FailoverGetScopeRelationshipV4 resp ctx, err0))
      end)
  | 97 => (* R_DhcpV4FailoverGetScopeStatistics *)
      UnmarshalNDR FailoverGetScopeStatisticsV4Request ctx r (fun in_ err =>
      match err with
      | Some _ => Return (None, err)
      | None =>
          Call o FailoverGetScopeStatisticsV4 ctx in_ (fun resp err0 =>
          Return (xxx_ToOp FailoverGetScopeStatisticsV4 resp ctx, err0))
      end)
  | 98 => (* R_DhcpV4FailoverGetClientInfo *)
      UnmarshalNDR FailoverGetClientInfoV4Request ctx r (fun in_ err =>
      match err with
      | Some _ => Return (None, err)
      | None =>
          Call o FailoverGetClientInfoV4 ctx in_ (fun resp err0 =>
          Return (xxx_ToOp FailoverGetClientInfoV4 resp ctx, err0))
      end)
  | 99 => (* R_DhcpV4FailoverGetSystemTime *)
      UnmarshalNDR FailoverGetSystemTimeV4Request ctx r (fun in_ err =>
      match err with
      | Some _ => Return (None, err)
      | None =>
          Call o FailoverGetSystemTimeV4 ctx in_ (fun resp err0 =>
          Return (xxx_ToOp FailoverGetSystemTimeV4 resp ctx, err0))
      end)
  | 100 => (* R_DhcpV4FailoverTriggerAddrAllocation *)
      UnmarshalNDR FailoverTriggerAddrAllocationV4Request ctx r (fun in_ err =>
      match err with
      | Some _ => Return (None, err)
      | None =>
          Call o FailoverTriggerAddrAllocationV4 ctx in_ (fun resp err0 =>
          Return (xxx_ToOp FailoverTriggerAddrAllocationV4 resp ctx, err0))
      end)
  | 101 => (* R_DhcpV4SetOptionValue *)
      UnmarshalNDR SetOptionValueV4Request ctx r (fun in_ err =>
      match err with
      | Some _ => Return (None, err)
      | None =>
          Call o SetOptionValueV4 ctx in_ (fun resp err0 =>
          Return (xxx_ToOp SetOptionValueV4 resp ctx, err0))
      end)
  | 102 => (* R_DhcpV4SetOptionValues *)
      UnmarshalNDR SetOptionValuesV4Request ctx r (fun in_ err =>
      match err with
      | Some _ => Return (None, err)
      | None =>
          Call o SetOptionValuesV4 ctx in_ (fun resp err0 =>
          Return (xxx_ToOp SetOptionValuesV4 resp ctx, err0))
      end)
  | 103 => (* R_DhcpV4GetOptionValue *)
      UnmarshalNDR GetOptionValueV4Request ctx r (fun in_ err =>
      match err with
      | Some _ => Return (None, err)
      | None =>
          Call o GetOptionValueV4 ctx in_ (fun resp err0 =>
          Return (xxx_ToOp GetOptionValueV4 resp ctx, err0))
      end)
  | 104 => (* R_DhcpV4RemoveOptionValue *)
      UnmarshalNDR RemoveOptionValueV4Request ctx r (fun in_ err =>
      match err with
      | Some _ => Return (None, err)
      | None =>
          Call o RemoveOptionValueV4 ctx in_ (fun resp err0 =>
          Return (xxx_ToOp RemoveOptionValueV4 resp ctx, err0))
      end)
  | 105 => (* R_DhcpV4GetAllOptionValues *)
      UnmarshalNDR GetAllOptionValuesV4Request ctx r (fun in_ err =>
      match err with
      | Some _ => Return (None, err)
      | None =>
          Call o GetAllOptionValuesV4 ctx in_ (fun resp err0 =>
          Return (xxx_ToOp GetAllOptionValuesV4 resp ctx, err0))
      end)
  | 106 => (* R_DhcpV4QueryPolicyEnforcement *)
      UnmarshalNDR QueryPolicyEnforcementV4Request ctx r (fun in_ err =>
      match err with
      | Some _ => Return (None, err)
      | None =>
          Call o QueryPolicyEnforcementV4 ctx in_ (fun resp err0 =>
          Return (xxx_ToOp QueryPolicyEnforcementV4 resp ctx, err0))
      end)
  | 107 => (* R_DhcpV4SetPolicyEnforcement *)
      UnmarshalNDR SetPolicyEnforcementV4Request ctx r (fun in_ err =>
      match err with
      | Some _ => Return (None, err)
      | None =>
          Call o SetPolicyEnforcementV4 ctx in_ (fun resp err0 =>
          Return (xxx_ToOp SetPolicyEnforcementV4 resp ctx, err0))
      end)
  | 108 => (* R_DhcpV4CreatePolicy *)
      UnmarshalNDR CreatePolicyV4Request ctx r (fun in_ err =>
      match err with
      | Some _ => Return (None, err)
      | None =>
          Call o CreatePolicyV4 ctx in_ (fun resp err0 =>
          Return (xxx_ToOp CreatePolicyV4 resp ctx, err0))
      end)
  | 109 => (* R_DhcpV4GetPolicy *)
      UnmarshalNDR GetPolicyV4Request ctx r (fun in_ err =>
      match err with
      | Some _ => Return (None, err)
      | None =>
          Call o GetPolicyV4 ctx in_ (fun resp err0 =>
          Return (xxx_ToOp GetPolicyV4 resp ctx, err0))
      end)
  | 110 => (* R_DhcpV4SetPolicy *)
      UnmarshalNDR SetPolicyV4Request ctx r (fun in_ err =>
      match err with
      | Some _ => Return (None, err)
      | None =>
          Call o SetPolicyV4 ctx in_ (fun resp err0 =>
          Return (xxx_ToOp SetPolicyV4 resp ctx, err0))
      end)
  | 111 => (* R_DhcpV4DeletePolicy *)
      UnmarshalNDR DeletePolicyV4Request ctx r (fun in_ err =>
      match err with
      | Some _ => Return (None, err)
      | None =>
          Call o DeletePolicyV4 ctx in_ (fun resp err0 =>
          Return (xxx_ToOp DeletePolicyV4 resp ctx, err0))
      end)
  | 112 => (* R_DhcpV4EnumPolicies *)
      UnmarshalNDR EnumPoliciesV4Request ctx r (fun in_ err =>
      match err with
      | Some _ => Return (None, err)
      | None =>
          Call o EnumPoliciesV4 ctx in_ (fun resp err0 =>
          Return (xxx_ToOp EnumPoliciesV4 resp ctx, err0))
      end)
  | 113 => (* R_DhcpV4AddPolicyRange *)
      UnmarshalNDR AddPolicyRangeV4Request ctx r (fun in_ err =>
      match err with
      | Some _ => Return (None, err)
      | None =>
          Call o AddPolicyRangeV4 ctx in_ (fun resp err0 =>
          Return (xxx_ToOp AddPolicyRangeV4 resp ctx, err0))
      end)
  | 114 => (* R_DhcpV4RemovePolicyRange *)
      UnmarshalNDR RemovePolicyRangeV4Request ctx r (fun in_ err =>
      match err with
      | Some _ => Return (None, err)
      | None =>
          Call o RemovePolicyRangeV4 ctx in_ (fun resp err0 =>
          Return (xxx_ToOp RemovePolicyRangeV4 resp ctx, err0))
      end)
  | 115 => (* R_DhcpV4EnumSubnetClients *)
      UnmarshalNDR EnumSubnetClientsV4Request ctx r (fun in_ err =>
      match err with
      | Some _ => Return (None, err)
      | None =>
          Call o EnumSubnetClientsV4 ctx in_ (fun resp err0 =>
          Return (xxx_ToOp EnumSubnetClientsV4 resp ctx, err0))
      end)
  | 116 => (* R_DhcpV6SetStatelessStoreParams *)
      UnmarshalNDR SetStatelessStoreParamsV6Request ctx r (fun in_ err =>
      match err with
      | Some _ => Return (None, err)
      | None =>
          Call o SetStatelessStoreParamsV6 ctx in_ (fun resp err0 =>
          Return (xxx_ToOp SetStatelessStoreParamsV6 resp ctx, err0))
      end)
  | 117 => (* R_DhcpV6GetStatelessStoreParams *)
      UnmarshalNDR GetStatelessStoreParamsV6Request ctx r (fun in_ err =>
      match err with
      | Some _ => Return (None, err)
      | None =>
          Call o GetStatelessStoreParamsV6 ctx in_ (fun resp err0 =>
          Return (xxx_ToOp GetStatelessStoreParamsV6 resp ctx, err0))
      end)
  | 118 => (* R_DhcpV6GetStatelessStatistics *)
      UnmarshalNDR GetStatelessStatisticsV6Request ctx r (fun in_ err =>
      match err with
      | Some _ => Return (None, err)
      | None =>
          Call o GetStatelessStatisticsV6 ctx in_ (fun resp err0 =>
          Return (xxx_ToOp GetStatelessStatisticsV6 resp ctx, err0))
      end)
  | 119 => (* R_DhcpV4EnumSubnetReservations *)
      UnmarshalNDR EnumSubnetReservationsV4Request ctx r (fun in_ err =>
      match err with
      | Some _ => Return (None, err)
      | None =>
          Call o EnumSubnetReservationsV4 ctx in_ (fun resp err0 =>
          Return (xxx_ToOp EnumSubnetReservationsV4 resp ctx, err0))
      end)
  | 120 => (* R_DhcpV4GetFreeIPAddress *)
      UnmarshalNDR GetFreeIPAddressV4Request ctx r (fun in_ err =>
      match err with
      | Some _ => Return (None, err)
      | None =>
          Call o GetFreeIPAddressV4 ctx in_ (fun resp err0 =>
          Return (xxx_ToOp GetFreeIPAddressV4 resp ctx, err0))
      end)
  | 121 => (* R_DhcpV6GetFreeIPAddress *)
      UnmarshalNDR GetFreeIPAddressV6Request ctx r (fun in_ err =>
      match err with
      | Some _ => Return (None, err)
      | None =>
          Call o GetFreeIPAddressV6 ctx in_ (fun resp err0 =>
          Return (xxx_ToOp GetFreeIPAddressV6 resp ctx, err0))
      end)
  | 122 => (* R_DhcpV4CreateClientInfo *)
      UnmarshalNDR CreateClientInfoV4Request ctx r (fun in_ err =>
      match err with
      | Some _ => Return (None, err)
      | None =>
          Call o CreateClientInfoV4 ctx in_ (fun resp err0 =>
          Return (xxx_ToOp CreateClientInfoV4 resp ctx, err0))
      end)
  | 123 => (* R_DhcpV4GetClientInfo *)
      UnmarshalNDR GetClientInfoV4Request ctx r (fun in_ err =>
      match err with
      | Some _ => Return (None, err)
      | None =>
          Call o GetClientInfoV4 ctx in_ (fun resp err0 =>
          Return (xxx_ToOp GetClientInfoV4 resp ctx, err0))
      end)
  | 124 => (* R_DhcpV6CreateClientInfo *)
      UnmarshalNDR CreateClientInfoV6Request ctx r (fun in_ err =>
      match err with
      | Some _ => Return (None, err)
      | None =>
          Call o CreateClientInfoV6 ctx in_ (fun resp err0 =>
          Return (xxx_ToOp CreateClientInfoV6 resp ctx, err0))
      end)
  | 125 => (* R_DhcpV4FailoverGetAddressStatus *)
      UnmarshalNDR FailoverGetAddressStatusV4Request ctx r (fun in_ err =>
      match err with
      | Some _ => Return (None, err)
      | None =>
          Call o FailoverGetAddressStatusV4 ctx in_ (fun resp err0 =>
          Return (xxx_ToOp FailoverGetAddressStatusV4 resp ctx, err0))
      end)
  | 126 => (* R_DhcpV4CreatePolicyEx *)
      UnmarshalNDR CreatePolicyExV4Request ctx r (fun in_ err =>
      match err with
      | Some _ => Return (None, err)
      | None =>
          Call o CreatePolicyExV4 ctx in_ (fun resp err0 =>
          Return (xxx_ToOp CreatePolicyExV4 resp ctx, err0))
      end)
  | 127 => (* R_DhcpV4GetPolicyEx *)
      UnmarshalNDR GetPolicyExV4Request ctx r (fun in_ err =>
      match err with
      | Some _ => Return (None, err)
      | None =>
          Call o GetPolicyExV4 ctx in_ (fun resp err0 =>
          Return (xxx_ToOp GetPolicyExV4 resp ctx, err0))
      end)
  | 128 => (* R_DhcpV4SetPolicyEx *)
      UnmarshalNDR SetPolicyExV4Request ctx r (fun in_ err =>
      match err with
      | Some _ => Return (None, err)
      | None =>
          Call o SetPolicyExV4 ctx in_ (fun resp err0 =>
          Return (xxx_ToOp SetPolicyExV4 resp ctx, err0))
      end)
  | 129 => (* R_DhcpV4EnumPoliciesEx *)
      UnmarshalNDR EnumPoliciesExV4Request ctx r (fun in_ err =>
      match err with
      | Some _ => Return (None, err)
      | None =>
          Call o EnumPoliciesExV4 ctx in_ (fun resp err0 =>
          Return (xxx_ToOp EnumPoliciesExV4 resp ctx, err0))
      end)
  | 130 => (* R_DhcpV4EnumSubnetClientsEx *)
      UnmarshalNDR EnumSubnetClientsExV4Request ctx r (fun in_ err =>
      match err with
      | Some _ => Return (None, err)
      | None =>
          Call o EnumSubnetClientsExV4 ctx in_ (fun resp err0 =>
          Return (xxx_ToOp EnumSubnetClientsExV4 resp ctx, err0))
      end)
  | 131 => (* R_DhcpV4CreateClientInfoEx *)
      UnmarshalNDR CreateClientInfoExV4Request ctx r (fun in_ err =>
      match err with
      | Some _ => Return (None, err)
      | None =>
          Call o CreateClientInfoExV4 ctx in_ (fun resp err0 =>
          Return (xxx_ToOp CreateClientInfoExV4 resp ctx, err0))
      end)
  | 132 => (* R_DhcpV4GetClientInfoEx *)
      UnmarshalNDR GetClientInfoExV4Request ctx r (fun in_ err =>
      match err with
      | Some _ => Return (None, err)
      | None =>
          Call o GetClientInfoExV4 ctx in_ (fun resp err0 =>
          Return (xxx_ToOp GetClientInfoExV4 resp ctx, err0))
      end)
  | _ => Return (None, None)
  end.

Definition NewDhcpsrv2ServerHandle (o : Server)
  : ServerHandle RequestType Method :=
  fun ctx opNum r => Dhcpsrv2ServerHandle ctx o opNum r.

Definition RegisterDhcpsrv2Server
           (C : Type) (conn : Conn C) (o : Server) (opts : list Option)
  : C -> C :=
  RegisterServer conn (NewDhcpsrv2ServerHandle o)
    (opts ++ [WithAbstractSyntax Dhcpsrv2SyntaxV1_0]).
End Stub.

(** The case labels of the switch, in order. *)
Definition case_labels : list Z :=
  [0; 1; 2; 3; 4; 5; 6; 7; 8; 9; 10; 11; 12; 13; 14; 15; 16; 17; 18; 19;
  20; 21; 22; 23; 24; 25; 26; 27; 28; 29; 30; 31; 32; 33; 34; 35; 36; 37;
  38; 39; 40; 41; 42; 43; 44; 45; 46; 47; 48; 49; 50; 51; 52; 53; 54; 55;
  56; 57; 58; 59; 60; 61; 62; 63; 64; 65; 66; 67; 68; 69; 70; 71; 72; 73;
  74; 75; 76; 77; 78; 79; 80; 81; 82; 83; 84; 85; 86; 87; 88; 89; 90; 91;
  92; 93; 94; 95; 96; 97; 98; 99; 100; 101; 102; 103; 104; 105; 106; 107;
  108; 109; 110; 111; 112; 113; 114; 115; 116; 117; 118; 119; 120; 121;
  122; 123; 124; 125; 126; 127; 128; 129; 130; 131; 132].

(** The cases that decode a request: opnum, request structure, method. *)
Definition table : list (Z * (RequestType * Method)) :=
  [(0, (EnumSubnetClientsV5Request, EnumSubnetClientsV5));
   (1, (SetMScopeInfoRequest, SetMScopeInfo));
   (2, (GetMScopeInfoRequest, GetMScopeInfo));
   (3, (EnumMScopesRequest, EnumMScopes));
   (4, (AddMScopeElementRequest, AddMScopeElement));
   (5, (EnumMScopeElementsRequest, EnumMScopeElements));
   (6, (RemoveMScopeElementRequest, RemoveMScopeElement));
   (7, (DeleteMScopeRequest, DeleteMScope));
   (8, (ScanMDatabaseRequest, ScanMDatabase));
   (9, (CreateMClientInfoRequest, CreateMClientInfo));
   (10, (SetMClientInfoRequest, SetMClientInfo));
   (11, (GetMClientInfoRequest, GetMClientInfo));
   (12, (DeleteMClientInfoRequest, DeleteMClientInfo));
   (13, (EnumMScopeClientsRequest, EnumMScopeClients));
   (14, (CreateOptionV5Request, CreateOptionV5));
   (15, (SetOptionInfoV5Request, SetOptionInfoV5));
   (16, (GetOptionInfoV5Request, GetOptionInfoV5));
   (17, (EnumOptionsV5Request, EnumOptionsV5));
   (18, (RemoveOptionV5Request, RemoveOptionV5));
   (19, (SetOptionValueV5Request, SetOptionValueV5));
   (20, (SetOptionValuesV5Request, SetOptionValuesV5));
   (21, (GetOptionValueV5Request, GetOptionValueV5));
   (22, (EnumOptionValuesV5Request, EnumOptionValuesV5));
   (23, (RemoveOptionValueV5Request, RemoveOptionValueV5));
   (24, (CreateClassRequest, CreateClass));
   (25, (ModifyClassRequest, ModifyClass));
   (26, (DeleteClassRequest, DeleteClass));
   (27, (GetClassInfoRequest, GetClassInfo));
   (28, (EnumClassesRequest, EnumClasses));
   (29, (GetAllOptionsRequest, GetAllOptions));
   (30, (GetAllOptionValuesRequest, GetAllOptionValues));
   (31, (GetMCastMIBInfoRequest, GetMCastMIBInfo));
   (32, (AuditLogSetParamsRequest, AuditLogSetParams));
   (33, (AuditLogGetParamsRequest, AuditLogGetParams));
   (34, (ServerQueryAttributeRequest, ServerQueryAttribute));
   (35, (ServerQueryAttributesRequest, ServerQueryAttributes));
   (36, (ServerRedoAuthorizationRequest, ServerRedoAuthorization));
   (37, (AddSubnetElementV5Request, AddSubnetElementV5));
   (38, (EnumSubnetElementsV5Request, EnumSubnetElementsV5));
   (39, (RemoveSubnetElementV5Request, RemoveSubnetElementV5));
   (40, (GetServerBindingInfoRequest, GetServerBindingInfo));
   (41, (SetServerBindingInfoRequest, SetServerBindingInfo));
   (42, (QueryDNSRegCredentialsRequest, QueryDNSRegCredentials));
   (43, (SetDNSRegCredentialsRequest, SetDNSRegCredentials));
   (44, (BackupDatabaseRequest, BackupDatabase));
   (45, (RestoreDatabaseRequest, RestoreDatabase));
   (46, (GetServerSpecificStringsRequest, GetServerSpecificStrings));
   (47, (CreateOptionV6Request, CreateOptionV6));
   (48, (SetOptionInfoV6Request, SetOptionInfoV6));
   (49, (GetOptionInfoV6Request, GetOptionInfoV6));
   (50, (EnumOptionsV6Request, EnumOptionsV6));
   (51, (RemoveOptionV6Request, RemoveOptionV6));
   (52, (SetOptionValueV6Request, SetOptionValueV6));
   (53, (EnumOptionValuesV6Request, EnumOptionValuesV6));
   (54, (RemoveOptionValueV6Request, RemoveOptionValueV6));
   (55, (GetAllOptionsV6Request, GetAllOptionsV6));
   (56, (GetAllOptionValuesV6Request, GetAllOptionValuesV6));
   (57, (CreateSubnetV6Request, CreateSubnetV6));
   (58, (EnumSubnetsV6Request, EnumSubnetsV6));
   (59, (AddSubnetElementV6Request, AddSubnetElementV6));
   (60, (EnumSubnetElementsV6Request, EnumSubnetElementsV6));
   (61, (RemoveSubnetElementV6Request, RemoveSubnetElementV6));
   (62, (DeleteSubnetV6Request, DeleteSubnetV6));
   (63, (GetSubnetInfoV6Request, GetSubnetInfoV6));
   (64, (EnumSubnetClientsV6Request, EnumSubnetClientsV6));
   (65, (ServerSetConfigV6Request, ServerSetConfigV6));
   (66, (ServerGetConfigV6Request, ServerGetConfigV6));
   (67, (SetSubnetInfoV6Request, SetSubnetInfoV6));
   (68, (GetMIBInfoV6Request, GetMIBInfoV6));
   (69, (GetServerBindingInfoV6Request, GetServerBindingInfoV6));
   (70, (SetServerBindingInfoV6Request, SetServerBindingInfoV6));
   (71, (SetClientInfoV6Request, SetClientInfoV6));
   (72, (GetClientInfoV6Request, GetClientInfoV6));
   (73, (DeleteClientInfoV6Request, DeleteClientInfoV6));
   (74, (CreateClassV6Request, CreateClassV6));
   (75, (ModifyClassV6Request, ModifyClassV6));
   (76, (DeleteClassV6Request, DeleteClassV6));
   (77, (EnumClassesV6Request, EnumClassesV6));
   (78, (GetOptionValueV6Request, GetOptionValueV6));
   (79, (SetSubnetDelayOfferRequest, SetSubnetDelayOffer));
   (80, (GetSubnetDelayOfferRequest, GetSubnetDelayOffer));
   (81, (GetMIBInfoV5Request, GetMIBInfoV5));
   (82, (AddFilterV4Request, AddFilterV4));
   (83, (DeleteFilterV4Request, DeleteFilterV4));
   (84, (SetFilterV4Request, SetFilterV4));
   (85, (GetFilterV4Request, GetFilterV4));
   (86, (EnumFilterV4Request, EnumFilterV4));
   (87, (SetDNSRegCredentialsV5Request, SetDNSRegCredentialsV5));
   (88, (EnumSubnetClientsFilterStatusInfoRequest, EnumSubnetClientsFilterStatusInfo));
   (89, (FailoverCreateRelationshipV4Request, FailoverCreateRelationshipV4));
   (90, (FailoverSetRelationshipV4Request, FailoverSetRelationshipV4));
   (91, (FailoverDeleteRelationshipV4Request, FailoverDeleteRelationshipV4));
   (92, (FailoverGetRelationshipV4Request, FailoverGetRelationshipV4));
   (93, (FailoverEnumRelationshipV4Request, FailoverEnumRelationshipV4));
   (94, (FailoverAddScopeToRelationshipV4Request, FailoverAddScopeToRelationshipV4));
   (95, (FailoverDeleteScopeFromRelationshipV4Request, FailoverDeleteScopeFromRelationshipV4));
   (96, (FailoverGetScopeRelationshipV4Request, FailoverGetScopeRelationshipV4));
   (97, (FailoverGetScopeStatisticsV4Request, FailoverGetScopeStatisticsV4));
   (98, (FailoverGetClientInfoV4Request, FailoverGetClientInfoV4));
   (99, (FailoverGetSystemTimeV4Request, FailoverGetSystemTimeV4));
   (100, (FailoverTriggerAddrAllocationV4Request, FailoverTriggerAddrAllocationV4));
   (101, (SetOptionValueV4Request, SetOptionValueV4));
   (102, (SetOptionValuesV4Request, SetOptionValuesV4));
   (103, (GetOptionValueV4Request, GetOptionValueV4));
   (104, (RemoveOptionValueV4Request, RemoveOptionValueV4));
   (105, (GetAllOptionValuesV4Request, GetAllOptionValuesV4));
   (106, (QueryPolicyEnforcementV4Request, QueryPolicyEnforcementV4));
   (107, (SetPolicyEnforcementV4Request, SetPolicyEnforcementV4));
   (108, (CreatePolicyV4Request, CreatePolicyV4));
   (109, (GetPolicyV4Request, GetPolicyV4));
   (110, (SetPolicyV4Request, SetPolicyV4));
   (111, (DeletePolicyV4Request, DeletePolicyV4));
   (112, (EnumPoliciesV4Request, EnumPoliciesV4));
   (113, (AddPolicyRangeV4Request, AddPolicyRangeV4));
   (114, (RemovePolicyRangeV4Request, RemovePolicyRangeV4));
   (115, (EnumSubnetClientsV4Request, EnumSubnetClientsV4));
   (116, (SetStatelessStoreParamsV6Request, SetStatelessStoreParamsV6));
   (117, (GetStatelessStoreParamsV6Request, GetStatelessStoreParamsV6));
   (118, (GetStatelessStatisticsV6Request, GetStatelessStatisticsV6));
   (119, (EnumSubnetReservationsV4Request, EnumSubnetReservationsV4));
   (120, (GetFreeIPAddressV4Request, GetFreeIPAddressV4));
   (121, (GetFreeIPAddressV6Request, GetFreeIPAddressV6));
   (122, (CreateClientInfoV4Request, CreateClientInfoV4));
   (123, (GetClientInfoV4Request, GetClientInfoV4));
   (124, (CreateClientInfoV6Request, CreateClientInfoV6));
   (125, (FailoverGetAddressStatusV4Request, FailoverGetAddressStatusV4));
   (126, (CreatePolicyExV4Request, CreatePolicyExV4));
   (127, (GetPolicyExV4Request, GetPolicyExV4));
   (128, (SetPolicyExV4Request, SetPolicyExV4));
   (129, (EnumPoliciesExV4Request, EnumPoliciesExV4));
   (130, (EnumSubnetClientsExV4Request, EnumSubnetClientsExV4));
   (131, (CreateClientInfoExV4Request, CreateClientInfoExV4));
   (132, (GetClientInfoExV4Request, GetClientInfoExV4))].

(** The bound under which the base dispatcher is called. *)
Definition base : option (BaseServerHandle * Z) := None.
End dhcpsrv2.

(** ** Package [iwamadmin]:
    the WAMAdmin server stub
    (src/unnamed/part_000, package iwamadmin) *)
Module iwamadmin.

(** The request structures the stub decodes. *)
Inductive RequestType : Set :=
| AppCreateRequest | AppDeleteRequest | AppUnloadRequest
| AppGetStatusRequest | AppDeleteRecoverableRequest | AppRecoverRequest.

(** The methods of [WAMAdminServer], beside those of the
    embedded [iunknown.UnknownServer]. *)
Inductive Method : Set :=
| AppCreate | AppDelete | AppUnload | AppGetStatus | AppDeleteRecoverable
| AppRecover.

(** The interface declaration: the request structure a method takes. *)
Definition request_of (m : Method) : RequestType :=
  match m with
  | AppCreate => AppCreateRequest
  | AppDelete => AppDeleteRequest
  | AppUnload => AppUnloadRequest
  | AppGetStatus => AppGetStatusRequest
  | AppDeleteRecoverable => AppDeleteRecoverableRequest
  | AppRecover => AppRecoverRequest
  end.

(** The opnum the switch dispatches to each method under. *)
Definition opnum_of (m : Method) : Z :=
  match m with
  | AppCreate => 3
  | AppDelete => 4
  | AppUnload => 5
  | AppGetStatus => 6
  | AppDeleteRecoverable => 7
  | AppRecover => 8
  end.

Section Stub.
Context {rt : Runtime}.
(* resp.xxx_ToOp(ctx), for the response structure of each method *)
Variable xxx_ToOp : Method -> option Response -> Context -> Operation.
Variable WAMAdminSyntaxV0_0 : SyntaxID.

Definition WAMAdminServerHandle
           (ctx : Context) (o : Server) (opNum : Z) (r : Reader)
  : Prog RequestType Method (Operation * error) :=
  if opNum <? 3 then
    (* IUnknown base method. *)
    Delegate iunknown_UnknownServerHandle ctx o opNum r
             (fun op err => Return (op, err))
  else
  match opNum with
  | 3 => (* AppCreate *)
      UnmarshalNDR AppCreateRequest ctx r (fun in_ err =>
      match err with
      | Some _ => Return (None, err)
      | None =>
          Call o AppCreate ctx in_ (fun resp err0 =>
          Return (xxx_ToOp AppCreate resp ctx, err0))
      end)
  | 4 => (* AppDelete *)
      UnmarshalNDR AppDeleteRequest ctx r (fun in_ err =>
      match err with
      | Some _ => Return (None, err)
      | None =>
          Call o AppDelete ctx in_ (fun resp err0 =>
          Return (xxx_ToOp AppDelete resp ctx, err0))
      end)
  | 5 => (* AppUnLoad *)
      UnmarshalNDR AppUnloadRequest ctx r (fun in_ err =>
      match err with
      | Some _ => Return (None, err)
      | None =>
          Call o AppUnload ctx in_ (fun resp err0 =>
          Return (xxx_ToOp AppUnload resp ctx, err0))
      end)
  | 6 => (* AppGetStatus *)
      UnmarshalNDR AppGetStatusRequest ctx r (fun in_ err =>
      match err with
      | Some _ => Return (None, err)
      | None =>
          Call o AppGetStatus ctx in_ (fun resp err0 =>
          Return (xxx_ToOp AppGetStatus resp ctx, err0))
      end)
  | 7 => (* AppDeleteRecoverable *)
      UnmarshalNDR AppDeleteRecoverableRequest ctx r (fun in_ err =>
      match err with
      | Some _ => Return (None, err)
      | None =>
          Call o AppDeleteRecoverable ctx in_ (fun resp err0 =>
          Return (xxx_ToOp AppDeleteRecoverable resp ctx, err0))
      end)
  | 8 => (* AppRecover *)
      UnmarshalNDR AppRecoverRequest ctx r (fun in_ err =>
      match err with
      | Some _ => Return (None, err)
      | None =>
          Call o AppRecover ctx in_ (fun resp err0 =>
          Return (xxx_ToOp AppRecover resp ctx, err0))
      end)
  | _ => Return (None, None)
  end.

Definition NewWAMAdminServerHandle (o : Server)
  : ServerHandle RequestType Method :=
  fun ctx opNum r => WAMAdminServerHandle ctx o opNum r.

Definition RegisterWAMAdminServer
           (C : Type) (conn : Conn C) (o : Server) (opts : list Option)
  : C -> C :=
  RegisterServer conn (NewWAMAdminServerHandle o)
    (opts ++ [WithAbstractSyntax WAMAdminSyntaxV0_0]).
End Stub.

(** The case labels of the switch, in order. *)
Definition case_labels : list Z :=
  [3; 4; 5; 6; 7; 8].

(** The cases that decode a request: opnum, request structure, method. *)
Definition table : list (Z * (RequestType * Method)) :=
  [(3, (AppCreateRequest, AppCreate));
   (4, (AppDeleteRequest, AppDelete));
   (5, (AppUnloadRequest, AppUnload));
   (6, (AppGetStatusRequest, AppGetStatus));
   (7, (AppDeleteRecoverableRequest, AppDeleteRecoverable));
   (8, (AppRecoverRequest, AppRecover))].

(** The bound under which the base dispatcher is called. *)
Definition base : option (BaseServerHandle * Z) :=
  Some (iunknown_UnknownServerHandle, 3).
End iwamadmin.

(** ** Package [idatafactory3]:
    the DataFactory3 server stub
    (src/unnamed/part_000, package idatafactory3) *)
Module idatafactory3.

(** The request structures the stub decodes. *)
Inductive RequestType : Set :=
| ExecuteRequest | SynchronizeRequest.

(** The methods of [DataFactory3Server], beside those of the
    embedded [idatafactory2.DataFactory2Server]. *)
Inductive Method : Set :=
| Execute | Synchronize.

(** The interface declaration: the request structure a method takes. *)
Definition request_of (m : Method) : RequestType :=
  match m with
  | Execute => ExecuteRequest
  | Synchronize => SynchronizeRequest
  end.

(** The opnum the switch dispatches to each method under. *)
Definition opnum_of (m : Method) : Z :=
  match m with
  | Execute => 9
  | Synchronize => 10
  end.

Section Stub.
Context {rt : Runtime}.
(* resp.xxx_ToOp(ctx), for the response structure of each method *)
Variable xxx_ToOp : Method -> option Response -> Context -> Operation.
Variable DataFactory3SyntaxV0_0 : SyntaxID.

Definition DataFactory3ServerHandle
           (ctx : Context) (o : Server) (opNum : Z) (r : Reader)
  : Prog RequestType Method (Operation * error) :=
  if opNum <? 9 then
    (* IDataFactory2 base method. *)
    Delegate idatafactory2_DataFactory2ServerHandle ctx o opNum r
             (fun op err => Return (op, err))
  else
  match opNum with
  | 9 => (* Execute *)
      UnmarshalNDR ExecuteRequest ctx r (fun in_ err =>
      match err with
      | Some _ => Return (None, err)
      | None =>
          Call o Execute ctx in_ (fun resp err0 =>
          Return (xxx_ToOp Execute resp ctx, err0))
      end)
  | 10 => (* Synchronize *)
      UnmarshalNDR SynchronizeRequest ctx r (fun in_ err =>
      match err with
      | Some _ => Return (None, err)
      | None =>
          Call o Synchronize ctx in_ (fun resp err0 =>
          Return (xxx_ToOp Synchronize resp ctx, err0))
      end)
  | _ => Return (None, None)
  end.

Definition NewDataFactory3ServerHandle (o : Server)
  : ServerHandle RequestType Method :=
  fun ctx opNum r => DataFactory3ServerHandle ctx o opNum r.

Definition RegisterDataFactory3Server
           (C : Type) (conn : Conn C) (o : Server) (opts : list Option)
  : C -> C :=
  RegisterServer conn (NewDataFactory3ServerHandle o)
    (opts ++ [WithAbstractSyntax DataFactory3SyntaxV0_0]).
End Stub.

(** The case labels of the switch, in order. *)
Definition case_labels : list Z :=
  [9; 10].

(** The cases that decode a request: opnum, request structure, method. *)
Definition table : list (Z * (RequestType * Method)) :=
  [(9, (ExecuteRequest, Execute));
   (10, (SynchronizeRequest, Synchronize))].

(** The bound under which the base dispatcher is called. *)
Definition base : option (BaseServerHandle * Z) :=
  Some (idatafactory2_DataFactory2ServerHandle, 9).
End idatafactory3.

(** ** Package [iapphostpathmapper]:
    the AppHostPathMapper server stub
    (src/unnamed/part_001, package iapphostpathmapper) *)
Module iapphostpathmapper.

(** The request structures the stub decodes. *)
Inductive RequestType : Set :=
| MapPathRequest.

(** The methods of [AppHostPathMapperServer], beside those of the
    embedded [iunknown.UnknownServer]. *)
Inductive Method : Set :=
| MapPath.

(** The interface declaration: the request structure a method takes. *)
Definition request_of (m : Method) : RequestType :=
  match m with
  | MapPath => MapPathRequest
  end.

(** The opnum the switch dispatches to each method under. *)
Definition opnum_of (m : Method) : Z :=
  match m with
  | MapPath => 3
  end.

Section Stub.
Context {rt : Runtime}.
(* resp.xxx_ToOp(ctx), for the response structure of each method *)
Variable xxx_ToOp : Method -> option Response -> Context -> Operation.
Variable AppHostPathMapperSyntaxV0_0 : SyntaxID.

Definition AppHostPathMapperServerHandle
           (ctx : Context) (o : Server) (opNum : Z) (r : Reader)
  : Prog RequestType Method (Operation * error) :=
  if opNum <? 3 then
    (* IUnknown base method. *)
    Delegate iunknown_UnknownServerHandle ctx o opNum r
             (fun op err => Return (op, err))
  else
  match opNum with
  | 3 => (* MapPath *)
      UnmarshalNDR MapPathRequest ctx r (fun in_ err =>
      match err with
      | Some _ => Return (None, err)
      | None =>
          Call o MapPath ctx in_ (fun resp err0 =>
          Return (xxx_ToOp MapPath resp ctx, err0))
      end)
  | _ => Return (None, None)
  end.

Definition NewAppHostPathMapperServerHandle (o : Server)
  : ServerHandle RequestType Method :=
  fun ctx opNum r => AppHostPathMapperServerHandle ctx o opNum r.

Definition RegisterAppHostPathMapperServer
           (C : Type) (conn : Conn C) (o : Server) (opts : list Option)
  : C -> C :=
  RegisterServer conn (NewAppHostPathMapperServerHandle o)
    (opts ++ [WithAbstractSyntax AppHostPathMapperSyntaxV0_0]).
End Stub.

(** The case labels of the switch, in order. *)
Definition case_labels : list Z :=
  [3].

(** The cases that decode a request: opnum, request structure, method. *)
Definition table : list (Z * (RequestType * Method)) :=
  [(3, (MapPathRequest, MapPath))].

(** The bound under which the base dispatcher is called. *)
Definition base : option (BaseServerHandle * Z) :=
  Some (iunknown_UnknownServerHandle, 3).
End iapphostpathmapper.

(** ** Package [iapphostelementcollection]:
    the AppHostElementCollection server stub
    (src/unnamed/part_001, package iapphostelementcollection) *)
Module iapphostelementcollection.

(** The request structures the stub decodes. *)
Inductive RequestType : Set :=
| GetCountRequest | GetItemRequest | AddElementRequest
| DeleteElementRequest | ClearRequest | CreateNewElementRequest
| GetSchemaRequest.

(** The methods of [AppHostElementCollectionServer], beside those of the
    embedded [iunknown.UnknownServer]. *)
Inductive Method : Set :=
| GetCount | GetItem | AddElement | DeleteElement | Clear
| CreateNewElement | GetSchema.

(** The interface declaration: the request structure a method takes. *)
Definition request_of (m : Method) : RequestType :=
  match m with
  | GetCount => GetCountRequest
  | GetItem => GetItemRequest
  | AddElement => AddElementRequest
  | DeleteElement => DeleteElementRequest
  | Clear => ClearRequest
  | CreateNewElement => CreateNewElementRequest
  | GetSchema => GetSchemaRequest
  end.

(** The opnum the switch dispatches to each method under. *)
Definition opnum_of (m : Method) : Z :=
  match m with
  | GetCount => 3
  | GetItem => 4
  | AddElement => 5
  | DeleteElement => 6
  | Clear => 7
  | CreateNewElement => 8
  | GetSchema => 9
  end.

Section Stub.
Context {rt : Runtime}.
(* resp.xxx_ToOp(ctx), for the response structure of each method *)
Variable xxx_ToOp : Method -> option Response -> Context -> Operation.
Variable AppHostElementCollectionSyntaxV0_0 : SyntaxID.

Definition AppHostElementCollectionServerHandle
           (ctx : Context) (o : Server) (opNum : Z) (r : Reader)
  : Prog RequestType Method (Operation * error) :=
  if opNum <? 3 then
    (* IUnknown base method. *)
    Delegate iunknown_UnknownServerHandle ctx o opNum r
             (fun op err => Return (op, err))
  else
  match opNum with
  | 3 => (* Count *)
      UnmarshalNDR GetCountRequest ctx r (fun in_ err =>
      match err with
      | Some _ => Return (None, err)
      | None =>
          Call o GetCount ctx in_ (fun resp err0 =>
          Return (xxx_ToOp GetCount resp ctx, err0))
      end)
  | 4 => (* Item *)
      UnmarshalNDR GetItemRequest ctx r (fun in_ err =>
      match err with
      | Some _ => Return (None, err)
      | None =>
          Call o GetItem ctx in_ (fun resp err0 =>
          Return (xxx_ToOp GetItem resp ctx, err0))
      end)
  | 5 => (* AddElement *)
      UnmarshalNDR AddElementRequest ctx r (fun in_ err =>
      match err with
      | Some _ => Return (None, err)
      | None =>
          Call o AddElement ctx in_ (fun resp err0 =>
          Return (xxx_ToOp AddElement resp ctx, err0))
      end)
  | 6 => (* DeleteElement *)
      UnmarshalNDR DeleteElementRequest ctx r (fun in_ err =>
      match err with
      | Some _ => Return (None, err)
      | None =>
          Call o DeleteElement ctx in_ (fun resp err0 =>
          Return (xxx_ToOp DeleteElement resp ctx, err0))
      end)
  | 7 => (* Clear *)
      UnmarshalNDR ClearRequest ctx r (fun in_ err =>
      match err with
      | Some _ => Return (None, err)
      | None =>
          Call o Clear ctx in_ (fun resp err0 =>
          Return (xxx_ToOp Clear resp ctx, err0))
      end)
  | 8 => (* CreateNewElement *)
      UnmarshalNDR CreateNewElementRequest ctx r (fun in_ err =>
      match err with
      | Some _ => Return (None, err)
      | None =>
          Call o CreateNewElement ctx in_ (fun resp err0 =>
          Return (xxx_ToOp CreateNewElement resp ctx, err0))
      end)
  | 9 => (* Schema *)
      UnmarshalNDR GetSchemaRequest ctx r (fun in_ err =>
      match err with
      | Some _ => Return (None, err)
      | None =>
          Call o GetSchema ctx in_ (fun resp err0 =>
          Return (xxx_ToOp GetSchema resp ctx, err0))
      end)
  | _ => Return (None, None)
  end.

Definition NewAppHostElementCollectionServerHandle (o : Server)
  : ServerHandle RequestType Method :=
  fun ctx opNum r => AppHostElementCollectionServerHandle ctx o opNum r.

Definition RegisterAppHostElementCollectionServer
           (C : Type) (conn : Conn C) (o : Server) (opts : list Option)
  : C -> C :=
  RegisterServer conn (NewAppHostElementCollectionServerHandle o)
    (opts ++ [WithAbstractSyntax AppHostElementCollectionSyntaxV0_0]).
End Stub.

(** The case labels of the switch, in order. *)
Definition case_labels : list Z :=
  [3; 4; 5; 6; 7; 8; 9].

(** The cases that decode a request: opnum, request structure, method. *)
Definition table : list (Z * (RequestType * Method)) :=
  [(3, (GetCountRequest, GetCount));
   (4, (GetItemRequest, GetItem));
   (5, (AddElementRequest, AddElement));
   (6, (DeleteElementRequest, DeleteElement));
   (7, (ClearRequest, Clear));
   (8, (CreateNewElementRequest, CreateNewElement));
   (9, (GetSchemaRequest, GetSchema))].

(** The bound under which the base dispatcher is called. *)
Definition base : option (BaseServerHandle * Z) :=
  Some (iunknown_UnknownServerHandle, 3).
End iapphostelementcollection.

(** ** The stubs of the repository, side by side *)

Inductive Interface : Set :=
| WindowsShutdown
| ServiceSAN
| VDiskProvider
| FileScreenTemplate
| AppHostPropertyCollection
| CatalogUtils2
| Nspi
| Dhcpsrv2
| WAMAdmin
| DataFactory3
| AppHostPathMapper
| AppHostElementCollection.

Definition RequestType (i : Interface) : Set :=
  match i with
  | WindowsShutdown => windowsshutdown.RequestType
  | ServiceSAN => ivdsservicesan.RequestType
  | VDiskProvider => ivdsvdprovider.RequestType
  | FileScreenTemplate => ifsrmfilescreentemplate.RequestType
  | AppHostPropertyCollection => iapphostpropertycollection.RequestType
  | CatalogUtils2 => icatalogutils2.RequestType
  | Nspi => nspi.RequestType
  | Dhcpsrv2 => dhcpsrv2.RequestType
  | WAMAdmin => iwamadmin.RequestType
  | DataFactory3 => idatafactory3.RequestType
  | AppHostPathMapper => iapphostpathmapper.RequestType
  | AppHostElementCollection => iapphostelementcollection.RequestType
  end.

Definition Method (i : Interface) : Set :=
  match i with
  | WindowsShutdown => windowsshutdown.Method
  | ServiceSAN => ivdsservicesan.Method
  | VDiskProvider => ivdsvdprovider.Method
  | FileScreenTemplate => ifsrmfilescreentemplate.Method
  | AppHostPropertyCollection => iapphostpropertycollection.Method
  | CatalogUtils2 => icatalogutils2.Method
  | Nspi => nspi.Method
  | Dhcpsrv2 => dhcpsrv2.Method
  | WAMAdmin => iwamadmin.Method
  | DataFactory3 => idatafactory3.Method
  | AppHostPathMapper => iapphostpathmapper.Method
  | AppHostElementCollection => iapphostelementcollection.Method
  end.

Definition request_of (i : Interface) : Method i -> RequestType i :=
  match i with
  | WindowsShutdown => windowsshutdown.request_of
  | ServiceSAN => ivdsservicesan.request_of
  | VDiskProvider => ivdsvdprovider.request_of
  | FileScreenTemplate => ifsrmfilescreentemplate.request_of
  | AppHostPropertyCollection => iapphostpropertycollection.request_of
  | CatalogUtils2 => icatalogutils2.request_of
  | Nspi => nspi.request_of
  | Dhcpsrv2 => dhcpsrv2.request_of
  | WAMAdmin => iwamadmin.request_of
  | DataFactory3 => idatafactory3.request_of
  | AppHostPathMapper => iapphostpathmapper.request_of
  | AppHostElementCollection => iapphostelementcollection.request_of
  end.

Definition opnum_of (i : Interface) : Method i -> Z :=
  match i with
  | WindowsShutdown => windowsshutdown.opnum_of
  | ServiceSAN => ivdsservicesan.opnum_of
  | VDiskProvider => ivdsvdprovider.opnum_of
  | FileScreenTemplate => ifsrmfilescreentemplate.opnum_of
  | AppHostPropertyCollection => iapphostpropertycollection.opnum_of
  | CatalogUtils2 => icatalogutils2.opnum_of
  | Nspi => nspi.opnum_of
  | Dhcpsrv2 => dhcpsrv2.opnum_of
  | WAMAdmin => iwamadmin.opnum_of
  | DataFactory3 => idatafactory3.opnum_of
  | AppHostPathMapper => iapphostpathmapper.opnum_of
  | AppHostElementCollection => iapphostelementcollection.opnum_of
  end.

Definition case_labels (i : Interface) : list Z :=
  match i with
  | WindowsShutdown => windowsshutdown.case_labels
  | ServiceSAN => ivdsservicesan.case_labels
  | VDiskProvider => ivdsvdprovider.case_labels
  | FileScreenTemplate => ifsrmfilescreentemplate.case_labels
  | AppHostPropertyCollection => iapphostpropertycollection.case_labels
  | CatalogUtils2 => icatalogutils2.case_labels
  | Nspi => nspi.case_labels
  | Dhcpsrv2 => dhcpsrv2.case_labels
  | WAMAdmin => iwamadmin.case_labels
  | DataFactory3 => idatafactory3.case_labels
  | AppHostPathMapper => iapphostpathmapper.case_labels
  | AppHostElementCollection => iapphostelementcollection.case_labels
  end.

Definition table (i : Interface) : list (Z * (RequestType i * Method i)) :=
  match i with
  | WindowsShutdown => windowsshutdown.table
  | ServiceSAN => ivdsservicesan.table
  | VDiskProvider => ivdsvdprovider.table
  | FileScreenTemplate => ifsrmfilescreentemplate.table
  | AppHostPropertyCollection => iapphostpropertycollection.table
  | CatalogUtils2 => icatalogutils2.table
  | Nspi => nspi.table
  | Dhcpsrv2 => dhcpsrv2.table
  | WAMAdmin => iwamadmin.table
  | DataFactory3 => idatafactory3.table
  | AppHostPathMapper => iapphostpathmapper.table
  | AppHostElementCollection => iapphostelementcollection.table
  end.

Definition base (i : Interface) : option (BaseServerHandle * Z) :=
  match i with
  | WindowsShutdown => windowsshutdown.base
  | ServiceSAN => ivdsservicesan.base
  | VDiskProvider => ivdsvdprovider.base
  | FileScreenTemplate => ifsrmfilescreentemplate.base
  | AppHostPropertyCollection => iapphostpropertycollection.base
  | CatalogUtils2 => icatalogutils2.base
  | Nspi => nspi.base
  | Dhcpsrv2 => dhcpsrv2.base
  | WAMAdmin => iwamadmin.base
  | DataFactory3 => idatafactory3.base
  | AppHostPathMapper => iapphostpathmapper.base
  | AppHostElementCollection => iapphostelementcollection.base
  end.

Section Stubs.
Context {rt : Runtime}.

(** The conversions and syntax identifiers of all the packages. *)
Definition Converter (i : Interface) : Type :=
  Method i -> option Response -> Context -> Operation.

Definition XxxServerHandle (i : Interface)
  : Converter i -> Context -> Server -> Z -> Reader ->
    Prog (RequestType i) (Method i) (Operation * error) :=
  match i with
  | WindowsShutdown =>
      windowsshutdown.WindowsShutdownServerHandle
  | ServiceSAN =>
      ivdsservicesan.ServiceSANServerHandle
  | VDiskProvider =>
      ivdsvdprovider.VDiskProviderServerHandle
  | FileScreenTemplate =>
      ifsrmfilescreentemplate.FileScreenTemplateServerHandle
  | AppHostPropertyCollection =>
      iapphostpropertycollection.AppHostPropertyCollectionServerHandle
  | CatalogUtils2 =>
      icatalogutils2.CatalogUtils2ServerHandle
  | Nspi =>
      nspi.NspiServerHandle
  | Dhcpsrv2 =>
      dhcpsrv2.Dhcpsrv2ServerHandle
  | WAMAdmin =>
      iwamadmin.WAMAdminServerHandle
  | DataFactory3 =>
      idatafactory3.DataFactory3ServerHandle
  | AppHostPathMapper =>
      iapphostpathmapper.AppHostPathMapperServerHandle
  | AppHostElementCollection =>
      iapphostelementcollection.AppHostElementCollectionServerHandle
  end.

Definition NewXxxServerHandle (i : Interface)
  : Converter i -> Server -> ServerHandle (RequestType i) (Method i) :=
  match i with
  | WindowsShutdown =>
      windowsshutdown.NewWindowsShutdownServerHandle
  | ServiceSAN =>
      ivdsservicesan.NewServiceSANServerHandle
  | VDiskProvider =>
      ivdsvdprovider.NewVDiskProviderServerHandle
  | FileScreenTemplate =>
      ifsrmfilescreentemplate.NewFileScreenTemplateServerHandle
  | AppHostPropertyCollection =>
      iapphostpropertycollection.NewAppHostPropertyCollectionServerHandle
  | CatalogUtils2 =>
      icatalogutils2.NewCatalogUtils2ServerHandle
  | Nspi =>
      nspi.NewNspiServerHandle
  | Dhcpsrv2 =>
      dhcpsrv2.NewDhcpsrv2ServerHandle
  | WAMAdmin =>
      iwamadmin.NewWAMAdminServerHandle
  | DataFactory3 =>
      idatafactory3.NewDataFactory3ServerHandle
  | AppHostPathMapper =>
      iapphostpathmapper.NewAppHostPathMapperServerHandle
  | AppHostElementCollection =>
      iapphostelementcollection.NewAppHostElementCollectionServerHandle
  end.

Definition RegisterXxxServer (i : Interface)
  : Converter i -> SyntaxID -> forall C : Type, Conn C -> Server ->
    list Option -> C -> C :=
  match i with
  | WindowsShutdown =>
      @windowsshutdown.RegisterWindowsShutdownServer rt
  | ServiceSAN =>
      @ivdsservicesan.RegisterServiceSANServer rt
  | VDiskProvider =>
      @ivdsvdprovider.RegisterVDiskProviderServer rt
  | FileScreenTemplate =>
      @ifsrmfilescreentemplate.RegisterFileScreenTemplateServer rt
  | AppHostPropertyCollection =>
      @iapphostpropertycollection.RegisterAppHostPropertyCollectionServer rt
  | CatalogUtils2 =>
      @icatalogutils2.RegisterCatalogUtils2Server rt
  | Nspi =>
      @nspi.RegisterNspiServer rt
  | Dhcpsrv2 =>
      @dhcpsrv2.RegisterDhcpsrv2Server rt
  | WAMAdmin =>
      @iwamadmin.RegisterWAMAdminServer rt
  | DataFactory3 =>
      @idatafactory3.RegisterDataFactory3Server rt
  | AppHostPathMapper =>
      @iapphostpathmapper.RegisterAppHostPathMapperServer rt
  | AppHostElementCollection =>
      @iapphostelementcollection.RegisterAppHostElementCollectionServer rt
  end.
End Stubs.

Arguments request_of i m : clear implicits.
Arguments opnum_of i m : clear implicits.
Arguments XxxServerHandle {rt} i cv ctx o opNum r.
Arguments NewXxxServerHandle {rt} i cv o.
Arguments RegisterXxxServer {rt} i cv syntax {C} conn o opts c.

(** ** Notions the properties are stated with *)

(** [count] consecutive opnums from [first] on. *)
Fixpoint consecutive (first : Z) (count : nat) : list Z :=
  match count with
  | O => []
  | S n => first :: consecutive (first + 1) n
  end.

(** The first opnum a stub handles itself. *)
Definition first_own (i : Interface) : Z :=
  match base i with
  | Some (_, n) => n
  | None => 0
  end.

(** The case labels under which no request is decoded: opnum 15 of Nspi,
    "Opnum15NotUsedOnWire". *)
Definition reserved (i : Interface) (opNum : Z) : bool :=
  match i with
  | Nspi => opNum =? 15
  | _ => false
  end.

Section Notions.
Context {rt : Runtime}.

(** The contract as the specification words it: an operation object with
    a nil error, or a nil object with a non-nil error. *)
Definition contract_as_stated (res : Operation * error) : Prop :=
  (exists op, res = (Some op, None)) \/ (exists e, res = (None, Some e)).

(** Two environments, each over its own world, behave the same on worlds
    related by [sim]: every callee returns the same values and leaves
    related worlds. *)
Definition same_step (A W1 W2 : Type) (sim : W1 -> W2 -> Prop)
           (x : A * error * W1) (y : A * error * W2) : Prop :=
  fst (fst x) = fst (fst y) /\ snd (fst x) = snd (fst y)
  /\ sim (snd x) (snd y).

Definition same_behaviour (RT M W1 W2 : Type) (sim : W1 -> W2 -> Prop)
           (env1 : Env RT M W1) (env2 : Env RT M W2) : Prop :=
  (forall T ctx r w1 w2, sim w1 w2 ->
     same_step sim (unmarshal env1 T ctx r w1) (unmarshal env2 T ctx r w2))
  /\ (forall o m ctx in_ w1 w2, sim w1 w2 ->
        same_step sim (invoke env1 o m ctx in_ w1)
                      (invoke env2 o m ctx in_ w2))
  /\ (forall b ctx o opNum r w1 w2, sim w1 w2 ->
        same_step sim (base_handle env1 b ctx o opNum r w1)
                      (base_handle env2 b ctx o opNum r w2)).

(** The shapes a stub's trace can have. *)
Inductive stub_trace (RT M : Type) (ctx : Context) (o : Server)
          (opNum : Z) (r : Reader) : list (Event RT M) -> Prop :=
| trace_nothing : stub_trace ctx o opNum r []
| trace_decode T : stub_trace ctx o opNum r [EvUnmarshalNDR T ctx r]
| trace_decode_call T m in_ :
    stub_trace ctx o opNum r [EvUnmarshalNDR T ctx r; EvCall o m ctx in_]
| trace_delegate b : stub_trace ctx o opNum r [EvDelegate b ctx o opNum r].
End Notions.

(** ** A small runtime to execute the stubs on

    The reader holds a list of bytes; a request structure is decoded from
    one byte, and decoding an empty reader fails with status 1783
    (RPC_X_BAD_STUB_DATA).  The server counts the calls it serves and
    answers with the byte it was sent; it also returns error 5
    (ERROR_ACCESS_DENIED) when that byte is 5.  A nil response is converted
    to an operation of its own, as a non-nil one is. *)
Module Example.

Record World : Set := {
  buffer : list Z;  (* what is left in the reader *)
  served : Z        (* the calls the server has handled *)
}.

Definition rt : Runtime := {|
  Context := unit;
  Reader := unit;
  Server := unit;
  Request := Z;
  Response := Z;
  Err := Z;
  Op := Z;
  SyntaxID := Z;
  Option := Z;
  WithAbstractSyntax := fun s => s
|}.
#[local] Existing Instance rt.

Definition xxx_ToOp (M : Type) (m : M) (resp : option Z) (ctx : unit)
  : option Z :=
  match resp with
  | Some v => Some v
  | None => Some 0
  end.

Definition env (RT M : Type) : Env RT M World := {|
  unmarshal := fun _ _ _ w =>
    match buffer w with
    | [] => (0, Some 1783, w)
    | b :: bs => (b, None, {| buffer := bs; served := served w |})
    end;
  invoke := fun _ _ _ in_ w =>
    (Some in_, if in_ =? 5 then Some 5 else None,
     {| buffer := buffer w; served := served w + 1 |});
  base_handle := fun _ _ _ opNum _ w => (Some opNum, None, w)
|}.

Definition env_of (i : Interface) : Env (RequestType i) (Method i) World :=
  env (RequestType i) (Method i).

(** The same server, counting down instead of up. *)
Definition env' (RT M : Type) : Env RT M World := {|
  unmarshal := unmarshal (env RT M);
  invoke := fun _ _ _ in_ w =>
    (Some in_, if in_ =? 5 then Some 5 else None,
     {| buffer := buffer w; served := served w - 1 |});
  base_handle := base_handle (env RT M)
|}.

Definition env'_of (i : Interface) : Env (RequestType i) (Method i) World :=
  env' (RequestType i) (Method i).

(** Worlds whose readers hold the same bytes. *)
Definition same_buffer (w1 w2 : World) : Prop := buffer w1 = buffer w2.

Definition start (bytes : list Z) : World :=
  {| buffer := bytes; served := 0 |}.

(** The dispatch function of interface [i] run at [opNum] on a reader
    holding [bytes]. *)
Definition handled (i : Interface) (opNum : Z) (bytes : list Z)
  : Outcome (RequestType i) (Method i) World (option Z * option Z) :=
  run (env_of i)
      (XxxServerHandle i (@xxx_ToOp (Method i)) tt tt opNum tt)
      (start bytes).

(** A connection that records what is registered with it. *)
Definition recording : Conn (list (list Z)) :=
  {| RegisterServer := fun _ _ _ opts c => opts :: c |}.
End Example.

(** ** What the doc comments of the interface declarations say

    The methods of [Dhcpsrv2Server] and [WAMAdminServer] carry the line
    "The opnum field value for this method is N." in their doc comments;
    the other interface declarations state no opnum. *)
Definition dhcpsrv2_documented_opnum (m : dhcpsrv2.Method) : option Z :=
  match m with
  | dhcpsrv2.EnumSubnetClientsV5 => Some 0
  | dhcpsrv2.SetMScopeInfo => Some 1
  | dhcpsrv2.GetMScopeInfo => Some 2
  | dhcpsrv2.EnumMScopes => Some 3
  | dhcpsrv2.AddMScopeElement => Some 4
  | dhcpsrv2.EnumMScopeElements => Some 5
  | dhcpsrv2.RemoveMScopeElement => Some 6
  | dhcpsrv2.DeleteMScope => Some 7
  | dhcpsrv2.ScanMDatabase => Some 8
  | dhcpsrv2.CreateMClientInfo => Some 9
  | dhcpsrv2.SetMClientInfo => Some 10
  | dhcpsrv2.GetMClientInfo => Some 11
  | dhcpsrv2.DeleteMClientInfo => Some 12
  | dhcpsrv2.EnumMScopeClients => Some 13
  | dhcpsrv2.CreateOptionV5 => Some 14
  | dhcpsrv2.SetOptionInfoV5 => Some 15
  | dhcpsrv2.GetOptionInfoV5 => Some 16
  | dhcpsrv2.EnumOptionsV5 => Some 17
  | dhcpsrv2.RemoveOptionV5 => Some 18
  | dhcpsrv2.SetOptionValueV5 => Some 19
  | dhcpsrv2.SetOptionValuesV5 => Some 20
  | dhcpsrv2.GetOptionValueV5 => Some 21
  | dhcpsrv2.EnumOptionValuesV5 => Some 22
  | dhcpsrv2.RemoveOptionValueV5 => Some 23
  | dhcpsrv2.CreateClass => Some 24
  | dhcpsrv2.ModifyClass => Some 25
  | dhcpsrv2.DeleteClass => Some 26
  | dhcpsrv2.GetClassInfo => Some 27
  | dhcpsrv2.EnumClasses => Some 28
  | dhcpsrv2.GetAllOptions => Some 29
  | dhcpsrv2.GetAllOptionValues => Some 30
  | dhcpsrv2.GetMCastMIBInfo => Some 31
  | dhcpsrv2.AuditLogSetParams => Some 32
  | dhcpsrv2.AuditLogGetParams => Some 33
  | dhcpsrv2.ServerQueryAttribute => Some 34
  | dhcpsrv2.ServerQueryAttributes => Some 35
  | dhcpsrv2.ServerRedoAuthorization => Some 36
  | dhcpsrv2.AddSubnetElementV5 => Some 37
  | dhcpsrv2.EnumSubnetElementsV5 => Some 38
  | dhcpsrv2.RemoveSubnetElementV5 => Some 39
  | dhcpsrv2.GetServerBindingInfo => Some 40
  | dhcpsrv2.SetServerBindingInfo => Some 41
  | dhcpsrv2.QueryDNSRegCredentials => Some 42
  | dhcpsrv2.SetDNSRegCredentials => Some 43
  | dhcpsrv2.BackupDatabase => Some 44
  | dhcpsrv2.RestoreDatabase => Some 45
  | dhcpsrv2.GetServerSpecificStrings => Some 46
  | dhcpsrv2.CreateOptionV6 => Some 47
  | dhcpsrv2.SetOptionInfoV6 => Some 48
  | dhcpsrv2.GetOptionInfoV6 => Some 49
  | dhcpsrv2.EnumOptionsV6 => Some 50
  | dhcpsrv2.RemoveOptionV6 => Some 51
  | dhcpsrv2.SetOptionValueV6 => Some 52
  | dhcpsrv2.EnumOptionValuesV6 => Some 53
  | dhcpsrv2.RemoveOptionValueV6 => Some 54
  | dhcpsrv2.GetAllOptionsV6 => Some 55
  | dhcpsrv2.GetAllOptionValuesV6 => Some 56
  | dhcpsrv2.CreateSubnetV6 => Some 57
  | dhcpsrv2.EnumSubnetsV6 => Some 58
  | dhcpsrv2.AddSubnetElementV6 => Some 59
  | dhcpsrv2.EnumSubnetElementsV6 => Some 60
  | dhcpsrv2.RemoveSubnetElementV6 => Some 61
  | dhcpsrv2.DeleteSubnetV6 => Some 62
  | dhcpsrv2.GetSubnetInfoV6 => Some 63
  | dhcpsrv2.EnumSubnetClientsV6 => Some 64
  | dhcpsrv2.ServerSetConfigV6 => Some 65
  | dhcpsrv2.ServerGetConfigV6 => Some 66
  | dhcpsrv2.SetSubnetInfoV6 => Some 67
  | dhcpsrv2.GetMIBInfoV6 => Some 68
  | dhcpsrv2.GetServerBindingInfoV6 => Some 69
  | dhcpsrv2.SetServerBindingInfoV6 => Some 70
  | dhcpsrv2.SetClientInfoV6 => Some 71
  | dhcpsrv2.GetClientInfoV6 => Some 72
  | dhcpsrv2.DeleteClientInfoV6 => Some 73
  | dhcpsrv2.CreateClassV6 => Some 74
  | dhcpsrv2.ModifyClassV6 => Some 75
  | dhcpsrv2.DeleteClassV6 => Some 76
  | dhcpsrv2.EnumClassesV6 => Some 77
  | dhcpsrv2.GetOptionValueV6 => Some 78
  | dhcpsrv2.SetSubnetDelayOffer => Some 79
  | dhcpsrv2.GetSubnetDelayOffer => Some 80
  | dhcpsrv2.GetMIBInfoV5 => Some 81
  | dhcpsrv2.AddFilterV4 => Some 82
  | dhcpsrv2.DeleteFilterV4 => Some 83
  | dhcpsrv2.SetFilterV4 => Some 84
  | dhcpsrv2.GetFilterV4 => Some 85
  | dhcpsrv2.EnumFilterV4 => Some 86
  | dhcpsrv2.SetDNSRegCredentialsV5 => Some 87
  | dhcpsrv2.EnumSubnetClientsFilterStatusInfo => Some 88
  | dhcpsrv2.FailoverCreateRelationshipV4 => Some 89
  | dhcpsrv2.FailoverSetRelationshipV4 => Some 90
  | dhcpsrv2.FailoverDeleteRelationshipV4 => Some 91
  | dhcpsrv2.FailoverGetRelationshipV4 => Some 92
  | dhcpsrv2.FailoverEnumRelationshipV4 => Some 93
  | dhcpsrv2.FailoverAddScopeToRelationshipV4 => Some 94
  | dhcpsrv2.FailoverDeleteScopeFromRelationshipV4 => Some 95
  | dhcpsrv2.FailoverGetScopeRelationshipV4 => Some 96
  | dhcpsrv2.FailoverGetScopeStatisticsV4 => Some 97
  | dhcpsrv2.FailoverGetClientInfoV4 => Some 98
  | dhcpsrv2.FailoverGetSystemTimeV4 => Some 99
  | dhcpsrv2.FailoverTriggerAddrAllocationV4 => Some 100
  | dhcpsrv2.SetOptionValueV4 => Some 101
  | dhcpsrv2.SetOptionValuesV4 => Some 102
  | dhcpsrv2.GetOptionValueV4 => Some 103
  | dhcpsrv2.RemoveOptionValueV4 => Some 104
  | dhcpsrv2.GetAllOptionValuesV4 => Some 105
  | dhcpsrv2.QueryPolicyEnforcementV4 => Some 106
  | dhcpsrv2.SetPolicyEnforcementV4 => Some 107
  | dhcpsrv2.CreatePolicyV4 => Some 108
  | dhcpsrv2.GetPolicyV4 => Some 109
  | dhcpsrv2.SetPolicyV4 => Some 110
  | dhcpsrv2.DeletePolicyV4 => Some 111
  | dhcpsrv2.EnumPoliciesV4 => Some 112
  | dhcpsrv2.AddPolicyRangeV4 => Some 113
  | dhcpsrv2.RemovePolicyRangeV4 => Some 114
  | dhcpsrv2.EnumSubnetClientsV4 => None
  | dhcpsrv2.SetStatelessStoreParamsV6 => Some 116
  | dhcpsrv2.GetStatelessStoreParamsV6 => Some 117
  | dhcpsrv2.GetStatelessStatisticsV6 => Some 118
  | dhcpsrv2.EnumSubnetReservationsV4 => Some 119
  | dhcpsrv2.GetFreeIPAddressV4 => Some 120
  | dhcpsrv2.GetFreeIPAddressV6 => Some 121
  | dhcpsrv2.CreateClientInfoV4 => Some 122
  | dhcpsrv2.GetClientInfoV4 => Some 123
  | dhcpsrv2.CreateClientInfoV6 => Some 124
  | dhcpsrv2.FailoverGetAddressStatusV4 => Some 125
  | dhcpsrv2.CreatePolicyExV4 => Some 126
  | dhcpsrv2.GetPolicyExV4 => Some 127
  | dhcpsrv2.SetPolicyExV4 => Some 128
  | dhcpsrv2.EnumPoliciesExV4 => Some 129
  | dhcpsrv2.EnumSubnetClientsExV4 => Some 130
  | dhcpsrv2.CreateClientInfoExV4 => None
  | dhcpsrv2.GetClientInfoExV4 => Some 132
  end.

Definition iwamadmin_documented_opnum (m : iwamadmin.Method) : option Z :=
  match m with
  | iwamadmin.AppCreate => Some 3
  | iwamadmin.AppDelete => Some 4
  | iwamadmin.AppUnload => Some 5
  | iwamadmin.AppGetStatus => Some 6
  | iwamadmin.AppDeleteRecoverable => Some 7
  | iwamadmin.AppRecover => Some 8
  end.

Definition documented_opnum (i : Interface) : Method i -> option Z :=
  match i with
  | Dhcpsrv2 => dhcpsrv2_documented_opnum
  | WAMAdmin => iwamadmin_documented_opnum
  | _ => fun _ => None
  end.
Arguments documented_opnum i m : clear implicits.

(** ** Option slices in memory

    [RegisterXxxServer] receives its options as a slice and passes
    [append(opts, dcerpc.WithAbstractSyntax(XxxSyntax))] on.  A slice is a
    window on a backing array: [append] writes into the array of its
    argument when the window can grow there, and into a new, larger array
    otherwise. *)

(** The list [l] with [x] stored at index [j], if it has one. *)
Fixpoint update (A : Type) (j : nat) (x : A) (l : list A) : list A :=
  match l, j with
  | [], _ => []
  | _ :: t, O => x :: t
  | y :: t, S j' => y :: update j' x t
  end.

Section Slices.
Context {rt : Runtime}.

(** The backing arrays allocated so far, by number. *)
Definition Heap : Type := list (list Option).

Record Slice : Set := {
  arr : nat;   (* the backing array *)
  off : nat;   (* where the window starts *)
  len : nat;   (* len(s) *)
  cap : nat    (* cap(s) *)
}.

Definition array (h : Heap) (a : nat) : list Option := nth a h [].

(** The elements s[0], ..., s[len(s)-1]. *)
Definition elems (h : Heap) (s : Slice) : list Option :=
  firstn (len s) (skipn (off s) (array h (arr s))).

(** A slice of the heap: its capacity lies within its array.  The nil
    slice, with no length and no capacity, is one of every heap. *)
Definition valid (h : Heap) (s : Slice) : Prop :=
  (len s <= cap s)%nat /\ (off s + cap s <= length (array h (arr s)))%nat.

(** What a new array holds beyond the appended element is the zero value
    of the element type; how many such cells there are is up to the
    runtime. *)
Variable spare : nat -> nat.
Variable zero : Option.

(** append(s, x) *)
Definition append (h : Heap) (s : Slice) (x : Option) : Heap * Slice :=
  if (len s <? cap s)%nat then
    (update (arr s) (update (off s + len s) x (array h (arr s))) h,
     {| arr := arr s; off := off s; len := S (len s); cap := cap s |})
  else
    (h ++ [elems h s ++ x :: repeat zero (spare (len s))],
     {| arr := length h; off := 0; len := S (len s);
        cap := S (len s + spare (len s)) |}).

(** [RegisterXxxServer(conn, o, opts...)] on a heap: the heap and the
    slice at the moment [conn.RegisterServer] is called, and the
    connection after the call, which is given the elements of that
    slice. *)
Definition RegisterXxxServer_in_memory (i : Interface) (cv : Converter i)
           (syntax : SyntaxID) (C : Type) (conn : Conn C) (o : Server)
           (opts : Slice) (h : Heap) (c : C) : Heap * Slice * C :=
  let '(h', all) := append h opts (WithAbstractSyntax syntax) in
  (h', all,
   RegisterServer conn (NewXxxServerHandle i cv o) (elems h' all) c).
End Slices.

Arguments RegisterXxxServer_in_memory {rt} spare zero i cv syntax {C} conn o
  opts h c.


(** A heap of the example runtime with one array of four options, the last
    two unused, and two slices of its first two cells: one that may grow
    into the array and one that may not. *)
Module ExampleMemory.
#[local] Existing Instance Example.rt.

Definition heap : Heap := [[1; 2; 0; 0]].

Definition roomy : Slice := {| arr := 0; off := 0; len := 2; cap := 4 |}.

Definition full : Slice := {| arr := 0; off := 0; len := 2; cap := 2 |}.

(** A runtime that doubles the room of a slice it moves. *)
Definition spare (n : nat) : nat := S n.

(** Register interface [i] with syntax [syntax] from the slice [opts]. *)
Definition register (i : Interface) (syntax : Z) (opts : Slice)
           (h : Heap) (c : list (list Z)) : Heap * Slice * list (list Z) :=
  RegisterXxxServer_in_memory spare 0 i (@Example.xxx_ToOp (Method i))
                              syntax Example.recording tt opts h c.
End ExampleMemory.

(** * Properties *)

(** ** Running programs *)
Section Running.
Context {rt : Runtime}.
Variables RT M W : Type.
Variable env : Env RT M W.

(** The world a program leaves is the one its traced calls leave. *)
Lemma run_replay (R : Type) (p : Prog RT M R) :
  forall w, world (run env p w) = replay env (trace (run env p w)) w.
Proof.
  induction p as [x | T ctx r k IH | o m ctx in_ k IH | b ctx o n r k IH];
    intro w; simpl.
  - reflexivity.
  - destruct (unmarshal env T ctx r w) as [[in_ err] w1] eqn:E.
    simpl. rewrite E. apply IH.
  - destruct (invoke env o m ctx in_ w) as [[resp err] w1] eqn:E.
    simpl. rewrite E. apply IH.
  - destruct (base_handle env b ctx o n r w) as [[op err] w1] eqn:E.
    simpl. rewrite E. apply IH.
Qed.

Variable xxx_ToOp : M -> option Response -> Context -> Operation.

Lemma run_decode_failed T m ctx o r w in_ e w1 :
  unmarshal env T ctx r w = (in_, Some e, w1) ->
  run env (decode_call_convert xxx_ToOp T m ctx o r) w
  = {| result := (None, Some e); world := w1;
       trace := [EvUnmarshalNDR T ctx r] |}.
Proof. intro E. simpl. rewrite E. reflexivity. Qed.

Lemma run_decoded T m ctx o r w in_ w1 resp err w2 :
  unmarshal env T ctx r w = (in_, None, w1) ->
  invoke env o m ctx in_ w1 = (resp, err, w2) ->
  run env (decode_call_convert xxx_ToOp T m ctx o r) w
  = {| result := (xxx_ToOp m resp ctx, err); world := w2;
       trace := [EvUnmarshalNDR T ctx r; EvCall o m ctx in_] |}.
Proof. intros E1 E2. simpl. rewrite E1. simpl. rewrite E2. reflexivity. Qed.

Lemma run_delegate b ctx o opNum r w :
  run env (delegate_to b ctx o opNum r) w
  = {| result := fst (base_handle env b ctx o opNum r w);
       world := snd (base_handle env b ctx o opNum r w);
       trace := [EvDelegate b ctx o opNum r] |}.
Proof.
  simpl. destruct (base_handle env b ctx o opNum r w) as [[op err] w1].
  reflexivity.
Qed.

(** What the table-driven dispatcher is, opnum by opnum. *)
Lemma dispatch_delegated base (table : list (Z * (RT * M))) ctx o opNum r b n :
  base = Some (b, n) -> opNum < n ->
  dispatch xxx_ToOp base table ctx o opNum r = delegate_to b ctx o opNum r.
Proof.
  intros -> H. unfold dispatch.
  apply Z.ltb_lt in H. rewrite H. reflexivity.
Qed.

Lemma dispatch_own base (table : list (Z * (RT * M))) ctx o opNum r :
  delegated base opNum = false ->
  dispatch xxx_ToOp base table ctx o opNum r
  = match lookup opNum table with
    | Some (T, m) => decode_call_convert xxx_ToOp T m ctx o r
    | None => Return (None, None)
    end.
Proof.
  unfold dispatch, delegated. destruct base as [[b n]|]; [|reflexivity].
  intros ->. reflexivity.
Qed.

Lemma dispatch_trace base (table : list (Z * (RT * M))) ctx o opNum r w :
  stub_trace ctx o opNum r
    (trace (run env (dispatch xxx_ToOp base table ctx o opNum r) w)).
Proof.
  assert (own : stub_trace ctx o opNum r
            (trace (run env
               match lookup opNum table with
               | Some (T, m) => decode_call_convert xxx_ToOp T m ctx o r
               | None => Return (None, None)
               end w))).
  { destruct (lookup opNum table) as [[T m]|]; [|constructor].
    simpl. destruct (unmarshal env T ctx r w) as [[in_ [e|]] w1]; simpl.
    - constructor.
    - destruct (invoke env o m ctx in_ w1) as [[resp err] w2]; simpl.
      constructor. }
  unfold dispatch. destruct base as [[b n]|]; [|exact own].
  destruct (opNum <? n); [|exact own].
  rewrite run_delegate. constructor.
Qed.
End Running.

(** Related worlds and equally behaving environments give equal results,
    equal traces and related worlds again. *)
Lemma run_simulation {rt : Runtime} (RT M W1 W2 R : Type)
      (sim : W1 -> W2 -> Prop) (env1 : Env RT M W1) (env2 : Env RT M W2) :
  same_behaviour sim env1 env2 ->
  forall (p : Prog RT M R) w1 w2, sim w1 w2 ->
    result (run env1 p w1) = result (run env2 p w2)
    /\ trace (run env1 p w1) = trace (run env2 p w2)
    /\ sim (world (run env1 p w1)) (world (run env2 p w2)).
Proof.
  intros (Hu & Hi & Hb).
  induction p as [x | T ctx r k IH | o m ctx in_ k IH | b ctx o n r k IH];
    intros w1 w2 Hw; simpl.
  - auto.
  - specialize (Hu T ctx r w1 w2 Hw).
    destruct (unmarshal env1 T ctx r w1) as [[i1 e1] v1].
    destruct (unmarshal env2 T ctx r w2) as [[i2 e2] v2].
    destruct Hu as (Ha & Hb' & Hs). simpl in *. subst i2 e2.
    destruct (IH i1 e1 v1 v2 Hs) as (? & ? & ?).
    repeat split; simpl; congruence || assumption.
  - specialize (Hi o m ctx in_ w1 w2 Hw).
    destruct (invoke env1 o m ctx in_ w1) as [[i1 e1] v1].
    destruct (invoke env2 o m ctx in_ w2) as [[i2 e2] v2].
    destruct Hi as (Ha & Hb' & Hs). simpl in *. subst i2 e2.
    destruct (IH i1 e1 v1 v2 Hs) as (? & ? & ?).
    repeat split; simpl; congruence || assumption.
  - specialize (Hb b ctx o n r w1 w2 Hw).
    destruct (base_handle env1 b ctx o n r w1) as [[i1 e1] v1].
    destruct (base_handle env2 b ctx o n r w2) as [[i2 e2] v2].
    destruct Hb as (Ha & Hb' & Hs). simpl in *. subst i2 e2.
    destruct (IH i1 e1 v1 v2 Hs) as (? & ? & ?).
    repeat split; simpl; congruence || assumption.
Qed.

(** ** Lookup tables *)
Section Tables.
Variable A : Type.

Lemma lookup_In (t : list (Z * A)) opNum a :
  lookup opNum t = Some a -> In (opNum, a) t.
Proof.
  induction t as [|[n b] t IH]; simpl; [discriminate|].
  destruct (opNum =? n) eqn:E.
  - apply Z.eqb_eq in E. intros [= ->]. left. congruence.
  - intro H. right. auto.
Qed.

Lemma lookup_None (t : list (Z * A)) opNum :
  ~ In opNum (map fst t) -> lookup opNum t = None.
Proof.
  induction t as [|[n b] t IH]; simpl; [reflexivity|].
  intro H. destruct (opNum =? n) eqn:E.
  - apply Z.eqb_eq in E. exfalso. apply H. left. congruence.
  - apply IH. intro. apply H. right. assumption.
Qed.

Lemma In_consecutive count : forall first n,
  In n (consecutive first count) <-> first <= n < first + Z.of_nat count.
Proof.
  induction count as [|c IH]; intros first n; simpl consecutive.
  - simpl. lia.
  - simpl In. rewrite IH. lia.
Qed.

Lemma NoDup_consecutive count : forall first, NoDup (consecutive first count).
Proof.
  induction count as [|c IH]; intro first; simpl; constructor.
  - rewrite In_consecutive. lia.
  - apply IH.
Qed.
End Tables.

(** ** The stubs against the table-driven dispatcher *)
Section Refinement.
Context {rt : Runtime}.

(** Case analysis on the low eight bits of an opnum: every case label of
    the repository is below 256. *)
Ltac by_opnum_bits opNum :=
  let p := fresh "p" in
  destruct opNum as [|p|p]; try reflexivity;
  do 8 (try (destruct p as [p|p|]; try reflexivity)).

(** Each generated switch is the table-driven dispatcher of its table. *)
Lemma stub_refines i (cv : Converter i) ctx o opNum r :
  XxxServerHandle i cv ctx o opNum r
  = dispatch cv (base i) (table i) ctx o opNum r.
Proof. destruct i; by_opnum_bits opNum. Qed.

Lemma table_opnums i :
  Forall (fun e => opnum_of i (snd (snd e)) = fst e
                   /\ fst (snd e) = request_of i (snd (snd e))) (table i).
Proof. destruct i; repeat constructor. Qed.

Lemma table_complete i m :
  lookup (opnum_of i m) (table i) = Some (request_of i m, m).
Proof. destruct i; destruct m; reflexivity. Qed.

Lemma labels_consecutive i :
  case_labels i = consecutive (first_own i) (length (case_labels i)).
Proof. destruct i; reflexivity. Qed.

Lemma table_labels i :
  map fst (table i)
  = filter (fun n => negb (reserved i n)) (case_labels i).
Proof. destruct i; reflexivity. Qed.

Lemma table_above_base i :
  forallb (fun e => negb (delegated (base i) (fst e))) (table i) = true.
Proof. destruct i; reflexivity. Qed.

Lemma lookup_known i opNum T m :
  lookup opNum (table i) = Some (T, m) ->
  In opNum (case_labels i) /\ reserved i opNum = false
  /\ delegated (base i) opNum = false
  /\ opnum_of i m = opNum /\ T = request_of i m.
Proof.
  intro H. apply lookup_In in H.
  assert (L : In opNum (map fst (table i)))
    by (apply in_map_iff; exists (opNum, (T, m)); auto).
  rewrite table_labels in L. apply filter_In in L. destruct L as [L1 L2].
  apply negb_true_iff in L2.
  pose proof (table_above_base i) as B. rewrite forallb_forall in B.
  specialize (B _ H). apply negb_true_iff in B. simpl in B.
  pose proof (table_opnums i) as O. rewrite Forall_forall in O.
  destruct (O _ H) as [O1 O2]. simpl in O1, O2.
  auto.
Qed.

Lemma label_known i opNum :
  In opNum (case_labels i) -> reserved i opNum = false ->
  exists T m, lookup opNum (table i) = Some (T, m).
Proof.
  intros L R.
  assert (I : In opNum (map fst (table i))).
  { rewrite table_labels. apply filter_In. split; [assumption|].
    rewrite R. reflexivity. }
  destruct (lookup opNum (table i)) as [[T m]|] eqn:E; [eauto|].
  exfalso. clear L R. induction (table i) as [|[n a] t IH]; simpl in *.
  - assumption.
  - destruct (opNum =? n) eqn:N; [discriminate|].
    apply Z.eqb_neq in N. destruct I as [I|I]; [congruence|auto].
Qed.

Lemma unknown_label i opNum :
  ~ In opNum (case_labels i) -> lookup opNum (table i) = None.
Proof.
  intro H. apply lookup_None. rewrite table_labels.
  intro I. apply filter_In in I. tauto.
Qed.

(** The three ways a stub treats an opnum. *)
Lemma handle_delegated i (cv : Converter i) ctx o opNum r b n :
  base i = Some (b, n) -> opNum < n ->
  XxxServerHandle i cv ctx o opNum r = delegate_to b ctx o opNum r.
Proof.
  intros B L. rewrite stub_refines. eapply dispatch_delegated; eauto.
Qed.

Lemma handle_known i (cv : Converter i) ctx o opNum r T m :
  lookup opNum (table i) = Some (T, m) ->
  XxxServerHandle i cv ctx o opNum r = decode_call_convert cv T m ctx o r.
Proof.
  intro H. rewrite stub_refines, dispatch_own, H; [reflexivity|].
  apply lookup_known in H. tauto.
Qed.

Lemma handle_unknown i (cv : Converter i) ctx o opNum r :
  delegated (base i) opNum = false -> lookup opNum (table i) = None ->
  XxxServerHandle i cv ctx o opNum r = Return (None, None).
Proof.
  intros D H. rewrite stub_refines, dispatch_own, H; auto.
Qed.

Lemma delegated_cases i opNum :
  (exists b n, base i = Some (b, n) /\ opNum < n)
  \/ delegated (base i) opNum = false.
Proof.
  unfold delegated. destruct (base i) as [[b n]|]; [|auto].
  destruct (opNum <? n) eqn:E; [|auto].
  left. exists b, n. split; [reflexivity|]. apply Z.ltb_lt. assumption.
Qed.
End Refinement.

(** ** What the dispatch functions guarantee *)
Section Dispatchers.
Context {rt : Runtime}.

(** C1, as the code has it: an invocation of a dispatch function ends in
    one of four ways.  Below the bound of a derived interface the result
    is the one of the base dispatcher.  An opnum without a decoding case
    gives (nil, nil).  A failed decoding gives nil and the decoder's
    non-nil error.  Otherwise the result is the converted response of the
    handler together with the handler's error, which may be non-nil
    beside the operation object. *)
Theorem dispatch_outcomes (i : Interface) (cv : Converter i) ctx o opNum r
        (W : Type) (env : Env (RequestType i) (Method i) W) (w : W) :
  let out := run env (XxxServerHandle i cv ctx o opNum r) w in
  (exists b n, base i = Some (b, n) /\ opNum < n
               /\ result out = fst (base_handle env b ctx o opNum r w))
  \/ (delegated (base i) opNum = false
      /\ lookup opNum (table i) = None
      /\ result out = (None, None))
  \/ (exists T m in_ e w1,
        lookup opNum (table i) = Some (T, m)
        /\ unmarshal env T ctx r w = (in_, Some e, w1)
        /\ result out = (None, Some e))
  \/ (exists T m in_ w1 resp err w2,
        lookup opNum (table i) = Some (T, m)
        /\ unmarshal env T ctx r w = (in_, None, w1)
        /\ invoke env o m ctx in_ w1 = (resp, err, w2)
        /\ result out = (cv m resp ctx, err)).
Proof.
  intro out. subst out.
  destruct (delegated_cases i opNum) as [(b & n & B & L)|D].
  - left. exists b, n. repeat split; try assumption.
    erewrite handle_delegated by eassumption. rewrite run_delegate. reflexivity.
  - right. destruct (lookup opNum (table i)) as [[T m]|] eqn:E.
    + right. erewrite handle_known by eassumption.
      destruct (unmarshal env T ctx r w) as [[in_ [e|]] w1] eqn:U.
      * left. exists T, m, in_, e, w1. repeat split; try assumption.
        erewrite run_decode_failed by eassumption. reflexivity.
      * right.
        destruct (invoke env o m ctx in_ w1) as [[resp err] w2] eqn:V.
        exists T, m, in_, w1, resp, err, w2. repeat split; try assumption.
        erewrite run_decoded by eassumption. reflexivity.
    + left. erewrite handle_unknown by eassumption. auto.
Qed.

(** C2: an opnum that is not handed to the base dispatcher and has no
    entry in the table of the interface gives (nil, nil); nothing is
    decoded, no handler is called and the world is left as it was. *)
Theorem unknown_opnum_nil_nil (i : Interface) (cv : Converter i) ctx o
        opNum r :
  delegated (base i) opNum = false ->
  lookup opNum (table i) = None ->
  XxxServerHandle i cv ctx o opNum r = Return (None, None)
  /\ forall (W : Type) (env : Env (RequestType i) (Method i) W) (w : W),
       run env (XxxServerHandle i cv ctx o opNum r) w
       = {| result := (None, None); world := w; trace := [] |}.
Proof.
  intros D E. erewrite handle_unknown by eassumption.
  split; reflexivity.
Qed.

(** C3: for an opnum of the table, a decoding that fails with error [e]
    makes the dispatch function return (nil, e) at once: the request is
    decoded once, no handler is called, and the world is the one the
    decoder left. *)
Theorem decode_failure_propagates (i : Interface) (cv : Converter i) ctx o
        opNum r T m (W : Type) (env : Env (RequestType i) (Method i) W)
        (w : W) in_ e w1 :
  lookup opNum (table i) = Some (T, m) ->
  unmarshal env T ctx r w = (in_, Some e, w1) ->
  let out := run env (XxxServerHandle i cv ctx o opNum r) w in
  result out = (None, Some e)
  /\ handler_calls (trace out) = []
  /\ decodings (trace out) = [T]
  /\ trace out = [EvUnmarshalNDR T ctx r]
  /\ world out = w1.
Proof.
  intros E U out. subst out.
  erewrite handle_known by eassumption.
  erewrite run_decode_failed by eassumption.
  repeat split.
Qed.

(** C4: for an opnum of the table whose request decodes, the error the
    dispatch function returns is the error the handler returned. *)
Theorem handler_error_verbatim (i : Interface) (cv : Converter i) ctx o
        opNum r T m (W : Type) (env : Env (RequestType i) (Method i) W)
        (w : W) in_ w1 resp err w2 :
  lookup opNum (table i) = Some (T, m) ->
  unmarshal env T ctx r w = (in_, None, w1) ->
  invoke env o m ctx in_ w1 = (resp, err, w2) ->
  snd (result (run env (XxxServerHandle i cv ctx o opNum r) w)) = err.
Proof.
  intros E U V.
  erewrite handle_known by eassumption.
  erewrite run_decoded by eassumption. reflexivity.
Qed.

(** C5: for an opnum of the table whose request decodes, the dispatch
    function calls one handler method once, the method of that opnum on
    the decoded request, and returns the [xxx_ToOp] conversion of the
    response of that call. *)
Theorem one_call_one_response (i : Interface) (cv : Converter i) ctx o
        opNum r T m (W : Type) (env : Env (RequestType i) (Method i) W)
        (w : W) in_ w1 resp err w2 :
  lookup opNum (table i) = Some (T, m) ->
  unmarshal env T ctx r w = (in_, None, w1) ->
  invoke env o m ctx in_ w1 = (resp, err, w2) ->
  let out := run env (XxxServerHandle i cv ctx o opNum r) w in
  handler_calls (trace out) = [(o, m, in_)]
  /\ fst (result out) = cv m resp ctx
  /\ decodings (trace out) = [request_of i m]
  /\ trace out = [EvUnmarshalNDR T ctx r; EvCall o m ctx in_]
  /\ world out = w2.
Proof.
  intros E U V out. subst out.
  erewrite handle_known by eassumption.
  erewrite run_decoded by eassumption.
  apply lookup_known in E. destruct E as (_ & _ & _ & _ & ->).
  repeat split.
Qed.

(** C6, as the code has it: the case labels of a dispatch function are
    consecutive opnums from its first own opnum on.  Each label has one
    request structure and one method, the request structure being the
    one the method takes, except the label 15 of Nspi, under which
    nothing is decoded and nothing is called.  No run at a label calls
    another method than the one of the label, two labels never share a
    method, every method of the interface has its label, and an opnum
    that is no label has no entry.  WindowsShutdown has the labels 0 and
    1, Dhcpsrv2 the labels 0 to 132. *)
Theorem opnum_table (i : Interface) :
  case_labels i = consecutive (first_own i) (length (case_labels i))
  /\ NoDup (case_labels i)
  /\ (forall opNum, In opNum (case_labels i) ->
        (exists T m,
            lookup opNum (table i) = Some (T, m)
            /\ T = request_of i m
            /\ opnum_of i m = opNum
            /\ (forall (cv : Converter i) ctx o r,
                  XxxServerHandle i cv ctx o opNum r
                  = decode_call_convert cv T m ctx o r)
            /\ (forall (cv : Converter i) ctx o r (W : Type)
                       (env : Env (RequestType i) (Method i) W) (w : W)
                       c,
                  In c (handler_calls
                          (trace (run env
                             (XxxServerHandle i cv ctx o opNum r) w))) ->
                  snd (fst c) = m))
        \/ (i = Nspi /\ opNum = 15
            /\ lookup opNum (table i) = None
            /\ forall (cv : Converter i) ctx o r,
                 XxxServerHandle i cv ctx o opNum r = Return (None, None)))
  /\ (forall n1 n2 T1 T2 m,
        lookup n1 (table i) = Some (T1, m) ->
        lookup n2 (table i) = Some (T2, m) -> n1 = n2)
  /\ (forall m, lookup (opnum_of i m) (table i) = Some (request_of i m, m))
  /\ (forall opNum, ~ In opNum (case_labels i) ->
        lookup opNum (table i) = None)
  /\ case_labels WindowsShutdown = [0; 1]
  /\ case_labels Dhcpsrv2 = consecutive 0 133.
Proof.
  split; [apply labels_consecutive|].
  split; [rewrite labels_consecutive; apply NoDup_consecutive|].
  split.
  { intros opNum L. destruct (reserved i opNum) eqn:R.
    - right. destruct i; try discriminate R.
      apply Z.eqb_eq in R. subst opNum.
      repeat split; reflexivity.
    - left. destruct (label_known _ _ L R) as (T & m & E).
      exists T, m. pose proof (lookup_known _ _ E) as K.
      destruct K as (_ & _ & _ & K1 & K2).
      repeat split; try assumption.
      + intros. apply handle_known. assumption.
      + intros cv ctx o r W env w c.
        erewrite handle_known by eassumption. simpl.
        destruct (unmarshal env T ctx r w) as [[in_ [e|]] w1]; simpl.
        * tauto.
        * destruct (invoke env o m ctx in_ w1) as [[resp err] w2]; simpl.
          intros [<-|[]]. reflexivity. }
  split.
  { intros n1 n2 T1 T2 m E1 E2.
    apply lookup_known in E1, E2.
    destruct E1 as (_ & _ & _ & <- & _). destruct E2 as (_ & _ & _ & <- & _).
    reflexivity. }
  split; [apply table_complete|].
  split; [apply unknown_label|].
  split; reflexivity.
Qed.

(** C7: whatever the opnum, a dispatch function does nothing but decode
    one request from the reader it was given and call one handler on the
    server it was given, or hand the call to the base dispatcher; the
    world it leaves is the one those calls leave.  Hence two runs on
    worlds that the decoder, the handlers and the base dispatcher cannot
    tell apart give the same result and the same calls, and leave worlds
    that still cannot be told apart. *)
Theorem dispatch_effects_confined (i : Interface) (cv : Converter i) ctx o
        opNum r (W1 W2 : Type) (sim : W1 -> W2 -> Prop)
        (env1 : Env (RequestType i) (Method i) W1)
        (env2 : Env (RequestType i) (Method i) W2) (w1 : W1) (w2 : W2) :
  same_behaviour sim env1 env2 ->
  sim w1 w2 ->
  let out1 := run env1 (XxxServerHandle i cv ctx o opNum r) w1 in
  let out2 := run env2 (XxxServerHandle i cv ctx o opNum r) w2 in
  stub_trace ctx o opNum r (trace out1)
  /\ (length (decodings (trace out1)) <= 1)%nat
  /\ (length (handler_calls (trace out1)) <= 1)%nat
  /\ world out1 = replay env1 (trace out1) w1
  /\ result out1 = result out2
  /\ trace out1 = trace out2
  /\ sim (world out1) (world out2).
Proof.
  intros B S out1 out2.
  assert (Tr : stub_trace ctx o opNum r (trace out1)).
  { subst out1. rewrite stub_refines. apply dispatch_trace. }
  split; [exact Tr|].
  split; [destruct Tr; simpl; lia|].
  split; [destruct Tr; simpl; lia|].
  split; [apply run_replay|].
  apply run_simulation; assumption.
Qed.

Lemma own_no_delegation (i : Interface) (cv : Converter i) ctx o opNum r
      (W : Type) (env : Env (RequestType i) (Method i) W) (w : W) :
  delegated (base i) opNum = false ->
  delegations (trace (run env (XxxServerHandle i cv ctx o opNum r) w)) = [].
Proof.
  intro D. destruct (lookup opNum (table i)) as [[T m]|] eqn:E.
  - erewrite handle_known by eassumption. simpl.
    destruct (unmarshal env T ctx r w) as [[in_ [e|]] w1]; simpl.
    + reflexivity.
    + destruct (invoke env o m ctx in_ w1) as [[resp err] w2]. reflexivity.
  - erewrite handle_unknown by eassumption. reflexivity.
Qed.

(** C8: a dispatch function of a derived interface hands every opnum
    below its bound to the dispatcher of the base interface, with the
    context, server, opnum and reader it was given, and returns what
    that dispatcher returns; at or above the bound it never calls the
    base dispatcher.  Every case label of its own switch is at or above
    the bound, and the bound is the first of them.  The bound is 18 with
    FileScreenBaseServerHandle for FileScreenTemplate, 9 with
    DataFactory2ServerHandle for DataFactory3, and 3 with
    UnknownServerHandle for the other derived interfaces. *)
Theorem base_opnums_delegated (i : Interface) b n :
  base i = Some (b, n) ->
  (forall (cv : Converter i) ctx o opNum r, opNum < n ->
     XxxServerHandle i cv ctx o opNum r = delegate_to b ctx o opNum r)
  /\ (forall (cv : Converter i) ctx o opNum r (W : Type)
             (env : Env (RequestType i) (Method i) W) (w : W),
        opNum < n ->
        run env (XxxServerHandle i cv ctx o opNum r) w
        = {| result := fst (base_handle env b ctx o opNum r w);
             world := snd (base_handle env b ctx o opNum r w);
             trace := [EvDelegate b ctx o opNum r] |})
  /\ (forall (cv : Converter i) ctx o opNum r (W : Type)
             (env : Env (RequestType i) (Method i) W) (w : W),
        n <= opNum ->
        delegations
          (trace (run env (XxxServerHandle i cv ctx o opNum r) w)) = [])
  /\ (forall opNum, In opNum (case_labels i) -> n <= opNum)
  /\ In n (case_labels i)
  /\ (b, n) = match i with
              | FileScreenTemplate =>
                  (ifsrmfilescreenbase_FileScreenBaseServerHandle, 18)
              | DataFactory3 => (idatafactory2_DataFactory2ServerHandle, 9)
              | _ => (iunknown_UnknownServerHandle, 3)
              end.
Proof.
  intro B.
  split; [intros; eapply handle_delegated; eassumption|].
  split.
  { intros. erewrite handle_delegated by eassumption. apply run_delegate. }
  split.
  { intros cv ctx o opNum r W env w L. apply own_no_delegation.
    unfold delegated. rewrite B. apply Z.ltb_ge. assumption. }
  assert (F : first_own i = n) by (unfold first_own; rewrite B; reflexivity).
  split.
  { intros opNum I. rewrite labels_consecutive, F in I.
    apply In_consecutive in I. lia. }
  split.
  { rewrite labels_consecutive, F. apply In_consecutive.
    clear F. destruct i; simpl; try discriminate B; lia. }
  destruct i; try discriminate B; injection B as <- <-; reflexivity.
Qed.

(** C9: under opnum 15, a case label of its switch between 0 and 20,
    NspiServerHandle returns (nil, nil) without reading from the reader
    and without calling a handler, which is what it does at every opnum
    that is no case label. *)
Theorem nspi_opnum_15_ignored (cv : Converter Nspi) ctx o r :
  case_labels Nspi = consecutive 0 21
  /\ In 15 (case_labels Nspi)
  /\ XxxServerHandle Nspi cv ctx o 15 r = Return (None, None)
  /\ (forall (W : Type) (env : Env (RequestType Nspi) (Method Nspi) W)
             (w : W),
        run env (XxxServerHandle Nspi cv ctx o 15 r) w
        = {| result := (None, None); world := w; trace := [] |})
  /\ (forall opNum, ~ In opNum (case_labels Nspi) ->
        XxxServerHandle Nspi cv ctx o opNum r
        = XxxServerHandle Nspi cv ctx o 15 r).
Proof.
  split; [reflexivity|].
  split; [simpl; tauto|].
  split; [reflexivity|].
  split; [reflexivity|].
  intros opNum N. apply handle_unknown; [reflexivity|].
  apply unknown_label. assumption.
Qed.

(** C10: for every interface, the closure NewXxxServerHandle(o) applied
    to a context, an opnum and a reader is XxxServerHandle applied to the
    context, o, the opnum and the reader, and RegisterXxxServer calls
    RegisterServer of the connection once, with that closure and with the
    options of the caller followed by the abstract syntax of the
    interface. *)
Theorem registered_handle_is_dispatch (i : Interface) (cv : Converter i)
        (syntax : SyntaxID) (o : Server) :
  (forall ctx opNum r,
     NewXxxServerHandle i cv o ctx opNum r
     = XxxServerHandle i cv ctx o opNum r)
  /\ NewXxxServerHandle i cv o
     = (fun ctx opNum r => XxxServerHandle i cv ctx o opNum r)
  /\ (forall (C : Type) (conn : Conn C) (opts : list Option) (c : C),
        RegisterXxxServer i cv syntax conn o opts c
        = RegisterServer conn (NewXxxServerHandle i cv o)
                         (opts ++ [WithAbstractSyntax syntax]) c).
Proof. destruct i; repeat split. Qed.
End Dispatchers.

(** ** The properties on the example runtime *)

#[local] Existing Instance Example.rt.

(** The two example servers answer alike on readers holding the same bytes. *)
Lemma example_same_behaviour (RT M : Type) :
  same_behaviour Example.same_buffer (Example.env RT M) (Example.env' RT M).
Proof.
  unfold same_behaviour, same_step, Example.same_buffer.
  repeat split; simpl; try assumption.
  - destruct w1 as [b1 s1], w2 as [b2 s2]; simpl in *; subst b2.
    destruct b1; reflexivity.
  - destruct w1 as [b1 s1], w2 as [b2 s2]; simpl in *; subst b2.
    destruct b1; reflexivity.
  - destruct w1 as [b1 s1], w2 as [b2 s2]; simpl in *; subst b2.
    destruct b1; reflexivity.
Qed.

(** The stubs at a few opnums. *)
Example shutdown_abort :
  Example.handled WindowsShutdown 1 [3; 4]
  = {| result := (Some 3, None);
       world := {| Example.buffer := [4]; Example.served := 1 |};
       trace := [EvUnmarshalNDR windowsshutdown.AbortShutdownRequest tt tt;
                 EvCall tt windowsshutdown.AbortShutdown tt 3] |}.
Proof. reflexivity. Qed.

Example dhcpsrv2_last_case :
  trace (Example.handled Dhcpsrv2 132 [3])
  = [EvUnmarshalNDR dhcpsrv2.GetClientInfoExV4Request tt tt;
     EvCall tt dhcpsrv2.GetClientInfoExV4 tt 3]
  /\ trace (Example.handled Dhcpsrv2 133 [3]) = [].
Proof. split; reflexivity. Qed.

Example data_factory3_bound :
  delegations (trace (Example.handled DataFactory3 8 [3]))
  = [(idatafactory2_DataFactory2ServerHandle, 8)]
  /\ decodings (trace (Example.handled DataFactory3 9 [3]))
     = [idatafactory3.ExecuteRequest].
Proof. split; reflexivity. Qed.

Example registered_options :
  RegisterXxxServer WindowsShutdown (@Example.xxx_ToOp _) 10
                    Example.recording tt [1; 2] []
  = [[1; 2; 10]].
Proof. reflexivity. Qed.

(** C1: the contract as the specification words it does not hold.
    WindowsShutdownServerHandle at opnum 2 returns
    (nil, nil), which is neither an operation with a nil error nor a nil
    operation with a non-nil error; at opnum 0, with a handler that returns
    a response and an error, it returns an operation and that error. *)
Lemma contract_as_stated_fails :
  result (Example.handled WindowsShutdown 2 [7]) = (None, None)
  /\ ~ contract_as_stated (result (Example.handled WindowsShutdown 2 [7]))
  /\ result (Example.handled WindowsShutdown 0 [5]) = (Some 5, Some 5)
  /\ ~ contract_as_stated (result (Example.handled WindowsShutdown 0 [5])).
Proof.
  split; [reflexivity|]. split.
  { intros [[op H]|[e H]]; discriminate H. }
  split; [reflexivity|].
  intros [[op H]|[e H]]; discriminate H.
Qed.

(** ServiceSANServerHandle at opnum 5, past its last case. *)
Lemma unknown_opnum_nil_nil_witness :
  delegated (base ServiceSAN) 5 = false
  /\ lookup 5 (table ServiceSAN) = None
  /\ Example.handled ServiceSAN 5 [7]
     = {| result := (None, None); world := Example.start [7]; trace := [] |}.
Proof.
  refine (conj eq_refl (conj eq_refl _)).
  exact (proj2 (@unknown_opnum_nil_nil Example.rt ServiceSAN
                  (@Example.xxx_ToOp _) tt tt 5 tt eq_refl eq_refl)
               _ (Example.env_of ServiceSAN) (Example.start [7])).
Defined.

(** CatalogUtils2ServerHandle at opnum 3 on an empty reader. *)
Lemma decode_failure_propagates_witness :
  lookup 3 (table CatalogUtils2)
  = Some (icatalogutils2.CopyConglomerationsRequest,
          icatalogutils2.CopyConglomerations)
  /\ unmarshal (Example.env_of CatalogUtils2)
               icatalogutils2.CopyConglomerationsRequest tt tt
               (Example.start [])
     = (0, Some 1783, Example.start [])
  /\ result (Example.handled CatalogUtils2 3 []) = (None, Some 1783)
  /\ handler_calls (trace (Example.handled CatalogUtils2 3 [])) = []
  /\ decodings (trace (Example.handled CatalogUtils2 3 []))
     = [icatalogutils2.CopyConglomerationsRequest]
  /\ trace (Example.handled CatalogUtils2 3 [])
     = [EvUnmarshalNDR icatalogutils2.CopyConglomerationsRequest tt tt]
  /\ world (Example.handled CatalogUtils2 3 []) = Example.start [].
Proof.
  refine (conj eq_refl (conj eq_refl _)).
  exact (@decode_failure_propagates Example.rt CatalogUtils2
           (@Example.xxx_ToOp _) tt tt 3 tt _ _ _ (Example.env_of CatalogUtils2)
           (Example.start []) _ _ _ eq_refl eq_refl).
Defined.

(** NspiServerHandle at opnum 0, the handler refusing the request. *)
Lemma handler_error_verbatim_witness :
  lookup 0 (table Nspi) = Some (nspi.BindRequest, nspi.Bind)
  /\ unmarshal (Example.env_of Nspi) nspi.BindRequest tt tt (Example.start [5])
     = (5, None, Example.start [])
  /\ invoke (Example.env_of Nspi) tt nspi.Bind tt 5 (Example.start [])
     = (Some 5, Some 5, {| Example.buffer := []; Example.served := 1 |})
  /\ snd (result (Example.handled Nspi 0 [5])) = Some 5.
Proof.
  refine (conj eq_refl (conj eq_refl (conj eq_refl _))).
  exact (@handler_error_verbatim Example.rt Nspi (@Example.xxx_ToOp _)
           tt tt 0 tt _ _ _ (Example.env_of Nspi) (Example.start [5])
           _ _ _ _ _ eq_refl eq_refl eq_refl).
Defined.

(** AppHostPropertyCollectionServerHandle at opnum 3. *)
Lemma one_call_one_response_witness :
  lookup 3 (table AppHostPropertyCollection)
  = Some (iapphostpropertycollection.GetCountRequest,
          iapphostpropertycollection.GetCount)
  /\ unmarshal (Example.env_of AppHostPropertyCollection)
               iapphostpropertycollection.GetCountRequest tt tt
               (Example.start [9; 4])
     = (9, None, Example.start [4])
  /\ invoke (Example.env_of AppHostPropertyCollection) tt
            iapphostpropertycollection.GetCount tt 9 (Example.start [4])
     = (Some 9, None, {| Example.buffer := [4]; Example.served := 1 |})
  /\ handler_calls (trace (Example.handled AppHostPropertyCollection 3 [9; 4]))
     = [(tt, iapphostpropertycollection.GetCount, 9)]
  /\ fst (result (Example.handled AppHostPropertyCollection 3 [9; 4]))
     = Some 9
  /\ decodings (trace (Example.handled AppHostPropertyCollection 3 [9; 4]))
     = [iapphostpropertycollection.GetCountRequest]
  /\ trace (Example.handled AppHostPropertyCollection 3 [9; 4])
     = [EvUnmarshalNDR iapphostpropertycollection.GetCountRequest tt tt;
        EvCall tt iapphostpropertycollection.GetCount tt 9]
  /\ world (Example.handled AppHostPropertyCollection 3 [9; 4])
     = {| Example.buffer := [4]; Example.served := 1 |}.
Proof.
  refine (conj eq_refl (conj eq_refl (conj eq_refl _))).
  exact (@one_call_one_response Example.rt AppHostPropertyCollection
           (@Example.xxx_ToOp _) tt tt 3 tt _ _ _
           (Example.env_of AppHostPropertyCollection)
           (Example.start [9; 4]) _ _ _ _ _ eq_refl eq_refl eq_refl).
Defined.

(** C6: not every case label has a request structure and a method.
    15 is a case label of NspiServerHandle, and under
    it no request structure is decoded and no method is called. *)
Lemma nspi_case_15_has_no_method :
  In 15 (case_labels Nspi)
  /\ lookup 15 (table Nspi) = None
  /\ Example.handled Nspi 15 [7]
     = {| result := (None, None); world := Example.start [7]; trace := [] |}
  /\ ~ (exists T m,
          XxxServerHandle Nspi (@Example.xxx_ToOp _) tt tt 15 tt
          = decode_call_convert (@Example.xxx_ToOp _) T m tt tt tt).
Proof.
  split; [simpl; tauto|].
  split; [reflexivity|].
  split; [reflexivity|].
  intros (T & m & H). discriminate H.
Qed.

(** VDiskProviderServerHandle at opnum 4, on two servers that count their
    calls differently and have served 0 and 40 calls before. *)
Lemma dispatch_effects_confined_witness :
  Example.same_buffer (Example.start [1; 2])
                      {| Example.buffer := [1; 2]; Example.served := 40 |}
  /\ stub_trace tt tt 4 tt (trace (Example.handled VDiskProvider 4 [1; 2]))
  /\ le (length (decodings (trace (Example.handled VDiskProvider 4 [1; 2]))))
        1%nat
  /\ le (length (handler_calls
                   (trace (Example.handled VDiskProvider 4 [1; 2])))) 1%nat
  /\ world (Example.handled VDiskProvider 4 [1; 2])
     = replay (Example.env_of VDiskProvider)
              (trace (Example.handled VDiskProvider 4 [1; 2]))
              (Example.start [1; 2])
  /\ result (Example.handled VDiskProvider 4 [1; 2])
     = result (run (Example.env'_of VDiskProvider)
                   (XxxServerHandle VDiskProvider (@Example.xxx_ToOp _)
                                    tt tt 4 tt)
                   {| Example.buffer := [1; 2]; Example.served := 40 |})
  /\ trace (Example.handled VDiskProvider 4 [1; 2])
     = trace (run (Example.env'_of VDiskProvider)
                  (XxxServerHandle VDiskProvider (@Example.xxx_ToOp _)
                                   tt tt 4 tt)
                  {| Example.buffer := [1; 2]; Example.served := 40 |})
  /\ Example.same_buffer
       (world (Example.handled VDiskProvider 4 [1; 2]))
       (world (run (Example.env'_of VDiskProvider)
                   (XxxServerHandle VDiskProvider (@Example.xxx_ToOp _)
                                    tt tt 4 tt)
                   {| Example.buffer := [1; 2]; Example.served := 40 |})).
Proof.
  refine (conj eq_refl _).
  exact (@dispatch_effects_confined Example.rt VDiskProvider
           (@Example.xxx_ToOp _) tt tt 4 tt _ _ Example.same_buffer
           (Example.env_of VDiskProvider) (Example.env'_of VDiskProvider)
           (Example.start [1; 2])
           {| Example.buffer := [1; 2]; Example.served := 40 |}
           (example_same_behaviour _ _) eq_refl).
Defined.

(** FileScreenTemplateServerHandle on either side of its bound. *)
Lemma base_opnums_delegated_witness :
  base FileScreenTemplate
  = Some (ifsrmfilescreenbase_FileScreenBaseServerHandle, 18)
  /\ Example.handled FileScreenTemplate 17 [7]
     = {| result := (Some 17, None); world := Example.start [7];
          trace := [EvDelegate ifsrmfilescreenbase_FileScreenBaseServerHandle
                               tt tt 17 tt] |}
  /\ delegations (trace (Example.handled FileScreenTemplate 18 [7])) = [].
Proof.
  refine (conj eq_refl _).
  pose proof (@base_opnums_delegated Example.rt FileScreenTemplate _ _ eq_refl)
    as (_ & H2 & H3 & _).
  split.
  - exact (H2 (@Example.xxx_ToOp _) tt tt 17 tt _
              (Example.env_of FileScreenTemplate)
              (Example.start [7]) eq_refl).
  - apply (H3 (@Example.xxx_ToOp _) tt tt 18 tt _
              (Example.env_of FileScreenTemplate)
              (Example.start [7])). discriminate.
Defined.

(** ** The documented opnums *)
Section Documented.
Context {rt : Runtime}.

Lemma documented_is_dispatched i m n :
  documented_opnum i m = Some n -> n = opnum_of i m.
Proof.
  destruct i; try discriminate; destruct m; simpl;
    intro H; try discriminate H; injection H as <-; reflexivity.
Qed.
End Documented.

(** ** Lists with one cell stored *)
Section Update.
Variable A : Type.

Lemma length_update (x : A) l : forall j, length (update j x l) = length l.
Proof.
  induction l as [|y t IH]; intros [|j]; simpl; auto.
Qed.

Lemma nth_error_update_eq (x : A) l :
  forall j, (j < length l)%nat -> nth_error (update j x l) j = Some x.
Proof.
  induction l as [|y t IH]; intros [|j] H; simpl in *; try lia; auto.
  apply IH. lia.
Qed.

Lemma nth_error_update_neq (x : A) l :
  forall j k, k <> j -> nth_error (update j x l) k = nth_error l k.
Proof.
  induction l as [|y t IH]; intros [|j] [|k] H; simpl; auto;
    try congruence; apply IH; congruence.
Qed.

Lemma nth_update_eq (x d : A) l :
  forall j, (j < length l)%nat -> nth j (update j x l) d = x.
Proof.
  induction l as [|y t IH]; intros [|j] H; simpl in *; try lia; auto.
  apply IH. lia.
Qed.

Lemma nth_update_neq (x d : A) l :
  forall j k, k <> j -> nth k (update j x l) d = nth k l d.
Proof.
  induction l as [|y t IH]; intros [|j] [|k] H; simpl; auto;
    try congruence; apply IH; congruence.
Qed.
End Update.

(** ** Appending to a slice *)
Section Appending.
Context {rt : Runtime}.
Variable spare : nat -> nat.
Variable zero : Option.

Lemma nth_error_elems h s j :
  nth_error (elems h s) j
  = if (j <? len s)%nat then nth_error (array h (arr s)) (off s + j)
    else None.
Proof.
  unfold elems. rewrite nth_error_firstn, nth_error_skipn. reflexivity.
Qed.

Lemma length_elems h s : valid h s -> length (elems h s) = len s.
Proof.
  intros [L C]. unfold elems. rewrite length_firstn, length_skipn. lia.
Qed.

Lemma valid_in_heap h s :
  valid h s -> (0 < cap s)%nat -> (arr s < length h)%nat.
Proof.
  intros [L C] P. unfold array in C.
  destruct (Nat.lt_ge_cases (arr s) (length h)) as [|G]; [assumption|].
  rewrite nth_overflow in C by assumption. simpl in C. lia.
Qed.

(** The cells after an append within the array of the slice. *)
Lemma append_in_place h s x a k :
  valid h s -> (len s < cap s)%nat ->
  snd (append spare zero h s x)
  = {| arr := arr s; off := off s; len := S (len s); cap := cap s |}
  /\ length (fst (append spare zero h s x)) = length h
  /\ nth_error (array (fst (append spare zero h s x)) a) k
     = if Nat.eqb a (arr s) && Nat.eqb k (off s + len s)
       then Some x else nth_error (array h a) k.
Proof.
  intros V L. pose proof (valid_in_heap V ltac:(lia)) as I.
  destruct V as [_ C]. unfold append.
  apply Nat.ltb_lt in L. rewrite L. apply Nat.ltb_lt in L. simpl.
  split; [reflexivity|]. split; [apply length_update|].
  unfold array at 1.
  destruct (Nat.eqb a (arr s)) eqn:E; simpl.
  - apply Nat.eqb_eq in E. subst a. rewrite nth_update_eq by assumption.
    destruct (Nat.eqb k (off s + len s)) eqn:K.
    + apply Nat.eqb_eq in K. subst k. apply nth_error_update_eq. lia.
    + apply Nat.eqb_neq in K. apply nth_error_update_neq. assumption.
  - apply Nat.eqb_neq in E. rewrite nth_update_neq by assumption.
    reflexivity.
Qed.

(** The arrays after an append that has to allocate. *)
Lemma append_allocates h s x :
  valid h s -> len s = cap s ->
  snd (append spare zero h s x)
  = {| arr := length h; off := 0; len := S (len s);
       cap := S (len s + spare (len s)) |}
  /\ fst (append spare zero h s x)
     = h ++ [elems h s ++ x :: repeat zero (spare (len s))].
Proof.
  intros V L. unfold append.
  assert (N : (len s <? cap s)%nat = false) by (apply Nat.ltb_ge; lia).
  rewrite N. split; reflexivity.
Qed.

Lemma array_kept h l a :
  (a < length h)%nat -> array (h ++ [l]) a = array h a.
Proof. intro H. unfold array. apply app_nth1. assumption. Qed.

Lemma array_new h l : array (h ++ [l]) (length h) = l.
Proof.
  unfold array. rewrite app_nth2 by lia. rewrite Nat.sub_diag. reflexivity.
Qed.

(** Whatever room the slice has, the slice that [append] returns holds
    the elements of its argument and then the new one, and the argument
    still holds what it held. *)
Lemma append_elems h s x :
  valid h s ->
  elems (fst (append spare zero h s x)) (snd (append spare zero h s x))
  = elems h s ++ [x]
  /\ elems (fst (append spare zero h s x)) s = elems h s
  /\ valid (fst (append spare zero h s x)) (snd (append spare zero h s x))
  /\ valid (fst (append spare zero h s x)) s.
Proof.
  intro V. pose proof (length_elems V) as LE.
  destruct (Nat.lt_ge_cases (len s) (cap s)) as [L|G].
  - assert (Cells := fun a k => proj2 (proj2 (append_in_place x a k V L))).
    destruct (append_in_place x 0%nat 0%nat V L) as (S' & _ & _).
    assert (Len : forall a,
               length (array (fst (append spare zero h s x)) a)
               = length (array h a)).
    { intro a. unfold append. apply Nat.ltb_lt in L. rewrite L. simpl.
      unfold array.
      destruct (Nat.eq_dec a (arr s)) as [->|N].
      - destruct (Nat.lt_ge_cases (arr s) (length h)).
        + rewrite nth_update_eq by assumption. apply length_update.
        + rewrite !nth_overflow; rewrite ?length_update; auto.
      - rewrite nth_update_neq by assumption. reflexivity. }
    rewrite S'. destruct V as [V1 V2].
    split; [|split; [|split]].
    + apply nth_error_ext. intro j. rewrite nth_error_elems. simpl.
      rewrite Cells, Nat.eqb_refl. simpl.
      destruct (Nat.lt_trichotomy j (len s)) as [J|[J|J]].
      * rewrite nth_error_app1 by lia. rewrite nth_error_elems.
        replace (j <? S (len s))%nat with true
          by (symmetry; apply Nat.ltb_lt; lia).
        replace (j <? len s)%nat with true
          by (symmetry; apply Nat.ltb_lt; lia).
        replace (Nat.eqb (off s + j) (off s + len s)) with false
          by (symmetry; apply Nat.eqb_neq; lia).
        reflexivity.
      * subst j. rewrite nth_error_app2 by lia.
        rewrite LE, Nat.sub_diag, Nat.eqb_refl.
        replace (len s <? S (len s))%nat with true
          by (symmetry; apply Nat.ltb_lt; lia).
        reflexivity.
      * replace (j <? S (len s))%nat with false
          by (symmetry; apply Nat.ltb_ge; lia).
        symmetry. apply nth_error_None. rewrite length_app, LE. simpl. lia.
    + apply nth_error_ext. intro j. rewrite !nth_error_elems.
      destruct (j <? len s)%nat eqn:J; [|reflexivity].
      apply Nat.ltb_lt in J. rewrite Cells, Nat.eqb_refl. simpl.
      replace (Nat.eqb (off s + j) (off s + len s)) with false
        by (symmetry; apply Nat.eqb_neq; lia).
      reflexivity.
    + split; simpl; [lia|]. rewrite Len. assumption.
    + split; [assumption|]. rewrite Len. assumption.
  - assert (E : len s = cap s) by (destruct V; lia).
    destruct (append_allocates x V E) as [S' H']. rewrite S', H'.
    split; [|split; [|split]].
    + unfold elems at 1. cbn [arr off len]. rewrite array_new.
      cbn [skipn].
      replace (S (len s)) with (length (elems h s) + 1)%nat by lia.
      rewrite firstn_app_2. reflexivity.
    + destruct (Nat.lt_ge_cases (arr s) (length h)) as [I|O].
      * unfold elems. rewrite array_kept by assumption. reflexivity.
      * assert (Z0 : len s = 0%nat).
        { destruct V as [V1 V2]. unfold array in V2.
          rewrite nth_overflow in V2 by assumption. simpl in V2. lia. }
        unfold elems. rewrite Z0. reflexivity.
    + split; simpl; [lia|]. rewrite array_new.
      rewrite length_app, LE. simpl. rewrite repeat_length. lia.
    + destruct V as [V1 V2]. split; [assumption|].
      destruct (Nat.lt_ge_cases (arr s) (length h)) as [I|O].
      * rewrite array_kept by assumption. assumption.
      * unfold array in V2. rewrite nth_overflow in V2 by assumption.
        simpl in V2. lia.
Qed.
End Appending.

(** ** Registration in memory *)
Section Registering.
Context {rt : Runtime}.
Variable spare : nat -> nat.
Variable zero : Option.

Lemma register_in_memory_unfold (i : Interface) (cv : Converter i) syntax
      (C : Type) (conn : Conn C) o opts h (c : C) :
  RegisterXxxServer_in_memory spare zero i cv syntax conn o opts h c
  = (fst (append spare zero h opts (WithAbstractSyntax syntax)),
     snd (append spare zero h opts (WithAbstractSyntax syntax)),
     RegisterServer conn (NewXxxServerHandle i cv o)
       (elems (fst (append spare zero h opts (WithAbstractSyntax syntax)))
              (snd (append spare zero h opts (WithAbstractSyntax syntax))))
       c).
Proof.
  unfold RegisterXxxServer_in_memory.
  destruct (append spare zero h opts (WithAbstractSyntax syntax)).
  reflexivity.
Qed.

Lemma register_list (i : Interface) (cv : Converter i) syntax
      (C : Type) (conn : Conn C) o opts (c : C) :
  RegisterXxxServer i cv syntax conn o opts c
  = RegisterServer conn (NewXxxServerHandle i cv o)
                   (opts ++ [WithAbstractSyntax syntax]) c.
Proof. destruct i; reflexivity. Qed.

Lemma own_not_delegated i opNum :
  first_own i <= opNum -> delegated (base i) opNum = false.
Proof.
  unfold first_own, delegated. destruct (base i) as [[b n]|]; [|reflexivity].
  intro H. apply Z.ltb_ge. assumption.
Qed.

(** X1: a method whose doc comment says "The opnum field value for this
    method is N" is the method the dispatch function decodes for and
    calls at opnum N. *)
Theorem documented_opnums_dispatch (i : Interface) (m : Method i) n :
  documented_opnum i m = Some n ->
  lookup n (table i) = Some (request_of i m, m)
  /\ forall (cv : Converter i) ctx o r,
       XxxServerHandle i cv ctx o n r
       = decode_call_convert cv (request_of i m) m ctx o r.
Proof.
  intro H. apply documented_is_dispatched in H. subst n.
  pose proof (table_complete i m) as T.
  split; [assumption|]. intros. apply handle_known. assumption.
Qed.

(** X2: the opnums of a dispatch function fall into three zones.  Below
    its first own opnum a derived stub calls the base dispatcher and the
    others return (nil, nil), negative opnums included.  From the first
    own opnum up to the last case label a request is decoded and a
    handler called, except at a reserved label.  Past the last label the
    result is (nil, nil).  No stub has a label below 0 or above 132. *)
Theorem opnum_zones (i : Interface) (cv : Converter i) ctx o opNum r :
  (opNum < first_own i ->
     match base i with
     | Some (b, _) =>
         XxxServerHandle i cv ctx o opNum r = delegate_to b ctx o opNum r
     | None => XxxServerHandle i cv ctx o opNum r = Return (None, None)
     end)
  /\ (first_own i <= opNum
                  < first_own i + Z.of_nat (length (case_labels i)) ->
      if reserved i opNum
      then XxxServerHandle i cv ctx o opNum r = Return (None, None)
      else exists T m,
             lookup opNum (table i) = Some (T, m)
             /\ XxxServerHandle i cv ctx o opNum r
                = decode_call_convert cv T m ctx o r)
  /\ (first_own i + Z.of_nat (length (case_labels i)) <= opNum ->
      XxxServerHandle i cv ctx o opNum r = Return (None, None))
  /\ 0 <= first_own i
  /\ first_own i + Z.of_nat (length (case_labels i)) <= 133.
Proof.
  assert (Out : ~ In opNum (case_labels i) -> first_own i <= opNum ->
                XxxServerHandle i cv ctx o opNum r = Return (None, None)).
  { intros N F. apply handle_unknown.
    - apply own_not_delegated. assumption.
    - apply unknown_label. assumption. }
  assert (Lab : In opNum (case_labels i)
                <-> first_own i <= opNum
                    < first_own i + Z.of_nat (length (case_labels i))).
  { rewrite labels_consecutive at 1. apply In_consecutive. }
  split.
  { intro L. unfold first_own in *. destruct (base i) as [[b n]|] eqn:B.
    - eapply handle_delegated; eassumption.
    - apply handle_unknown.
      + unfold delegated. rewrite B. reflexivity.
      + apply unknown_label. intro I. apply Lab in I. lia. }
  split.
  { intro R. apply Lab in R. destruct (reserved i opNum) eqn:V.
    - apply handle_unknown.
      + apply own_not_delegated. apply Lab in R. lia.
      + apply lookup_None. rewrite table_labels. intro I.
        apply filter_In in I. destruct I as [_ I]. rewrite V in I.
        discriminate I.
    - destruct (label_known _ _ R V) as (T & m & E).
      exists T, m. split; [assumption|]. apply handle_known. assumption. }
  split.
  { intro P. apply Out; [rewrite Lab; lia|].
    pose proof (Zle_0_nat (length (case_labels i))). lia. }
  split; destruct i; vm_compute; discriminate.
Qed.

(** X3: whatever room the options slice of the caller has,
    [RegisterXxxServer] hands [conn.RegisterServer] a slice that holds
    the options of the caller followed by the abstract syntax of the
    interface: on every heap it registers what it registers on the list
    of the caller's options. *)
Theorem register_in_memory_hands_over (i : Interface) (cv : Converter i)
        syntax (C : Type) (conn : Conn C) o opts h (c : C) :
  valid h opts ->
  elems (fst (fst (RegisterXxxServer_in_memory spare zero i cv syntax
                     conn o opts h c)))
        (snd (fst (RegisterXxxServer_in_memory spare zero i cv syntax
                     conn o opts h c)))
  = elems h opts ++ [WithAbstractSyntax syntax]
  /\ snd (RegisterXxxServer_in_memory spare zero i cv syntax conn o opts h c)
     = RegisterXxxServer i cv syntax conn o (elems h opts) c
  /\ valid (fst (fst (RegisterXxxServer_in_memory spare zero i cv syntax
                        conn o opts h c)))
           (snd (fst (RegisterXxxServer_in_memory spare zero i cv syntax
                        conn o opts h c))).
Proof.
  intro V. rewrite register_in_memory_unfold. simpl.
  destruct (append_elems spare zero (WithAbstractSyntax syntax) V)
    as (E & _ & W & _).
  rewrite E, register_list. auto.
Qed.

(** X4: [RegisterXxxServer] leaves the options of the caller as they
    were, allocates at most one array and writes at most one cell of the
    existing ones, the cell after the last option of the caller; a slice
    that does not reach over that cell reads what it read before.  When
    the slice of the caller is full, no existing array is written. *)
Theorem register_in_memory_frame (i : Interface) (cv : Converter i)
        syntax (C : Type) (conn : Conn C) o opts h (c : C) :
  valid h opts ->
  elems (fst (fst (RegisterXxxServer_in_memory spare zero i cv syntax
                     conn o opts h c))) opts
  = elems h opts
  /\ (length h
      <= length (fst (fst (RegisterXxxServer_in_memory spare zero i cv
                             syntax conn o opts h c)))
      <= S (length h))%nat
  /\ (forall a k, (a < length h)%nat ->
        a <> arr opts \/ k <> (off opts + len opts)%nat ->
        nth_error
          (array (fst (fst (RegisterXxxServer_in_memory spare zero i cv
                              syntax conn o opts h c))) a) k
        = nth_error (array h a) k)
  /\ (forall s, (arr s < length h)%nat ->
        arr s <> arr opts
        \/ (off s + len s <= off opts + len opts)%nat
        \/ (off opts + len opts < off s)%nat ->
        elems (fst (fst (RegisterXxxServer_in_memory spare zero i cv
                           syntax conn o opts h c))) s
        = elems h s)
  /\ (len opts = cap opts ->
      firstn (length h)
             (fst (fst (RegisterXxxServer_in_memory spare zero i cv
                          syntax conn o opts h c)))
      = h
      /\ arr (snd (fst (RegisterXxxServer_in_memory spare zero i cv
                          syntax conn o opts h c)))
         = length h).
Proof.
  intro V. rewrite register_in_memory_unfold. simpl.
  set (x := WithAbstractSyntax syntax).
  destruct (append_elems spare zero x V) as (_ & E & _ & _).
  split; [exact E|].
  assert (Cells : forall a k, (a < length h)%nat ->
            a <> arr opts \/ k <> (off opts + len opts)%nat ->
            nth_error (array (fst (append spare zero h opts x)) a) k
            = nth_error (array h a) k).
  { intros a k A N.
    destruct (Nat.lt_ge_cases (len opts) (cap opts)) as [L|G].
    - destruct (append_in_place spare zero x a k V L) as (_ & _ & ->).
      destruct (Nat.eqb a (arr opts)) eqn:E1; [|reflexivity].
      destruct (Nat.eqb k (off opts + len opts)) eqn:E2; [|reflexivity].
      apply Nat.eqb_eq in E1, E2. lia.
    - assert (Q : len opts = cap opts) by (destruct V; lia).
      destruct (append_allocates spare zero x V Q) as (_ & ->).
      rewrite array_kept by assumption. reflexivity. }
  split.
  { destruct (Nat.lt_ge_cases (len opts) (cap opts)) as [L|G].
    - destruct (append_in_place spare zero x 0%nat 0%nat V L)
        as (_ & -> & _). lia.
    - assert (Q : len opts = cap opts) by (destruct V; lia).
      destruct (append_allocates spare zero x V Q) as (_ & ->).
      rewrite length_app. simpl. lia. }
  split; [exact Cells|].
  split.
  { intros s A N. apply nth_error_ext. intro j.
    rewrite !nth_error_elems.
    destruct (j <? len s)%nat eqn:J; [|reflexivity].
    apply Nat.ltb_lt in J. apply Cells; [assumption|]. lia. }
  intro Q. destruct (append_allocates spare zero x V Q) as (-> & ->).
  split; [|reflexivity].
  rewrite firstn_app, Nat.sub_diag, firstn_all. simpl.
  apply app_nil_r.
Qed.

(** X5: two registrations from one options slice with room to grow
    share its array.  Both are handed the same window; when the second
    is made, the slice the first was handed ends in the abstract syntax
    of the second interface, while each connection call was given its
    own syntax at the time it was made. *)
Theorem register_twice_shares_array (i j : Interface) (cvi : Converter i)
        (cvj : Converter j) syn_i syn_j (C : Type) (conn : Conn C)
        oi oj opts h (c : C) :
  valid h opts -> (len opts < cap opts)%nat ->
  let first :=
    RegisterXxxServer_in_memory spare zero i cvi syn_i conn oi opts h c in
  let second :=
    RegisterXxxServer_in_memory spare zero j cvj syn_j conn oj opts
                                (fst (fst first)) (snd first) in
  snd (fst second) = snd (fst first)
  /\ arr (snd (fst first)) = arr opts
  /\ elems (fst (fst first)) (snd (fst first))
     = elems h opts ++ [WithAbstractSyntax syn_i]
  /\ elems (fst (fst second)) (snd (fst first))
     = elems h opts ++ [WithAbstractSyntax syn_j]
  /\ snd second
     = RegisterXxxServer j cvj syn_j conn oj (elems h opts)
         (RegisterXxxServer i cvi syn_i conn oi (elems h opts) c).
Proof.
  intros V L first second. subst first second.
  rewrite !register_in_memory_unfold. simpl.
  set (xi := WithAbstractSyntax syn_i). set (xj := WithAbstractSyntax syn_j).
  destruct (append_elems spare zero xi V) as (E1 & K1 & _ & V1).
  destruct (append_elems spare zero xj V1) as (E2 & _ & _ & _).
  destruct (append_in_place spare zero xi 0%nat 0%nat V L) as (S1 & _ & _).
  destruct (append_in_place spare zero xj 0%nat 0%nat V1 L) as (S2 & _ & _).
  rewrite K1 in E2.
  split; [congruence|].
  split; [rewrite S1; reflexivity|].
  split; [assumption|].
  split; [rewrite S1, <- S2; assumption|].
  rewrite E1, E2, !register_list. reflexivity.
Qed.

(** X6: two registrations from one full options slice do not meet.
    Each is handed an array of its own, and the slice the first was
    handed still ends in the abstract syntax of the first interface
    when the second has been made. *)
Theorem register_twice_full_slice (i j : Interface) (cvi : Converter i)
        (cvj : Converter j) syn_i syn_j (C : Type) (conn : Conn C)
        oi oj opts h (c : C) :
  valid h opts -> len opts = cap opts ->
  let first :=
    RegisterXxxServer_in_memory spare zero i cvi syn_i conn oi opts h c in
  let second :=
    RegisterXxxServer_in_memory spare zero j cvj syn_j conn oj opts
                                (fst (fst first)) (snd first) in
  arr (snd (fst first)) = length h
  /\ arr (snd (fst second)) = S (length h)
  /\ elems (fst (fst second)) (snd (fst first))
     = elems h opts ++ [WithAbstractSyntax syn_i]
  /\ elems (fst (fst second)) (snd (fst second))
     = elems h opts ++ [WithAbstractSyntax syn_j]
  /\ snd second
     = RegisterXxxServer j cvj syn_j conn oj (elems h opts)
         (RegisterXxxServer i cvi syn_i conn oi (elems h opts) c).
Proof.
  intros V Q first second. subst first second.
  rewrite !register_in_memory_unfold. simpl.
  set (xi := WithAbstractSyntax syn_i). set (xj := WithAbstractSyntax syn_j).
  destruct (append_elems spare zero xi V) as (E1 & K1 & W1 & V1).
  destruct (append_elems spare zero xj V1) as (E2 & _ & _ & _).
  destruct (append_allocates spare zero xi V Q) as (S1 & H1).
  destruct (append_allocates spare zero xj V1 Q) as (S2 & H2).
  rewrite K1 in E2.
  split; [rewrite S1; reflexivity|].
  split; [rewrite S2, H1, length_app; simpl; lia|].
  split.
  { rewrite <- E1. rewrite H2.
    unfold elems. rewrite array_kept; [reflexivity|].
    rewrite S1, H1, length_app. simpl. lia. }
  split; [assumption|].
  rewrite E1, E2, !register_list. reflexivity.
Qed.
End Registering.

(** ** The further properties on the example runtime *)

(** AppRecover of WAMAdmin, documented and dispatched at opnum 8. *)
Lemma documented_opnums_dispatch_witness :
  documented_opnum WAMAdmin iwamadmin.AppRecover = Some 8
  /\ lookup 8 (table WAMAdmin)
     = Some (iwamadmin.AppRecoverRequest, iwamadmin.AppRecover)
  /\ trace (Example.handled WAMAdmin 8 [6])
     = [EvUnmarshalNDR iwamadmin.AppRecoverRequest tt tt;
        EvCall tt iwamadmin.AppRecover tt 6].
Proof.
  refine (conj eq_refl _).
  pose proof (@documented_opnums_dispatch Example.rt WAMAdmin
                iwamadmin.AppRecover 8 eq_refl) as [H1 H2].
  split; [exact H1|].
  unfold Example.handled.
  rewrite (H2 (@Example.xxx_ToOp _) tt tt tt). reflexivity.
Defined.

(** Registering from the slice with room. *)
Lemma register_in_memory_hands_over_witness :
  valid ExampleMemory.heap ExampleMemory.roomy
  /\ elems (fst (fst (ExampleMemory.register Nspi 10 ExampleMemory.roomy
                        ExampleMemory.heap [])))
           (snd (fst (ExampleMemory.register Nspi 10 ExampleMemory.roomy
                        ExampleMemory.heap [])))
     = [1; 2; 10]
  /\ snd (ExampleMemory.register Nspi 10 ExampleMemory.roomy
            ExampleMemory.heap [])
     = [[1; 2; 10]].
Proof.
  assert (V : valid ExampleMemory.heap ExampleMemory.roomy)
    by (split; simpl; lia).
  split; [exact V|].
  pose proof (@register_in_memory_hands_over Example.rt ExampleMemory.spare 0
                Nspi (@Example.xxx_ToOp _) 10 _ Example.recording tt
                ExampleMemory.roomy ExampleMemory.heap [] V) as (H1 & H2 & _).
  split; [exact H1 | exact H2].
Defined.

(** Registering from the slice with room writes the third cell of its
    array and nothing else; registering from the full one writes none. *)
Lemma register_in_memory_frame_witness :
  valid ExampleMemory.heap ExampleMemory.roomy
  /\ elems (fst (fst (ExampleMemory.register Nspi 10 ExampleMemory.roomy
                        ExampleMemory.heap [])))
           ExampleMemory.roomy
     = [1; 2]
  /\ fst (fst (ExampleMemory.register Nspi 10 ExampleMemory.roomy
                 ExampleMemory.heap []))
     = [[1; 2; 10; 0]]
  /\ nth_error
       (array (fst (fst (ExampleMemory.register Nspi 10 ExampleMemory.roomy
                           ExampleMemory.heap []))) 0) 3
     = Some 0.
Proof.
  assert (V : valid ExampleMemory.heap ExampleMemory.roomy)
    by (split; simpl; lia).
  split; [exact V|].
  pose proof (@register_in_memory_frame Example.rt ExampleMemory.spare 0
                Nspi (@Example.xxx_ToOp _) 10 _ Example.recording tt
                ExampleMemory.roomy ExampleMemory.heap [] V)
    as (H1 & _ & H3 & _).
  split; [exact H1|]. split; [reflexivity|].
  apply (H3 0%nat 3%nat); [simpl; lia | right; simpl; lia].
Defined.

(** WindowsShutdown, then Nspi, from the slice with room. *)
Lemma register_twice_shares_array_witness :
  valid ExampleMemory.heap ExampleMemory.roomy
  /\ (len ExampleMemory.roomy < cap ExampleMemory.roomy)%nat
  /\ elems (fst (fst (ExampleMemory.register WindowsShutdown 10
                        ExampleMemory.roomy ExampleMemory.heap [])))
           (snd (fst (ExampleMemory.register WindowsShutdown 10
                        ExampleMemory.roomy ExampleMemory.heap [])))
     = [1; 2; 10]
  /\ elems (fst (fst (ExampleMemory.register Nspi 20 ExampleMemory.roomy
                        (fst (fst (ExampleMemory.register WindowsShutdown 10
                                     ExampleMemory.roomy ExampleMemory.heap
                                     [])))
                        (snd (ExampleMemory.register WindowsShutdown 10
                                ExampleMemory.roomy ExampleMemory.heap
                                [])))))
           (snd (fst (ExampleMemory.register WindowsShutdown 10
                        ExampleMemory.roomy ExampleMemory.heap [])))
     = [1; 2; 20].
Proof.
  assert (V : valid ExampleMemory.heap ExampleMemory.roomy)
    by (split; simpl; lia).
  assert (L : (len ExampleMemory.roomy < cap ExampleMemory.roomy)%nat)
    by (simpl; lia).
  split; [exact V|]. split; [exact L|].
  pose proof (@register_twice_shares_array Example.rt ExampleMemory.spare 0
                WindowsShutdown Nspi (@Example.xxx_ToOp _)
                (@Example.xxx_ToOp _) 10 20 _ Example.recording tt tt
                ExampleMemory.roomy ExampleMemory.heap [] V L)
    as (_ & _ & H3 & H4 & _).
  split; [exact H3 | exact H4].
Defined.

(** WindowsShutdown, then Nspi, from the full slice. *)
Lemma register_twice_full_slice_witness :
  valid ExampleMemory.heap ExampleMemory.full
  /\ len ExampleMemory.full = cap ExampleMemory.full
  /\ elems (fst (fst (ExampleMemory.register Nspi 20 ExampleMemory.full
                        (fst (fst (ExampleMemory.register WindowsShutdown 10
                                     ExampleMemory.full ExampleMemory.heap
                                     [])))
                        (snd (ExampleMemory.register WindowsShutdown 10
                                ExampleMemory.full ExampleMemory.heap
                                [])))))
           (snd (fst (ExampleMemory.register WindowsShutdown 10
                        ExampleMemory.full ExampleMemory.heap [])))
     = [1; 2; 10]
  /\ fst (fst (ExampleMemory.register Nspi 20 ExampleMemory.full
                 (fst (fst (ExampleMemory.register WindowsShutdown 10
                              ExampleMemory.full ExampleMemory.heap [])))
                 (snd (ExampleMemory.register WindowsShutdown 10
                         ExampleMemory.full ExampleMemory.heap []))))
     = [[1; 2; 0; 0]; [1; 2; 10; 0; 0; 0]; [1; 2; 20; 0; 0; 0]].
Proof.
  assert (V : valid ExampleMemory.heap ExampleMemory.full)
    by (split; simpl; lia).
  split; [exact V|]. split; [reflexivity|].
  pose proof (@register_twice_full_slice Example.rt ExampleMemory.spare 0
                WindowsShutdown Nspi (@Example.xxx_ToOp _)
                (@Example.xxx_ToOp _) 10 20 _ Example.recording tt tt
                ExampleMemory.full ExampleMemory.heap [] V eq_refl)
    as (_ & _ & H3 & _).
  split; [exact H3 | reflexivity].
Defined.
